(** * Nirma-Timetable: the timetable viewer of [app.py]

    A shallow embedding of the lookup performed by [app.py]: the roster scan
    ([get_student_courses]), the cell matcher (the [pattern] built in the page
    loop and handed to [re.search]), the start-time helper
    ([extract_start_time]) and the pandas pipeline that merges, deduplicates
    and sorts the matches.

    Python strings are sequences of Unicode code points, so a string is a
    [list N].  The regular expressions are kept as pattern text, compiled by
    an embedding of the [re] parser and run by a backtracking matcher, because
    the page interpolates file-name pieces into the pattern text.  The
    frames of the pipeline are lists of rows, in order, and a call that can
    raise returns an [outcome].  The library calls are those of CPython 3.11
    and pandas 2; what they read from tables of their own (the Unicode
    database, the date formats of [pd.to_datetime]) is a parameter of the
    development.  The spreadsheet reader, the widgets of the page, the cards
    and the export are outside the embedding. *)

From Stdlib Require Import String Ascii.
From Stdlib Require Import List NArith ZArith Bool Arith Lia.
From Stdlib Require Import Permutation Sorted.
Import ListNotations.

Local Open Scope N_scope.

(** ** Strings *)

Definition str := list N.

Definition chr (a : ascii) : N := N_of_ascii a.

(** An ASCII literal as a Python string. *)
Definition py (x : string) : str := map N_of_ascii (list_ascii_of_string x).

Fixpoint str_eqb (a b : str) : bool :=
  match a, b with
  | [], [] => true
  | x :: a', y :: b' => (x =? y) && str_eqb a' b'
  | _, _ => false
  end.

(** [s.startswith(p)] *)
Fixpoint startswith (p s : str) : bool :=
  match p, s with
  | [], _ => true
  | x :: p', y :: s' => (x =? y) && startswith p' s'
  | _ :: _, [] => false
  end.

(** [s.endswith(p)] *)
Definition endswith (p s : str) : bool := startswith (rev p) (rev s).

(** [p in s] for strings *)
Fixpoint contains (p s : str) : bool :=
  startswith p s || match s with [] => false | _ :: t => contains p t end.

(** [s.replace(old, new)]: the occurrences of [old] are replaced from left
    to right and do not overlap; [skip] counts the characters of an
    occurrence still to be passed over. *)
Fixpoint replace_from (old new : str) (skip : nat) (s : str) : str :=
  match s with
  | [] => []
  | c :: t =>
      match skip with
      | S k => replace_from old new k t
      | O =>
          if startswith old s
          then new ++ replace_from old new (length old - 1) t
          else c :: replace_from old new 0 t
      end
  end.

Definition replace (old new s : str) : str :=
  match old with
  | [] => new ++ flat_map (fun c => c :: new) s
  | _ => replace_from old new 0 s
  end.

(** [s.split(sep)] for a non-empty separator: the pieces between the
    occurrences of [sep], always at least one piece. *)
Fixpoint split_from (sep : str) (skip : nat) (cur : str) (s : str) : list str :=
  match s with
  | [] => [rev cur]
  | c :: t =>
      match skip with
      | S k => split_from sep k cur t
      | O =>
          if startswith sep s
          then rev cur :: split_from sep (length sep - 1) [] t
          else split_from sep 0 (c :: cur) t
      end
  end.

Definition split (sep s : str) : list str := split_from sep 0 [] s.

(** ** The Unicode character database

    [re] and the [str] methods classify code points with CPython's Unicode
    tables.  Below 128 the classes are written out; above, they are read from
    a table that the development takes as a parameter. *)

Record unicode_db := {
  ud_isalnum : N -> bool;
  ud_decimal : N -> option nat;
  ud_isspace : N -> bool;
  ud_tolower : N -> N;
  ud_upper : N -> list N
}.

(** The table with no entry above ASCII, for closed examples on ASCII text. *)
Definition ascii_db : unicode_db :=
  {| ud_isalnum := fun _ => false;
     ud_decimal := fun _ => None;
     ud_isspace := fun _ => false;
     ud_tolower := fun c => c;
     ud_upper := fun c => [c] |}.

Definition between (lo hi c : N) : bool := (lo <=? c) && (c <=? hi).

Section Unicode.

Variable U : unicode_db.

(** [Py_UNICODE_ISSPACE]: tab to carriage return, the four separators
    0x1C-0x1F and the space. *)
Definition isspace (c : N) : bool :=
  if c <? 128 then between 9 13 c || between 28 32 c else ud_isspace U c.

(** [Py_UNICODE_TODECIMAL]: the value of a decimal digit. *)
Definition decimal (c : N) : option nat :=
  if c <? 128
  then if between 48 57 c then Some (N.to_nat (c - 48)) else None
  else ud_decimal U c.

Definition isdecimal (c : N) : bool :=
  match decimal c with Some _ => true | None => false end.

Definition isalnum (c : N) : bool :=
  if c <? 128
  then between 48 57 c || between 65 90 c || between 97 122 c
  else ud_isalnum U c.

(** The word characters of [\w] and [\b]. *)
Definition isword (c : N) : bool := isalnum c || (c =? 95).

Definition tolower (c : N) : N :=
  if c <? 128 then (if between 65 90 c then c + 32 else c) else ud_tolower U c.

(** [s.upper()] *)
Definition upper (s : str) : str :=
  flat_map (fun c => if c <? 128
                     then [if between 97 122 c then c - 32 else c]
                     else ud_upper U c) s.

Fixpoint lstrip (s : str) : str :=
  match s with
  | c :: t => if isspace c then lstrip t else s
  | [] => []
  end.

(** [s.strip()] *)
Definition strip (s : str) : str := rev (lstrip (rev (lstrip s))).

End Unicode.

(** ** Exceptions

    What a call can raise: [re.error] from [re]; [ValueError] from
    [strptime] and from the merge; [AttributeError] from the [.str]
    accessor; [KeyError] from a frame without the column asked for;
    [OverflowError] from a repeat count too large for [re].  [NotModelled]
    is no exception of Python: it marks pattern syntax that the embedding
    of [re] leaves out (see the parser), for which the embedding tells
    nothing. *)

Inductive exn :=
| ReError
| ValueError
| AttributeError
| KeyError
| OverflowError
| NotModelled.

Inductive outcome (A : Type) : Type :=
| Ok (a : A)
| Raise (e : exn).

Arguments Ok {A} a.
Arguments Raise {A} e.

Definition bind {A B} (x : outcome A) (k : A -> outcome B) : outcome B :=
  match x with
  | Ok a => k a
  | Raise e => Raise e
  end.

Notation "x <- e ;; k" := (bind e (fun x => k))
  (at level 61, e at next level, right associativity).
Notation "' p <- e ;; k" := (bind e (fun x => match x with p => k end))
  (at level 61, p pattern, e at next level, right associativity).

(** ** Regular expressions: the parsed form

    The constructors follow the opcodes of CPython's parser: [LITERAL],
    [ANY], [IN] (a character set), [BRANCH], [MAX_REPEAT] (a greedy repeat),
    [MIN_REPEAT] (a lazy repeat), [SUBPATTERN] (a capturing group), [ASSERT] /
    [ASSERT_NOT] (lookahead) and [AT] (the zero-width positions). *)

Inductive category := CATEGORY_DIGIT | CATEGORY_SPACE | CATEGORY_WORD.

Inductive set_item :=
| SChar (c : N)
| SRange (lo hi : N)
| SCategory (negated : bool) (k : category).

Inductive at_code :=
| AT_BEGINNING
| AT_BEGINNING_STRING
| AT_END
| AT_END_STRING
| AT_BOUNDARY
| AT_NON_BOUNDARY.

Inductive regex :=
| EMPTY
| LITERAL (c : N)
| ANY
| IN (negated : bool) (items : list set_item)
| SEQ (a b : regex)
| BRANCH (a b : regex)
| MAX_REPEAT (lo : nat) (hi : option nat) (a : regex)
| MIN_REPEAT (lo : nat) (hi : option nat) (a : regex)
| SUBPATTERN (n : nat) (a : regex)
| ASSERT (negated : bool) (a : regex)
| AT (code : at_code).

(** ** [re.escape]

    A backslash goes before each of the special characters
    [()[]{}?*+-|^$\.&~#], the space and the five ASCII blanks. *)

Definition special_chars : str :=
  py "()[]{}?*+-|^$\.&~# " ++ [9; 10; 13; 11; 12].

Definition is_special (c : N) : bool := existsb (N.eqb c) special_chars.

Definition re_escape (s : str) : str :=
  flat_map (fun c => if is_special c then [chr "\"; c] else [c]) s.

(** ** The pattern parser

    The parser follows [re._parser] of CPython 3.11 for a [str] pattern
    compiled without flags.  It answers [Raise NotModelled] where the
    embedding stops: possessive repeats and atomic groups (new in Python
    3.11, an error before), lookbehind, references to a group and
    conditional groups, flags and comments inside the pattern, [\N{...}],
    a group name with a character above ASCII, and a repeat count of more
    than 4300 digits (the interpreter's limit on the conversion to [int],
    which can be set).  The depth of the interpreter's stack is not
    embedded. *)

Record pstate := {
  next_group : nat;
  group_names : list (str * nat)
}.

Definition MAXREPEAT : N := 4294967295.
Definition MAXGROUPS : N := 1073741823.
Definition max_str_digits : nat := 4300.

Definition is_ascii_digit (c : N) : bool := between 48 57 c.
Definition is_ascii_letter (c : N) : bool := between 65 90 c || between 97 122 c.

Definition oct_value (c : N) : option N :=
  if between 48 55 c then Some (c - 48) else None.

Definition hex_value (c : N) : option N :=
  if between 48 57 c then Some (c - 48)
  else if between 97 102 c then Some (c - 87)
  else if between 65 70 c then Some (c - 55)
  else None.

(** [source.getwhile(n, charset)] for digits of a base: the digits read, at
    most [n], their count and the number they write after [acc]. *)
Fixpoint getwhile (digit : N -> option N) (base : N) (n : nat) (acc : N) (s : str)
  : nat * N * str :=
  match n, s with
  | S n', c :: t =>
      match digit c with
      | Some d =>
          let '(k, v, rest) := getwhile digit base n' (base * acc + d) t in
          (S k, v, rest)
      | None => (O, acc, s)
      end
  | _, _ => (O, acc, s)
  end.

(** The longest run of ASCII digits at the head of the source. *)
Fixpoint read_digits (s : str) : str * str :=
  match s with
  | c :: t =>
      if is_ascii_digit c
      then let '(digits, rest) := read_digits t in (c :: digits, rest)
      else ([], s)
  | [] => ([], s)
  end.

(** [int(digits)] *)
Definition number (digits : str) : N :=
  fold_left (fun acc c => 10 * acc + (c - 48)) digits 0.

(** A bound of a repeat: nothing written is [default]; a number from
    [MAXREPEAT] on is refused with [OverflowError]. *)
Definition repeat_count (default : N) (digits : str) : outcome N :=
  match digits with
  | [] => Ok default
  | _ =>
      if (max_str_digits <? length digits)%nat then Raise NotModelled
      else if MAXREPEAT <=? number digits then Raise OverflowError
      else Ok (number digits)
  end.

(** A repeat operator at the head of the source, if there is one: [*], [+],
    [?] or a well-formed [{m}], [{m,}], [{,n}], [{m,n}]. A brace that opens
    no well-formed repeat is left in place: it is a literal.  The tokenizer
    looks one character ahead, so a lone backslash that ends the pattern
    right after the closing brace is reported before the bounds are read. *)
Definition parse_repeat (s : str) : outcome (option (nat * option nat * str)) :=
  match s with
  | c :: t =>
      if c =? chr "*" then Ok (Some (0%nat, None, t))
      else if c =? chr "+" then Ok (Some (1%nat, None, t))
      else if c =? chr "?" then Ok (Some (0%nat, Some 1%nat, t))
      else if c =? chr "{" then
        match t with
        | d :: _ =>
            if d =? chr "}" then Ok None
            else
              let '(lo, t1) := read_digits t in
              let '(hi, t2) :=
                match t1 with
                | e :: t1' => if e =? chr "," then read_digits t1' else (lo, t1)
                | [] => (lo, t1)
                end in
              match t2 with
              | f :: t3 =>
                  if f =? chr "}" then
                    match t3 with
                    | [92] => Raise ReError
                    | _ =>
                        lo' <- repeat_count 0 lo ;;
                        hi' <- repeat_count MAXREPEAT hi ;;
                        if hi' <? lo' then Raise ReError
                        else Ok (Some (N.to_nat lo',
                                       if hi' =? MAXREPEAT then None
                                       else Some (N.to_nat hi'),
                                       t3))
                    end
                  else Ok None
              | [] => Ok None
              end
        | [] => Ok None
        end
      else Ok None
  | [] => Ok None
  end.

(** [\x], [\u] and [\U] with exactly [width] hexadecimal digits.  A code
    point above 0x10FFFF is refused, by [chr]: with [OverflowError] where
    it does not fit a C [int].  A lone backslash that ends the pattern
    right after the digits is reported first. *)
Definition hex_escape (width : nat) (rest : str) : outcome (N * str) :=
  let '(k, v, rest') := getwhile hex_value 16 width 0 rest in
  if negb (Nat.eqb k width) then Raise ReError
  else
    match rest' with
    | [92] => Raise ReError
    | _ =>
        if 2147483647 <? v then Raise OverflowError
        else if 1114111 <? v then Raise ReError
        else Ok (v, rest')
    end.

(** [\N{...}] names a character of the Unicode database. *)
Definition named_escape {A} (rest : str) : outcome A :=
  match rest with
  | c :: _ => if c =? chr "{" then Raise NotModelled else Raise ReError
  | [] => Raise ReError
  end.

(** A decimal escape that is no octal escape refers to a group: to one not
    yet opened it is an error. *)
Definition group_reference {A} (group : N) (st : pstate) : outcome A :=
  if group <? N.of_nat (next_group st) then Raise NotModelled else Raise ReError.

(** [_escape]: the character [c] after a backslash, outside a set, with the
    source after it. *)
Definition parse_escape (c : N) (rest : str) (st : pstate) : outcome (regex * str) :=
  if c =? chr "A" then Ok (AT AT_BEGINNING_STRING, rest)
  else if c =? chr "b" then Ok (AT AT_BOUNDARY, rest)
  else if c =? chr "B" then Ok (AT AT_NON_BOUNDARY, rest)
  else if c =? chr "d" then Ok (IN false [SCategory false CATEGORY_DIGIT], rest)
  else if c =? chr "D" then Ok (IN false [SCategory true CATEGORY_DIGIT], rest)
  else if c =? chr "s" then Ok (IN false [SCategory false CATEGORY_SPACE], rest)
  else if c =? chr "S" then Ok (IN false [SCategory true CATEGORY_SPACE], rest)
  else if c =? chr "w" then Ok (IN false [SCategory false CATEGORY_WORD], rest)
  else if c =? chr "W" then Ok (IN false [SCategory true CATEGORY_WORD], rest)
  else if c =? chr "Z" then Ok (AT AT_END_STRING, rest)
  else if c =? chr "n" then Ok (LITERAL 10, rest)
  else if c =? chr "t" then Ok (LITERAL 9, rest)
  else if c =? chr "r" then Ok (LITERAL 13, rest)
  else if c =? chr "f" then Ok (LITERAL 12, rest)
  else if c =? chr "v" then Ok (LITERAL 11, rest)
  else if c =? chr "a" then Ok (LITERAL 7, rest)
  else if c =? chr "x" then '(v, rest') <- hex_escape 2 rest ;; Ok (LITERAL v, rest')
  else if c =? chr "u" then '(v, rest') <- hex_escape 4 rest ;; Ok (LITERAL v, rest')
  else if c =? chr "U" then '(v, rest') <- hex_escape 8 rest ;; Ok (LITERAL v, rest')
  else if c =? chr "N" then named_escape rest
  else if c =? chr "0" then
    let '(_, v, rest') := getwhile oct_value 8 2 0 rest in Ok (LITERAL v, rest')
  else if is_ascii_digit c then
    match rest with
    | d :: rest1 =>
        if is_ascii_digit d then
          match oct_value c, oct_value d, rest1 with
          | Some x, Some y, e :: rest2 =>
              match oct_value e with
              | Some z =>
                  if 255 <? 64 * x + 8 * y + z then Raise ReError
                  else Ok (LITERAL (64 * x + 8 * y + z), rest2)
              | None => group_reference (10 * (c - 48) + (d - 48)) st
              end
          | _, _, _ => group_reference (10 * (c - 48) + (d - 48)) st
          end
        else group_reference (c - 48) st
    | [] => group_reference (c - 48) st
    end
  else if is_ascii_letter c then Raise ReError
  else Ok (LITERAL c, rest).

(** [_class_escape]: one member of a set, the character [c] at the head,
    with the rest of the source after it. *)
Definition parse_set_member (c : N) (rest : str) : outcome (set_item * str) :=
  if c =? chr "\" then
    match rest with
    | [] => Raise ReError
    | e :: rest' =>
        if e =? chr "d" then Ok (SCategory false CATEGORY_DIGIT, rest')
        else if e =? chr "D" then Ok (SCategory true CATEGORY_DIGIT, rest')
        else if e =? chr "s" then Ok (SCategory false CATEGORY_SPACE, rest')
        else if e =? chr "S" then Ok (SCategory true CATEGORY_SPACE, rest')
        else if e =? chr "w" then Ok (SCategory false CATEGORY_WORD, rest')
        else if e =? chr "W" then Ok (SCategory true CATEGORY_WORD, rest')
        else if e =? chr "n" then Ok (SChar 10, rest')
        else if e =? chr "t" then Ok (SChar 9, rest')
        else if e =? chr "r" then Ok (SChar 13, rest')
        else if e =? chr "f" then Ok (SChar 12, rest')
        else if e =? chr "v" then Ok (SChar 11, rest')
        else if e =? chr "a" then Ok (SChar 7, rest')
        else if e =? chr "b" then Ok (SChar 8, rest')
        else if e =? chr "x" then '(v, r) <- hex_escape 2 rest' ;; Ok (SChar v, r)
        else if e =? chr "u" then '(v, r) <- hex_escape 4 rest' ;; Ok (SChar v, r)
        else if e =? chr "U" then '(v, r) <- hex_escape 8 rest' ;; Ok (SChar v, r)
        else if e =? chr "N" then named_escape rest'
        else if is_ascii_digit e then
          match oct_value e with
          | Some x =>
              let '(_, v, r) := getwhile oct_value 8 2 x rest' in
              if 255 <? v then Raise ReError else Ok (SChar v, r)
          | None => Raise ReError
          end
        else if is_ascii_letter e then Raise ReError
        else Ok (SChar e, rest')
    end
  else Ok (SChar c, rest).

(** The members of a set up to its closing bracket; a bracket that comes
    first is a member. *)
Fixpoint parse_set (fuel : nat) (first : bool) (acc : list set_item) (s : str)
  : outcome (list set_item * str) :=
  match fuel with
  | O => Raise NotModelled
  | S fuel' =>
      match s with
      | [] => Raise ReError
      | c :: rest =>
          if (c =? chr "]") && negb first then Ok (rev acc, rest)
          else
            '(lo, rest1) <- parse_set_member c rest ;;
            match rest1 with
            | d :: c2 :: rest2 =>
                if d =? chr "-" then
                  if c2 =? chr "]" then Ok (rev (SChar (chr "-") :: lo :: acc), rest2)
                  else
                    '(hi, rest3) <- parse_set_member c2 rest2 ;;
                    match lo, hi with
                    | SChar l, SChar h =>
                        if h <? l then Raise ReError
                        else parse_set fuel' false (SRange l h :: acc) rest3
                    | _, _ => Raise ReError
                    end
                else parse_set fuel' false (lo :: acc) rest1
            | _ => parse_set fuel' false (lo :: acc) rest1
            end
      end
  end.

(** A repeat operator applied to the item just parsed: greedy, or lazy
    with [?] after it; [+] after it asks for a possessive repeat.  Another
    operator after that is [re]'s "multiple repeat". *)
Definition parse_repeated (a : regex) (rest : str) : outcome (regex * str) :=
  r <- parse_repeat rest ;;
  match r with
  | None => Ok (a, rest)
  | Some (lo, hi, rest1) =>
      match a with
      | AT _ => Raise ReError
      | _ =>
          let '(q, rest2) :=
            match rest1 with
            | c :: t => if c =? chr "?" then (MIN_REPEAT lo hi a, t)
                        else (MAX_REPEAT lo hi a, rest1)
            | [] => (MAX_REPEAT lo hi a, rest1)
            end in
          match rest2 with
          | c :: _ =>
              if c =? chr "+"
              then match q with
                   | MAX_REPEAT _ _ _ => Raise NotModelled
                   | _ => Raise ReError
                   end
              else
                r2 <- parse_repeat rest2 ;;
                match r2 with
                | None => Ok (q, rest2)
                | Some _ => Raise ReError
                end
          | [] => Ok (q, rest2)
          end
      end
  end.

(** The closing parenthesis of a group. *)
Definition parse_close {A} (a : A) (rest : str) (st : pstate)
  : outcome (A * str * pstate) :=
  match rest with
  | c :: rest' => if c =? chr ")" then Ok (a, rest', st) else Raise ReError
  | [] => Raise ReError
  end.

(** [name.isidentifier()] for an ASCII name. *)
Definition isidentifier (name : str) : bool :=
  match name with
  | [] => false
  | c :: t =>
      (is_ascii_letter c || (c =? chr "_"))
      && forallb (fun x => is_ascii_letter x || is_ascii_digit x || (x =? chr "_")) t
  end.

(** The text of a group name, up to its closing angle bracket.  A backslash
    takes the next character with it, and is no character of a name. *)
Fixpoint getuntil (acc : str) (s : str) : outcome (str * str) :=
  match s with
  | [] => Raise ReError
  | c :: t =>
      if c =? chr ">"
      then match acc with [] => Raise ReError | _ => Ok (rev acc, t) end
      else if c =? chr "\" then Raise ReError
      else getuntil (c :: acc) t
  end.

(** The name of a named group, checked as [checkgroupname] does. *)
Definition parse_name (s : str) : outcome (str * str) :=
  '(name, rest) <- getuntil [] s ;;
  if existsb (fun c => 128 <=? c) name then Raise NotModelled
  else if isidentifier name then Ok (name, rest)
  else Raise ReError.

(** [state.opengroup(name)]: the number of the new group; too many groups
    and a name used twice are errors. *)
Definition open_group (name : option str) (st : pstate) : outcome (nat * pstate) :=
  let n := next_group st in
  if MAXGROUPS <? N.of_nat (S n) then Raise ReError
  else
    match name with
    | Some x =>
        if existsb (fun p => str_eqb (fst p) x) (group_names st) then Raise ReError
        else Ok (n, {| next_group := S n; group_names := group_names st ++ [(x, n)] |})
    | None => Ok (n, {| next_group := S n; group_names := group_names st |})
    end.

(** The recursive descent: alternatives, then a sequence of repeated items,
    then one item.  [fuel] bounds the depth of the descent. *)
Fixpoint parse_branch (fuel : nat) (s : str) (st : pstate)
  : outcome (regex * str * pstate) :=
  match fuel with
  | O => Raise NotModelled
  | S fuel' =>
      '(a, rest, st1) <- parse_items fuel' s st ;;
      match rest with
      | c :: rest' =>
          if c =? chr "|" then
            '(b, rest2, st2) <- parse_branch fuel' rest' st1 ;;
            Ok (BRANCH a b, rest2, st2)
          else Ok (a, rest, st1)
      | [] => Ok (a, rest, st1)
      end
  end
with parse_items (fuel : nat) (s : str) (st : pstate)
  : outcome (regex * str * pstate) :=
  match fuel with
  | O => Raise NotModelled
  | S fuel' =>
      match s with
      | [] => Ok (EMPTY, s, st)
      | c :: t =>
          if (c =? chr "|") || (c =? chr ")") then Ok (EMPTY, s, st)
          else
            '(a, rest, st1) <- parse_item fuel' c t st ;;
            '(q, rest1) <- parse_repeated a rest ;;
            '(b, rest2, st2) <- parse_items fuel' rest1 st1 ;;
            Ok (SEQ q b, rest2, st2)
      end
  end
with parse_item (fuel : nat) (c : N) (t : str) (st : pstate)
  : outcome (regex * str * pstate) :=
  match fuel with
  | O => Raise NotModelled
  | S fuel' =>
      if c =? chr "(" then
        match t with
        | [] => Raise ReError
        | q :: t1 =>
            if q =? chr "?" then
              match t1 with
              | [] => Raise ReError
              | k :: t2 =>
                  if k =? chr ":" then
                    '(a, r, st1) <- parse_branch fuel' t2 st ;;
                    parse_close a r st1
                  else if k =? chr "=" then
                    '(a, r, st1) <- parse_branch fuel' t2 st ;;
                    parse_close (ASSERT false a) r st1
                  else if k =? chr "!" then
                    '(a, r, st1) <- parse_branch fuel' t2 st ;;
                    parse_close (ASSERT true a) r st1
                  else if k =? chr "P" then
                    match t2 with
                    | lt :: t3 =>
                        if lt =? chr "<" then
                          '(name, t4) <- parse_name t3 ;;
                          '(n, st') <- open_group (Some name) st ;;
                          '(a, r, st1) <- parse_branch fuel' t4 st' ;;
                          parse_close (SUBPATTERN n a) r st1
                        else if lt =? chr "=" then Raise NotModelled
                        else Raise ReError
                    | [] => Raise ReError
                    end
                  else if k =? chr "<" then
                    match t2 with
                    | d :: _ =>
                        if (d =? chr "=") || (d =? chr "!") then Raise NotModelled
                        else Raise ReError
                    | [] => Raise ReError
                    end
                  else if existsb (N.eqb k) (py "#(>-aiLmsxtu") then Raise NotModelled
                  else Raise ReError
              end
            else
              '(n, st') <- open_group None st ;;
              '(a, r, st1) <- parse_branch fuel' t st' ;;
              parse_close (SUBPATTERN n a) r st1
        end
      else if c =? chr "[" then
        let '(negated, t') :=
          match t with
          | x :: t1 => if x =? chr "^" then (true, t1) else (false, t)
          | [] => (false, t)
          end in
        '(items, rest) <- parse_set (S (length t')) true [] t' ;;
        Ok (IN negated items, rest, st)
      else if c =? chr "\" then
        match t with
        | [] => Raise ReError
        | e :: rest => '(a, rest') <- parse_escape e rest st ;; Ok (a, rest', st)
        end
      else if c =? chr "." then Ok (ANY, t, st)
      else if c =? chr "^" then Ok (AT AT_BEGINNING, t, st)
      else if c =? chr "$" then Ok (AT AT_END, t, st)
      else if (c =? chr "*") || (c =? chr "+") || (c =? chr "?") then Raise ReError
      else if c =? chr "{" then
        r <- parse_repeat (c :: t) ;;
        match r with
        | None => Ok (LITERAL c, t, st)
        | Some _ => Raise ReError
        end
      else Ok (LITERAL c, t, st)
  end.

(** A compiled pattern: its parsed form and the table of group names. *)
Record compiled := {
  re_code : regex;
  re_names : list (str * nat)
}.

(** [re.compile(pattern)].  Text left over after the alternatives is an
    unbalanced closing parenthesis. *)
Definition re_compile (pattern : str) : outcome compiled :=
  '(a, rest, st) <- parse_branch (3 * length pattern + 4) pattern
                      {| next_group := 1; group_names := [] |} ;;
  match rest with
  | [] => Ok {| re_code := a; re_names := group_names st |}
  | _ => Raise ReError
  end.
(** ** The matcher *)

Definition captures := list (nat * str).

Definition set_group (n : nat) (text : str) (g : captures) : captures :=
  (n, text) :: filter (fun p => negb (Nat.eqb (fst p) n)) g.

Definition get_group (n : nat) (g : captures) : option str :=
  option_map snd (find (fun p => Nat.eqb (fst p) n) g).

(** A match object: where the match starts and ends, its text, the groups
    that took part and the names of the pattern's groups. *)
Record match_obj := {
  m_start : nat;
  m_end : nat;
  m_text : str;
  m_groups : captures;
  m_names : list (str * nat)
}.

(** [m.group(n)] for a group that took part in the match. *)
Definition group (m : match_obj) (n : nat) : str :=
  match n with
  | O => m_text m
  | _ => match get_group n (m_groups m) with Some t => t | None => [] end
  end.

(** [m.groupdict()[name]] *)
Definition group_named (m : match_obj) (name : str) : option str :=
  match find (fun p => str_eqb (fst p) name) (m_names m) with
  | Some (_, n) => get_group n (m_groups m)
  | None => None
  end.

Section Matcher.

Variable U : unicode_db.

(** The flag [re.IGNORECASE]. *)
Variable ignorecase : bool.

Definition in_category (k : category) (c : N) : bool :=
  match k with
  | CATEGORY_DIGIT => isdecimal U c
  | CATEGORY_SPACE => isspace U c
  | CATEGORY_WORD => isword U c
  end.

(** A literal against a character: under [IGNORECASE] both are lowered. *)
Definition literal_eq (c x : N) : bool :=
  if ignorecase then tolower U x =? tolower U c else x =? c.

Definition in_item (it : set_item) (x : N) : bool :=
  match it with
  | SChar c => literal_eq c x
  | SRange lo hi => between lo hi x || (ignorecase && between lo hi (tolower U x))
  | SCategory negated k => xorb negated (in_category k x)
  end.

Definition word_at (c : option N) : bool :=
  match c with Some x => isword U x | None => false end.

(** The zero-width positions. [prev] is the character before the position
    ([None] at the start of the string), [s] the text from the position on.
    [$] is the end of the string or the place before a final newline; [\A]
    and [\Z] are the two ends of the string. *)
Definition at_position (code : at_code) (prev : option N) (s : str) : bool :=
  match code with
  | AT_BEGINNING | AT_BEGINNING_STRING =>
      match prev with None => true | Some _ => false end
  | AT_END => match s with [] => true | [c] => c =? 10 | _ => false end
  | AT_END_STRING => match s with [] => true | _ :: _ => false end
  | AT_BOUNDARY => xorb (word_at prev) (word_at (hd_error s))
  | AT_NON_BOUNDARY =>
      match prev, s with
      | None, [] => false
      | _, _ => negb (xorb (word_at prev) (word_at (hd_error s)))
      end
  end.

Definition cont := option N -> str -> captures -> option (str * captures).

(** The loop of a greedy repeat.  [step] matches the repeated item once and
    [k] is what follows the repeat; [lo] and [hi] count the iterations still
    required and still allowed.  One more iteration is tried first, and the
    repeat ends where no further iteration leads to a match.  After an
    iteration that was not required and consumed nothing the repeat ends, so
    [n], the length of the text plus the required iterations, bounds the
    loop. *)
Fixpoint repeat_loop
  (step : option N -> str -> captures -> cont -> option (str * captures))
  (k : cont) (n lo : nat) (hi : option nat) (prev : option N) (s : str)
  (g : captures) {struct n} : option (str * captures) :=
  let stop := match lo with O => k prev s g | S _ => None end in
  match n with
  | O => stop
  | S n' =>
      match hi with
      | Some O => stop
      | _ =>
          match step prev s g
                  (fun p' s' g' =>
                     if (length s' <? length s)%nat || (0 <? lo)%nat
                     then repeat_loop step k n' (pred lo) (option_map pred hi) p' s' g'
                     else k p' s' g') with
          | Some res => Some res
          | None => stop
          end
      end
  end.

(** The loop of a lazy repeat: once the required iterations are done, what
    follows the repeat is tried first, and one more iteration only where
    that fails. *)
Fixpoint min_repeat_loop
  (step : option N -> str -> captures -> cont -> option (str * captures))
  (k : cont) (n lo : nat) (hi : option nat) (prev : option N) (s : str)
  (g : captures) {struct n} : option (str * captures) :=
  match n with
  | O => match lo with O => k prev s g | S _ => None end
  | S n' =>
      let again :=
        match hi with
        | Some O => None
        | _ =>
            step prev s g
              (fun p' s' g' =>
                 if (length s' <? length s)%nat || (0 <? lo)%nat
                 then min_repeat_loop step k n' (pred lo) (option_map pred hi) p' s' g'
                 else k p' s' g')
        end in
      match lo with
      | S _ => again
      | O =>
          match k prev s g with
          | Some res => Some res
          | None => again
          end
      end
  end.

(** The backtracking matcher, in continuation-passing style: [run r prev s g k]
    matches [r] at the head of [s] and hands what is left to [k]; when [k]
    fails, the next way of matching [r] is tried.  Alternatives are tried in
    order, as in [re]. *)
Fixpoint run (r : regex) (prev : option N) (s : str) (g : captures) (k : cont)
  {struct r} : option (str * captures) :=
  match r with
  | EMPTY => k prev s g
  | LITERAL c =>
      match s with
      | x :: t => if literal_eq c x then k (Some x) t g else None
      | [] => None
      end
  | ANY =>
      match s with
      | x :: t => if x =? 10 then None else k (Some x) t g
      | [] => None
      end
  | IN negated items =>
      match s with
      | x :: t =>
          if xorb negated (existsb (fun it => in_item it x) items)
          then k (Some x) t g else None
      | [] => None
      end
  | SEQ a b => run a prev s g (fun p' s' g' => run b p' s' g' k)
  | BRANCH a b =>
      match run a prev s g k with
      | Some res => Some res
      | None => run b prev s g k
      end
  | MAX_REPEAT lo hi a =>
      repeat_loop (run a) k (length s + lo + 1)%nat lo hi prev s g
  | MIN_REPEAT lo hi a =>
      min_repeat_loop (run a) k (length s + lo + 1)%nat lo hi prev s g
  | SUBPATTERN n a =>
      run a prev s g
        (fun p' s' g' =>
           k p' s' (set_group n (firstn (length s - length s') s) g'))
  | ASSERT negated a =>
      match run a prev s g (fun _ s' g' => Some (s', g')) with
      | Some (_, g') => if negated then None else k prev s g'
      | None => if negated then k prev s g else None
      end
  | AT code => if at_position code prev s then k prev s g else None
  end.

Definition match_at (c : compiled) (start : nat) (prev : option N) (s : str)
  : option match_obj :=
  match run (re_code c) prev s [] (fun _ s' g => Some (s', g)) with
  | Some (s', g) =>
      let n := (length s - length s')%nat in
      Some {| m_start := start; m_end := (start + n)%nat; m_text := firstn n s;
              m_groups := g; m_names := re_names c |}
  | None => None
  end.

(** The scan of [re.search]: the first position, from the left, where the
    pattern matches. *)
Fixpoint search_from (c : compiled) (start : nat) (prev : option N) (s : str)
  : option match_obj :=
  match match_at c start prev s with
  | Some m => Some m
  | None =>
      match s with
      | [] => None
      | x :: t => search_from c (S start) (Some x) t
      end
  end.

(** [re.search(pattern, string, flags)] *)
Definition re_search (pattern string : str) : outcome (option match_obj) :=
  c <- re_compile pattern ;; Ok (search_from c 0 None string).

(** [re.compile(pattern, flags).match(string)] *)
Definition re_match (pattern string : str) : outcome (option match_obj) :=
  c <- re_compile pattern ;; Ok (match_at c 0 None string).

End Matcher.

(** ** [datetime.strptime] for the two formats of the helper

    [_strptime] turns the format into a pattern: the characters special to
    [re] are escaped, a run of blanks becomes [\s+], and each directive
    becomes a named group (here in the C locale, whose day halves are "am" and
    "pm").  The data must match from its start ([match]) and to its end. *)

Record time := {
  hour : nat;
  minute : nat
}.

Definition time_regex_chars : str := py "\.^$*+?(){}[]|".

Definition directive_pattern (d : N) : outcome str :=
  if d =? chr "I" then Ok (py "(?P<I>1[0-2]|0[1-9]|[1-9])")
  else if d =? chr "M" then Ok (py "(?P<M>[0-5]\d|\d)")
  else if d =? chr "p" then Ok (py "(?P<p>am|pm)")
  else if d =? chr "%" then Ok (py "%")
  else Raise NotModelled.

Section App.

Variable U : unicode_db.

(** [TimeRE.pattern(format)]; [blank] tells that the previous character of
    the format was a blank, already turned into [\s+]. *)
Fixpoint time_re_pattern (blank : bool) (format : str) : outcome str :=
  match format with
  | [] => Ok []
  | c :: t =>
      if c =? chr "%" then
        match t with
        | d :: t' =>
            x <- directive_pattern d ;;
            rest <- time_re_pattern false t' ;;
            Ok (x ++ rest)
        | [] => Raise ValueError
        end
      else if isspace U c then
        rest <- time_re_pattern true t ;;
        Ok (if blank then rest else py "\s+" ++ rest)
      else
        rest <- time_re_pattern false t ;;
        Ok (if existsb (N.eqb c) time_regex_chars then chr "\" :: c :: rest
            else c :: rest)
  end.

(** [int(text)] on a run of decimal digits. *)
Fixpoint int_of (acc : nat) (text : str) : option nat :=
  match text with
  | [] => Some acc
  | c :: t =>
      match decimal U c with
      | Some d => int_of (10 * acc + d)%nat t
      | None => None
      end
  end.

(** The hour of a 12-hour clock and its day half: 12 AM is midnight, 12 PM
    is noon. *)
Definition hour_of (i : nat) (ampm : str) : nat :=
  if str_eqb ampm (py "pm")
  then (if Nat.eqb i 12 then i else i + 12)%nat
  else (if Nat.eqb i 12 then 0 else i)%nat.

Definition lower (s : str) : str := map (tolower U) s.

(** [datetime.strptime(data_string, format).time()] *)
Definition strptime (data_string format : str) : outcome time :=
  pat <- time_re_pattern false format ;;
  found <- re_match U true pat data_string ;;
  match found with
  | None => Raise ValueError
  | Some m =>
      if negb (Nat.eqb (m_end m) (length data_string)) then Raise ValueError
      else
        let h :=
          match group_named m (py "I") with
          | Some i =>
              match int_of 0 i with
              | Some n =>
                  hour_of n (match group_named m (py "p") with
                             | Some p => lower p
                             | None => []
                             end)
              | None => 0%nat
              end
          | None => 0%nat
          end in
        let mi :=
          match group_named m (py "M") with
          | Some x => match int_of 0 x with Some n => n | None => 0%nat end
          | None => 0%nat
          end in
        Ok {| hour := h; minute := mi |}
  end.

(** ** [extract_start_time] *)

Definition start_time_pattern : str := py "(\d{1,2}[:.]?\d{0,2}\s*[AP]M)".

(** The two [try] blocks catch every exception, so a failed parse falls
    through to the next format and then to [None]. *)
Definition extract_start_time (session : str) : option time :=
  let session := strip U (replace [10] (py " ") session) in
  match re_search U true start_time_pattern session with
  | Ok (Some m) =>
      let time_str := upper U (replace (py ".") (py ":") (group m 1)) in
      match strptime time_str (py "%I:%M%p") with
      | Ok t => Some t
      | Raise _ =>
          match strptime time_str (py "%I%p") with
          | Ok t => Some t
          | Raise _ => None
          end
      end
  | _ => None
  end.

(** ** The cell matcher of the page loop *)

(** [course.split("_")[0]] *)
Definition subject_code (course : str) : str := hd [] (split (py "_") course).

(** [course.split("_")[1] if "_" in course else ""] *)
Definition div_code (course : str) : str :=
  if contains (py "_") course then nth 1 (split (py "_") course) [] else [].

(** The pattern text for one course.  The subject code goes through
    [re.escape]; the division code is pasted in as it is.  8217 is the
    typographic apostrophe. *)
Definition pattern (subject_code div_code : str) : str :=
  match div_code with
  | _ :: _ =>
      py "\b" ++ re_escape subject_code ++ py "\(['" ++ [8217] ++ py "]?\s*"
        ++ div_code ++ py "\)"
  | [] => py "\b" ++ re_escape subject_code ++ py "(?!\()"
  end.

(** [re.search(pattern, cell)] as a truth value. *)
Definition cell_matches (subject_code div_code cell : str) : outcome bool :=
  m <- re_search U false (pattern subject_code div_code) cell ;;
  Ok (match m with Some _ => true | None => false end).

End App.

(** ** The two patterns in closed form

    What the two patterns ask of a cell, written on the cell text itself;
    the properties below show that [cell_matches] computes them. *)

(** The parsed form of a run of literal characters followed by [r]. *)
Definition literals (s : str) (r : regex) : regex :=
  fold_right (fun c r => SEQ (LITERAL c) r) r s.

(** At most one apostrophe, straight or typographic; any number of blanks. *)
Definition apostrophes : regex :=
  MAX_REPEAT 0 (Some 1%nat) (IN false [SChar 39; SChar 8217]).

Definition blanks : regex :=
  MAX_REPEAT 0 None (IN false [SCategory false CATEGORY_SPACE]).

Definition unqualified_code (subject : str) : compiled :=
  {| re_code :=
       SEQ (AT AT_BOUNDARY)
         (literals subject (SEQ (ASSERT true (SEQ (LITERAL 40) EMPTY)) EMPTY));
     re_names := [] |}.

Definition qualified_code (subject div : str) : compiled :=
  {| re_code :=
       SEQ (AT AT_BOUNDARY)
         (literals subject
            (SEQ (LITERAL 40)
               (SEQ apostrophes
                  (SEQ blanks (literals div (SEQ (LITERAL 41) EMPTY))))));
     re_names := [] |}.

(** A division code in which [re.escape] would find nothing to escape. *)
Definition plain (s : str) : bool := forallb (fun c => negb (is_special c)) s.

Definition start_state : pstate := {| next_group := 1; group_names := [] |}.

Definition final : cont := fun _ s g => Some (s, g).

Definition succeeds {A} (x : option A) : bool :=
  match x with Some _ => true | None => false end.

(** The character before the position reached after the text [s]. *)
Definition prev_after (s : str) (prev : option N) : option N :=
  fold_left (fun _ c => Some c) s prev.

(** The subject code stands at this position: after a word boundary and not
    before an opening parenthesis. *)
Definition unqualified_here (U : unicode_db) (subject : str)
  (prev : option N) (s : str) : bool :=
  at_position U AT_BOUNDARY prev s
  && startswith subject s
  && negb (startswith [40] (skipn (length subject) s)).

(** ... at this position or at a later one. *)
Fixpoint unqualified_hit (U : unicode_db) (subject : str)
  (prev : option N) (s : str) : bool :=
  unqualified_here U subject prev s
  || match s with
     | [] => false
     | c :: t => unqualified_hit U subject (Some c) t
     end.

(** Blanks, then the division code and the closing parenthesis. *)
Fixpoint division_tail (U : unicode_db) (div : str) (s : str) : bool :=
  startswith (div ++ [41]) s
  || match s with
     | x :: t => isspace U x && division_tail U div t
     | [] => false
     end.

(** The subject code stands at this position after a word boundary,
    followed by an opening parenthesis, at most one apostrophe, blanks, the
    division code and a closing parenthesis. *)
Definition qualified_here (U : unicode_db) (subject div : str)
  (prev : option N) (s : str) : bool :=
  at_position U AT_BOUNDARY prev s
  && startswith subject s
  && match skipn (length subject) s with
     | x :: t =>
         (x =? 40)
         && (match t with
             | y :: t' => ((y =? 39) || (y =? 8217)) && division_tail U div t'
             | [] => false
             end
             || division_tail U div t)
     | [] => false
     end.

Fixpoint qualified_hit (U : unicode_db) (subject div : str)
  (prev : option N) (s : str) : bool :=
  qualified_here U subject div prev s
  || match s with
     | [] => false
     | c :: t => qualified_hit U subject div (Some c) t
     end.

(** ** Sheets and frames

    A cell of a spreadsheet holds text, a whole number or nothing; cells
    that hold a fraction or a truth value are left out, and so are dates
    outside the [Date] column of the timetable.  Spreadsheets keep numbers
    as doubles: the whole numbers of a sheet are below 2^53 in magnitude,
    and a float holds them exactly.

    [pd.read_excel] gives each column one type: [object] when the column
    holds text, [float64] when it holds no text and has an empty cell,
    [int64] when it holds whole numbers only.  An empty cell is read as
    [NaN].  A frame is the list of its named columns. *)

Inductive cell :=
| CStr (s : str)
| CInt (z : Z)
| CNaN.

Definition is_text (v : cell) : bool :=
  match v with CStr _ => true | _ => false end.

Definition is_blank (v : cell) : bool :=
  match v with CNaN => true | _ => false end.

(** The column holds text somewhere. *)
Definition has_text (col : list cell) : bool := existsb is_text col.

Inductive dtype := Object | Float64 | Int64.

(** The type that pandas gives a column; a column without rows is [object]. *)
Definition dtype_of (col : list cell) : dtype :=
  match col with
  | [] => Object
  | _ => if has_text col then Object
         else if existsb is_blank col then Float64 else Int64
  end.

Definition is_float (d : dtype) : bool :=
  match d with Float64 => true | _ => false end.

Definition is_numeric (d : dtype) : bool :=
  match d with Object => false | _ => true end.

Fixpoint digits (fuel : nat) (n : N) (acc : str) : str :=
  match fuel with
  | O => acc
  | S fuel' =>
      let acc' := (48 + n mod 10) :: acc in
      if n <? 10 then acc' else digits fuel' (n / 10) acc'
  end.

Definition str_of_N (n : N) : str := digits (S (N.size_nat n)) n [].

(** [str(z)] of an [int]. *)
Definition int_str (z : Z) : str :=
  match z with
  | Zneg p => chr "-" :: str_of_N (Npos p)
  | _ => str_of_N (Z.to_N z)
  end.

(** [str(float(z))] of a whole number below 2^53 in magnitude. *)
Definition float_str (z : Z) : str := int_str z ++ py ".0".

(** [str(v)] of a value: a whole number taken from a [float64] column, or
    from a row that [iterrows] has turned into floats, is a float. *)
Definition py_str (as_float : bool) (v : cell) : str :=
  match v with
  | CStr s => s
  | CInt z => if as_float then float_str z else int_str z
  | CNaN => py "nan"
  end.

(** [col.astype(str)] *)
Definition astype_str (col : list cell) : list str :=
  map (py_str (is_float (dtype_of col))) col.

Definition cell_eqb (a b : cell) : bool :=
  match a, b with
  | CStr x, CStr y => str_eqb x y
  | CInt x, CInt y => Z.eqb x y
  | CNaN, CNaN => true
  | _, _ => false
  end.

Definition frame := list (str * list cell).

(** [name in df.columns] *)
Definition has_column (name : str) (df : frame) : bool :=
  existsb (fun col => str_eqb (fst col) name) df.

(** [df[name]] *)
Definition column (name : str) (df : frame) : list cell :=
  match find (fun col => str_eqb (fst col) name) df with
  | Some col => snd col
  | None => []
  end.

(** ** The roster scan *)

(** An entry of [os.listdir(ROLL_LIST_DIR)] with the sheet that
    [pd.read_excel] reads from it. *)
Record roster_file := {
  file_name : str;
  file_sheet : frame
}.

Definition roll_column : str := py "Roll No.".

(** The test of line 33: the sheet has the column and the roll number is one
    of its values, each turned into text. *)
Definition lists_roll (roll_no : str) (df : frame) : bool :=
  has_column roll_column df
  && existsb (str_eqb roll_no) (astype_str (column roll_column df)).

Definition get_student_courses (roll_no : str) (listing : list roster_file)
  : list str :=
  fold_left
    (fun student_courses f =>
       let file := file_name f in
       if endswith (py ".xlsx") file then
         let df := file_sheet f in
         if lists_roll roll_no df
         then let base := replace (py ".xlsx") [] file in
              student_courses ++ [base]
         else student_courses
       else student_courses)
    listing [].

(** ** The weekly timetable and the matches

    The first two columns of the weekly sheet are [Date] and [Day]; the
    others are the session slots.  A cell of the [Date] column holds the
    timestamp of a date (a [Timestamp] of pandas, as an instant on a
    scale), or is any other cell: text, a whole number or nothing. *)

Inductive date_cell :=
| DStamp (t : Z)
| DCell (v : cell).

Record weekly_row := {
  row_Date : date_cell;
  row_Day : cell;
  row_cells : list cell
}.

Record weekly := {
  session_cols : list str;
  weekly_rows : list weekly_row
}.

(** The cells of the session column at index [j]. *)
Definition session_column (weekly_df : weekly) (j : nat) : list cell :=
  map (fun row => nth j (row_cells row) CNaN) (weekly_rows weekly_df).

(** The types of the columns of the sheet: [Date], [Day] and the session
    columns.  A timestamp is no number: it counts as text here. *)
Definition dtypes (weekly_df : weekly) : list dtype :=
  dtype_of (map (fun row => match row_Date row with
                            | DStamp _ => CStr []
                            | DCell v => v
                            end) (weekly_rows weekly_df))
  :: dtype_of (map row_Day (weekly_rows weekly_df))
  :: map (fun j => dtype_of (session_column weekly_df j))
       (seq 0 (length (session_cols weekly_df))).

(** [iterrows] hands each row over as one Series of one type: when every
    column of the sheet is numeric and one of them is [float64], every
    whole number of a row arrives as a float. *)
Definition upcast (weekly_df : weekly) : bool :=
  forallb is_numeric (dtypes weekly_df) && existsb is_float (dtypes weekly_df).

(** For each session column, whether its whole numbers arrive as floats. *)
Definition float_cols (weekly_df : weekly) : list bool :=
  map (fun j => upcast weekly_df || is_float (dtype_of (session_column weekly_df j)))
    (seq 0 (length (session_cols weekly_df))).

(** One dictionary appended to [results]. *)
Record raw_match := {
  r_Date : date_cell;
  r_Day : cell;
  r_Session : str;
  r_Subject : str;
  r_Div : str;
  r_Cell_Info : str
}.

Section Page.

Variable U : unicode_db.

(** The loop over the enrolled courses for one cell. *)
Fixpoint scan_courses (row : weekly_row) (session_col cell : str)
  (enrolled_courses : list str) (results : list raw_match)
  : outcome (list raw_match) :=
  match enrolled_courses with
  | [] => Ok results
  | course :: rest =>
      let subject_code := subject_code course in
      let div_code := div_code course in
      hit <- cell_matches U subject_code div_code cell ;;
      scan_courses row session_col cell rest
        (if hit : bool
         then results ++
              [{| r_Date := row_Date row;
                  r_Day := row_Day row;
                  r_Session := strip U (replace [10] (py " ") session_col);
                  r_Subject := subject_code;
                  r_Div := div_code;
                  r_Cell_Info := cell |}]
         else results)
  end.

(** The loop over the session columns of one row. *)
Fixpoint scan_sessions (row : weekly_row) (cols : list (str * bool * cell))
  (enrolled_courses : list str) (results : list raw_match)
  : outcome (list raw_match) :=
  match cols with
  | [] => Ok results
  | (session_col, as_float, v) :: rest =>
      results' <- scan_courses row session_col (py_str as_float v)
                    enrolled_courses results ;;
      scan_sessions row rest enrolled_courses results'
  end.

(** The loop over the rows of the weekly sheet; [cols] are the session
    columns, each with whether its whole numbers arrive as floats. *)
Fixpoint scan_rows (cols : list (str * bool)) (rows : list weekly_row)
  (enrolled_courses : list str) (results : list raw_match)
  : outcome (list raw_match) :=
  match rows with
  | [] => Ok results
  | row :: rest =>
      results' <- scan_sessions row (combine cols (row_cells row))
                    enrolled_courses results ;;
      scan_rows cols rest enrolled_courses results'
  end.

Definition find_matches (enrolled_courses : list str) (weekly_df : weekly)
  : outcome (list raw_match) :=
  scan_rows (combine (session_cols weekly_df) (float_cols weekly_df))
    (weekly_rows weekly_df) enrolled_courses [].

End Page.

(** ** The schedule: merge, deduplicate, sort *)

(** A row of the master course sheet, by its columns [Abbre.], [Faculty]
    and [Venue]; the sheet is taken to have these columns and none named
    like a column of the matches. *)
Record master_row := {
  Abbre : cell;
  master_Faculty : cell;
  master_Venue : cell
}.

(** A row of [final_df] over the seven columns kept after the merge.  The
    column [Date] holds cells as they were read up to line 105, and the
    outcome of [pd.to_datetime] from then on: [D] is the type of its
    values. *)
Record entry {D : Type} := {
  Date : D;
  Day : cell;
  Session : str;
  Subject : str;
  Div : str;
  Faculty : cell;
  Venue : cell
}.

Arguments entry D : clear implicits.

Definition enrich (r : raw_match) (faculty venue : cell) : entry date_cell :=
  {| Date := r_Date r; Day := r_Day r; Session := r_Session r;
     Subject := r_Subject r; Div := r_Div r;
     Faculty := faculty; Venue := venue |}.

(** The rows that a left merge makes of one match: one per master row whose
    [Abbre.] equals the subject, in the master's order, or a single row with
    missing [Faculty] and [Venue] when there is none. *)
Definition merge_row (master_df : list master_row) (r : raw_match)
  : list (entry date_cell) :=
  match filter (fun m => cell_eqb (CStr (r_Subject r)) (Abbre m)) master_df with
  | [] => [enrich r CNaN CNaN]
  | ms => map (fun m => enrich r (master_Faculty m) (master_Venue m)) ms
  end.

(** The rows of the merged frame: the left rows keep their order. *)
Definition merge_rows (result_df : list raw_match) (master_df : list master_row)
  : list (entry date_cell) :=
  flat_map (merge_row master_df) result_df.

(** [result_df.merge(master_df, left_on="Subject", right_on="Abbre.",
    how="left")[[...]]].  A frame made of no dictionary has no column
    [Subject].  The key [Subject] is text: pandas refuses to merge it with
    a numeric column, which [Abbre.] is when the master sheet has rows and
    none of them holds text there. *)
Definition merge (result_df : list raw_match) (master_df : list master_row)
  : outcome (list (entry date_cell)) :=
  match result_df with
  | [] => Raise KeyError
  | _ =>
      if is_numeric (dtype_of (map Abbre master_df)) then Raise ValueError
      else Ok (merge_rows result_df master_df)
  end.

(** The key of [drop_duplicates]: [Date], [Day], [Session], [Subject], [Div]. *)
Definition key (D : Type) := (D * cell * str * str * str)%type.

Definition subset_key {D} (e : entry D) : key D :=
  (Date e, Day e, Session e, Subject e, Div e).

(** Two cells of the [Date] column hold the same value; missing values
    count as equal, as they do for [drop_duplicates]. *)
Definition date_cell_eqb (a b : date_cell) : bool :=
  match a, b with
  | DStamp x, DStamp y => Z.eqb x y
  | DCell x, DCell y => cell_eqb x y
  | _, _ => false
  end.

Definition key_eqb (a b : key date_cell) : bool :=
  let '(d1, y1, s1, c1, v1) := a in
  let '(d2, y2, s2, c2, v2) := b in
  date_cell_eqb d1 d2 && cell_eqb y1 y2 && str_eqb s1 s2 && str_eqb c1 c2
  && str_eqb v1 v2.

(** [drop_duplicates(subset=[...])], which keeps the first row of each key;
    [seen] holds the keys of the rows already passed. *)
Fixpoint drop_duplicates_from (seen : list (key date_cell))
  (df : list (entry date_cell)) : list (entry date_cell) :=
  match df with
  | [] => []
  | e :: rest =>
      if existsb (key_eqb (subset_key e)) seen
      then drop_duplicates_from seen rest
      else e :: drop_duplicates_from (subset_key e :: seen) rest
  end.

Definition drop_duplicates (df : list (entry date_cell)) : list (entry date_cell) :=
  drop_duplicates_from [] df.

(** ** [pd.to_datetime]

    How pandas reads a date from text, and from a number, depends on its
    version and on the column the value stands in (the format is guessed
    from the first value); both are taken from a table that the development
    takes as a parameter.  [None] is [NaT]. *)
Record pandas_db := {
  pd_text_date : list date_cell -> str -> option Z;
  pd_number_date : list date_cell -> Z -> option Z
}.

(** The table in which no text and no number is a date, for closed examples
    whose [Date] cells are timestamps or text that names no date. *)
Definition no_dates : pandas_db :=
  {| pd_text_date := fun _ _ => None;
     pd_number_date := fun _ _ => None |}.

(** The value that [pd.to_datetime(col, errors="coerce")] gives for the
    cell [v] of the column [col]: a timestamp is kept, a missing value is
    [NaT], text and numbers are dates when pandas reads them as such, and
    [NaT] otherwise. *)
Definition read_date (P : pandas_db) (col : list date_cell) (v : date_cell)
  : option Z :=
  match v with
  | DStamp t => Some t
  | DCell (CStr s) => pd_text_date P col s
  | DCell (CInt z) => pd_number_date P col z
  | DCell CNaN => None
  end.

Definition to_datetime (P : pandas_db) (col : list date_cell) : list (option Z) :=
  map (read_date P col) col.

Definition set_Date {D D'} (e : entry D) (d : D') : entry D' :=
  {| Date := d; Day := Day e; Session := Session e; Subject := Subject e;
     Div := Div e; Faculty := Faculty e; Venue := Venue e |}.

(** Line 105: the column [Date] replaced by its dates. *)
Definition with_dates (P : pandas_db) (df : list (entry date_cell))
  : list (entry (option Z)) :=
  map (fun p => set_Date (fst p) (snd p))
    (combine df (to_datetime P (map Date df))).

(** ** The sort *)

(** A row of [final_df] once the column [Start_Time] is there. *)
Record timed := {
  base : entry (option Z);
  Start_Time : option time
}.

(** The order of [datetime.time] values. *)
Definition time_leb (a b : time) : bool :=
  (hour a <? hour b)%nat || ((hour a =? hour b)%nat && (minute a <=? minute b)%nat).

Definition time_eqb (a b : time) : bool :=
  (hour a =? hour b)%nat && (minute a =? minute b)%nat.

(** Missing values go last ([na_position="last"]). *)
Definition na_last_leb {A} (leb : A -> A -> bool) (x y : option A) : bool :=
  match x, y with
  | Some a, Some b => leb a b
  | _, None => true
  | None, Some _ => false
  end.

Definition date_eqb (a b : option Z) : bool :=
  match a, b with
  | Some x, Some y => Z.eqb x y
  | None, None => true
  | _, _ => false
  end.

Definition start_eqb (a b : option time) : bool :=
  match a, b with
  | Some x, Some y => time_eqb x y
  | None, None => true
  | _, _ => false
  end.

(** The sort key of [sort_values(by=["Date", "Start_Time"])]. *)
Definition sort_key (t : timed) : option Z * option time :=
  (Date (base t), Start_Time t).

Definition sort_key_leb (a b : option Z * option time) : bool :=
  if date_eqb (fst a) (fst b)
  then na_last_leb time_leb (snd a) (snd b)
  else na_last_leb Z.leb (fst a) (fst b).

Definition sort_key_eqb (a b : option Z * option time) : bool :=
  date_eqb (fst a) (fst b) && start_eqb (snd a) (snd b).

(** A row that may stand before another in the sorted frame. *)
Definition before (a b : timed) : Prop :=
  sort_key_leb (sort_key a) (sort_key b) = true.

(** Sorting on several columns is stable in pandas: rows with equal keys keep
    their order.  The sort is written as an insertion from the right, which
    puts a row before the rows of equal key that came after it. *)
Fixpoint insert (x : timed) (l : list timed) : list timed :=
  match l with
  | [] => [x]
  | y :: rest =>
      if sort_key_leb (sort_key x) (sort_key y) then x :: l else y :: insert x rest
  end.

Fixpoint sort_values (l : list timed) : list timed :=
  match l with
  | [] => []
  | x :: rest => insert x (sort_values rest)
  end.

(** ** The day names *)

(** [v[:3]] under the [.str] accessor: a value that is not text becomes
    missing. *)
Definition slice3 (v : cell) : cell :=
  match v with
  | CStr s => CStr (firstn 3 s)
  | _ => CNaN
  end.

(** [col.str[:3]].  The accessor is refused on a column that holds no text:
    a numeric column, or a column of missing values only. *)
Definition str_slice3 (col : list cell) : outcome (list cell) :=
  if has_text col then Ok (map slice3 col) else Raise AttributeError.

Definition set_Day (t : timed) (day : cell) : timed :=
  let e := base t in
  {| base := {| Date := Date e; Day := day; Session := Session e;
                Subject := Subject e; Div := Div e;
                Faculty := Faculty e; Venue := Venue e |};
     Start_Time := Start_Time t |}.

(** Line 111: the column [Day] replaced by its first three characters. *)
Definition cut_days (df : list timed) : outcome (list timed) :=
  days <- str_slice3 (map (fun t => Day (base t)) df) ;;
  Ok (map (fun p => set_Day (fst p) (snd p)) (combine df days)).

(** The page's outcome: nothing typed yet, the warning for a roll number
    found in no roster, the error for courses that appear nowhere in the
    week, or the schedule. *)
Inductive page :=
| Idle
| No_courses
| No_classes (enrolled_courses : list str)
| Schedule (enrolled_courses : list str) (final_df : list timed).

Section Assembler.

Variable U : unicode_db.
Variable P : pandas_db.

(** Line 106: the start time added. *)
Definition with_start_time (e : entry (option Z)) : timed :=
  {| base := e; Start_Time := extract_start_time U (Session e) |}.

(** Lines 95 to 111: [final_df] as displayed and exported. *)
Definition assemble (result_df : list raw_match) (master_df : list master_row)
  : outcome (list timed) :=
  final_df <- merge result_df master_df ;;
  let final_df := drop_duplicates final_df in
  let final_df := with_dates P final_df in
  let final_df := map with_start_time final_df in
  let final_df := sort_values final_df in
  cut_days final_df.

(** The body of the page for one roll number. *)
Definition app (roll_no : str) (listing : list roster_file)
  (master_df : list master_row) (weekly_df : weekly) : outcome page :=
  match roll_no with
  | [] => Ok Idle
  | _ =>
      let enrolled_courses := get_student_courses roll_no listing in
      match enrolled_courses with
      | [] => Ok No_courses
      | _ =>
          results <- find_matches U enrolled_courses weekly_df ;;
          match results with
          | [] => Ok (No_classes enrolled_courses)
          | _ =>
              final_df <- assemble results master_df ;;
              Ok (Schedule enrolled_courses final_df)
          end
      end
  end.

End Assembler.

(** ** The stages of the schedule in closed form

    The frames that [assemble] passes through when nothing is raised,
    written as functions of the matches; the properties below show that
    [assemble] computes them. *)

(** The frame after [drop_duplicates] (line 102). *)
Definition deduplicated (result_df : list raw_match) (master_df : list master_row)
  : list (entry date_cell) :=
  drop_duplicates (merge_rows result_df master_df).

(** Its column [Date], which [pd.to_datetime] reads at line 105. *)
Definition date_column (result_df : list raw_match) (master_df : list master_row)
  : list date_cell :=
  map Date (deduplicated result_df master_df).

(** The day of a row cut to three characters. *)
Definition abbreviate (t : timed) : timed := set_Day t (slice3 (Day (base t))).

(** The row of the sorted frame that a row of the deduplicated frame
    becomes: its date read in the column [col], its start time added. *)
Definition timed_row (U : unicode_db) (P : pandas_db) (col : list date_cell)
  (e : entry date_cell) : timed :=
  with_start_time U (set_Date e (read_date P col (Date e))).

(** [final_df] before it is sorted (line 106). *)
Definition unsorted_frame (U : unicode_db) (P : pandas_db)
  (result_df : list raw_match) (master_df : list master_row) : list timed :=
  map (timed_row U P (date_column result_df master_df))
    (deduplicated result_df master_df).

(** [final_df] after [sort_values] and [reset_index] (line 107). *)
Definition sorted_frame (U : unicode_db) (P : pandas_db)
  (result_df : list raw_match) (master_df : list master_row) : list timed :=
  sort_values (unsorted_frame U P result_df master_df).

(** [final_df] with the days cut (line 111). *)
Definition schedule (U : unicode_db) (P : pandas_db)
  (result_df : list raw_match) (master_df : list master_row) : list timed :=
  map abbreviate (sorted_frame U P result_df master_df).

(** The master row that a subject is looked up to: the first whose
    [Abbre.] equals it. *)
Definition first_master (subject : str) (master_df : list master_row)
  : option master_row :=
  find (fun m => cell_eqb (CStr subject) (Abbre m)) master_df.

(** The merge is refused: [Abbre.] is a numeric column. *)
Definition unmergeable (master_df : list master_row) : bool :=
  is_numeric (dtype_of (map Abbre master_df)).

(** The deduplication key of a match, and the key of a row of the final
    frame, whose date has been read. *)
Definition raw_key (r : raw_match) : key date_cell :=
  (r_Date r, r_Day r, r_Session r, r_Subject r, r_Div r).

Definition frame_key (t : timed) : key (option Z) := subset_key (base t).

(** The distinct keys of a list of keys, each at its first occurrence. *)
Fixpoint first_keys_from (seen : list (key date_cell)) (ks : list (key date_cell))
  : list (key date_cell) :=
  match ks with
  | [] => []
  | k :: rest =>
      if existsb (key_eqb k) seen
      then first_keys_from seen rest
      else k :: first_keys_from (k :: seen) rest
  end.

Definition first_keys (ks : list (key date_cell)) : list (key date_cell) :=
  first_keys_from [] ks.

(** A key with its date read in the column [col] and its day cut: the key
    that the row of a match has in the schedule. *)
Definition shown_key (P : pandas_db) (col : list date_cell) (k : key date_cell)
  : key (option Z) :=
  let '(d, day, session, subject, div) := k in
  (read_date P col d, slice3 day, session, subject, div).

(** The row that the schedule holds for a key: the faculty and venue are
    those of the first master row of the subject, the start time is read
    from the session. *)
Definition keyed_row (U : unicode_db) (master_df : list master_row)
  (k : key (option Z)) : timed :=
  let '(d, day, session, subject, div) := k in
  let m := first_master subject master_df in
  {| base := {| Date := d; Day := day; Session := session; Subject := subject;
                Div := div;
                Faculty := match m with Some x => master_Faculty x | None => CNaN end;
                Venue := match m with Some x => master_Venue x | None => CNaN end |};
     Start_Time := extract_start_time U session |}.

(** A date of the schedule as a cell of a sheet. *)
Definition as_cell (d : option Z) : date_cell :=
  match d with
  | Some t => DStamp t
  | None => DCell CNaN
  end.

(** The key of a row of the schedule when the row is taken as a match. *)
Definition key_as_read (k : key (option Z)) : key date_cell :=
  let '(d, day, session, subject, div) := k in
  (as_cell d, day, session, subject, div).

(** A start time strictly earlier than another. *)
Definition time_ltb (a b : time) : bool := negb (time_leb b a).

(** The rows of a frame that carry a given sort key. *)
Definition with_sort_key (k : option Z * option time) (l : list timed) : list timed :=
  filter (fun t => sort_key_eqb (sort_key t) k) l.

(** The rows of a frame that carry a given deduplication key. *)
Definition with_key (k : key date_cell) (l : list (entry date_cell))
  : list (entry date_cell) :=
  filter (fun e => key_eqb (subset_key e) k) l.

(** What one entry of the directory adds to [student_courses]. *)
Definition file_courses (roll_no : str) (f : roster_file) : list str :=
  if endswith (py ".xlsx") (file_name f) then
    if lists_roll roll_no (file_sheet f)
    then [replace (py ".xlsx") [] (file_name f)]
    else []
  else [].

(** ** Sample sheets *)

Definition roll_21BCM014 : str := py "21BCM014".

Definition roster (name : string) (rolls : list cell) : roster_file :=
  {| file_name := py name; file_sheet := [(py "Name", []); (roll_column, rolls)] |}.

Definition monday : date_cell := DStamp 20241104.

Definition sample_match (day session subject division : string) : raw_match :=
  {| r_Date := monday; r_Day := CStr (py day); r_Session := py session;
     r_Subject := py subject; r_Div := py division;
     r_Cell_Info := py subject |}.

(** Two matches of one day, the later session first. *)
Definition late_first : list raw_match :=
  [sample_match "Monday" "10:30AM-11:30AM" "CS101" "A";
   sample_match "Monday" "9:00AM-10:00AM" "MA102" ""].

(** Matches of two days, one course met twice on the first day in one
    session (as when two cells of a merged slot name it). *)
Definition two_days : list raw_match :=
  [sample_match "Tuesday" "9:00AM-10:00AM" "CS101" "A";
   sample_match "Monday" "9:00AM-10:00AM" "CS101" "A";
   sample_match "Monday" "9:00AM-10:00AM" "CS101" "A"].

(** A master sheet that lists CS101 twice. *)
Definition repeated_master : list master_row :=
  [{| Abbre := CStr (py "CS101"); master_Faculty := CStr (py "Rao");
      master_Venue := CStr (py "R5") |};
   {| Abbre := CStr (py "CS101"); master_Faculty := CStr (py "Shah");
      master_Venue := CStr (py "R9") |}].

(** A week whose sheet writes the same date once as "Monday" and once as
    "Mon", with the same course in the same slot. *)
Definition two_day_names : weekly :=
  {| session_cols := [py "9:00AM-10:00AM"];
     weekly_rows :=
       [{| row_Date := monday; row_Day := CStr (py "Monday");
           row_cells := [CStr (py "CS101(A) Room 5")] |};
        {| row_Date := monday; row_Day := CStr (py "Mon");
           row_cells := [CStr (py "CS101(A) Room 5")] |}] |}.

(** ** Session labels and clock times *)

(** The label of a session column as the page stores and parses it:
    newlines turned into blanks, blanks at both ends removed. *)
Definition clean_label (U : unicode_db) (session_col : str) : str :=
  strip U (replace [10] (py " ") session_col).

(** The pattern of [extract_start_time], compiled. *)
Definition start_time_code : compiled :=
  {| re_code :=
       SEQ (SUBPATTERN 1
              (SEQ (MAX_REPEAT 1 (Some 2%nat) (IN false [SCategory false CATEGORY_DIGIT]))
                 (SEQ (MAX_REPEAT 0 (Some 1%nat) (IN false [SChar 58; SChar 46]))
                    (SEQ (MAX_REPEAT 0 (Some 2%nat)
                            (IN false [SCategory false CATEGORY_DIGIT]))
                       (SEQ blanks
                          (SEQ (IN false [SChar 65; SChar 80])
                             (SEQ (LITERAL 77) EMPTY)))))))
           EMPTY;
     re_names := [] |}.

(** No character of the text is a decimal digit. *)
Definition no_digit (U : unicode_db) (s : str) : bool :=
  forallb (fun c => negb (isdecimal U c)) s.

(** ** Course identifiers and the candidates of the scan *)

(** The text holds no underscore. *)
Definition no_underscore (s : str) : bool := forallb (fun c => negb (95 =? c)) s.

(** A cell of the week with an enrolled course: the row, the session column,
    the text of the cell and the course. *)
Definition candidate := (weekly_row * str * str * str)%type.

(** The dictionary that the page appends for a candidate that matches. *)
Definition hit_of (U : unicode_db) (c : candidate) : raw_match :=
  let '(row, session_col, cell, course) := c in
  {| r_Date := row_Date row;
     r_Day := row_Day row;
     r_Session := clean_label U session_col;
     r_Subject := subject_code course;
     r_Div := div_code course;
     r_Cell_Info := cell |}.

(** The pattern of the candidate's course is found in its cell. *)
Definition is_hit (U : unicode_db) (c : candidate) : bool :=
  let '(_, _, cell, course) := c in
  match cell_matches U (subject_code course) (div_code course) cell with
  | Ok true => true
  | _ => false
  end.

(** The candidates in the order of the three loops: rows, then session
    columns, then courses. *)
Definition row_candidates (cols : list (str * bool)) (enrolled_courses : list str)
  (row : weekly_row) : list candidate :=
  flat_map (fun p => map (fun course =>
                            (row, fst (fst p), py_str (snd (fst p)) (snd p), course))
                       enrolled_courses)
    (combine cols (row_cells row)).

(** The candidates of the whole week. *)
Definition candidates (enrolled_courses : list str) (weekly_df : weekly)
  : list candidate :=
  flat_map (row_candidates (combine (session_cols weekly_df) (float_cols weekly_df))
              enrolled_courses)
    (weekly_rows weekly_df).

(** The pattern of a course compiles. *)
Definition compiles (course : str) : bool :=
  match re_compile (pattern (subject_code course) (div_code course)) with
  | Ok _ => true
  | Raise _ => false
  end.

(** The call ends in an exception. *)
Definition raises {A} (x : outcome A) : bool :=
  match x with Ok _ => false | Raise _ => true end.

(** The week has at least one session cell. *)
Definition has_cell (weekly_df : weekly) : bool :=
  existsb (fun row => match combine (session_cols weekly_df) (row_cells row) with
                      | [] => false
                      | _ :: _ => true
                      end)
    (weekly_rows weekly_df).

(** ** The master lookup *)

(** The row that the merge and the deduplication keep of a match: the match
    with the faculty and venue of the first master row of its subject. *)
Definition looked_up (master_df : list master_row) (r : raw_match)
  : entry date_cell :=
  match first_master (r_Subject r) master_df with
  | Some m => enrich r (master_Faculty m) (master_Venue m)
  | None => enrich r CNaN CNaN
  end.

(** ** Clock labels *)

(** The character of a decimal digit, and a number below 100 written with
    two digits. *)
Definition digit (d : nat) : N := 48 + N.of_nat d.

Definition two_digits (n : nat) : str := [digit (n / 10); digit (n mod 10)].

(** The ways of writing the hour [h]: without a leading zero, or with two
    digits. *)
Definition hour_texts (h : nat) : list str :=
  if (h <? 10)%nat then [[digit h]; two_digits h] else [two_digits h].

(** The day halves as they are written, with whether they mean the
    afternoon. *)
Definition day_halves : list (str * bool) :=
  [(py "AM", false); (py "am", false); (py "PM", true); (py "pm", true)].

(** The time of day of the hour [h] of a 12-hour clock. *)
Definition clock (h m : nat) (afternoon : bool) : time :=
  {| hour := (h mod 12 + if afternoon then 12 else 0)%nat; minute := m |}.

(** The checks of one label, of one way of writing the hour, and of one
    hour; they are run over every hour, minute, separator and day half. *)
Definition label_checked (U : unicode_db) (h : nat) (hh : str)
  (half : str * bool) (m : nat) (sep : str) : bool :=
  start_eqb (extract_start_time U (hh ++ sep ++ two_digits m ++ fst half))
    (Some (clock h m (snd half)))
  && start_eqb
       (extract_start_time U (hh ++ sep ++ two_digits m ++ py " " ++ fst half))
       None.

Definition minute_checked (U : unicode_db) (h : nat) (hh : str)
  (half : str * bool) (m : nat) : bool :=
  forallb (label_checked U h hh half m) [py ":"; py "."].

Definition half_checked (U : unicode_db) (h : nat) (hh : str)
  (half : str * bool) : bool :=
  start_eqb (extract_start_time U (hh ++ fst half)) (Some (clock h 0 (snd half)))
  && forallb (minute_checked U h hh half) (seq 0 60).

Definition hour_text_checked (U : unicode_db) (h : nat) (hh : str) : bool :=
  forallb (half_checked U h hh) day_halves.

Definition hour_checked (U : unicode_db) (h : nat) : bool :=
  forallb (hour_text_checked U h) (hour_texts h).

(** ** Further sample sheets *)

(** A week whose only session column is written over two lines. *)
Definition wrapped_week : weekly :=
  {| session_cols := [py " 9:00AM-" ++ [10] ++ py "10:00AM "];
     weekly_rows :=
       [{| row_Date := monday; row_Day := CStr (py "Monday");
           row_cells := [CStr (py "CS101(A) Room 5")] |}] |}.

(** Two matches of one day, the one without a clock time first. *)
Definition lunch_first : list raw_match :=
  [sample_match "Monday" "Lunch Break" "CS101" "A";
   sample_match "Monday" "9:00AM-10:00AM" "MA102" ""].


(** A master sheet whose column [Abbre.] holds a number and no text. *)
Definition numbered_master : list master_row :=
  [{| Abbre := CInt 101; master_Faculty := CStr (py "Rao");
      master_Venue := CStr (py "R5") |}].

(** Matches whose day is a number. *)
Definition numbered_days : list raw_match :=
  [{| r_Date := monday; r_Day := CInt 1; r_Session := py "9:00AM-10:00AM";
      r_Subject := py "CS101"; r_Div := py "A"; r_Cell_Info := py "CS101(A)" |}].

(** A week whose dates are not yet fixed: the sheet holds the words "TBA"
    and "to be announced" in the column [Date], with the same course in the
    same slot of the same day. *)
Definition undated_week : weekly :=
  {| session_cols := [py "9:00AM-10:00AM"];
     weekly_rows :=
       [{| row_Date := DCell (CStr (py "TBA")); row_Day := CStr (py "Monday");
           row_cells := [CStr (py "CS101(A) Room 5")] |};
        {| row_Date := DCell (CStr (py "to be announced"));
           row_Day := CStr (py "Monday");
           row_cells := [CStr (py "CS101(A) Room 5")] |}] |}.

(** ** The exceptions of the page *)

(** The exception that a call ends in. *)
Definition error_of {A} (x : outcome A) : option exn :=
  match x with Ok _ => None | Raise e => Some e end.

(** The first exception met when the patterns of the courses are compiled
    in their order. *)
Fixpoint compile_error (enrolled_courses : list str) : option exn :=
  match enrolled_courses with
  | [] => None
  | course :: rest =>
      match re_compile (pattern (subject_code course) (div_code course)) with
      | Ok _ => compile_error rest
      | Raise e => Some e
      end
  end.

(** The pattern of the course lies in the part of [re] that is embedded. *)
Definition modelled (course : str) : bool :=
  match re_compile (pattern (subject_code course) (div_code course)) with
  | Raise NotModelled => false
  | _ => true
  end.
(** * Properties *)

(** ** Equality tests *)

Lemma str_eqb_eq (a b : str) : str_eqb a b = true <-> a = b.
Proof.
  revert b; induction a as [|x a IH]; intros [|y b]; simpl; split;
    try congruence; try reflexivity.
  - intros H. apply andb_true_iff in H as [Hx Ht].
    apply N.eqb_eq in Hx. apply IH in Ht. congruence.
  - intros H. injection H as -> ->.
    apply andb_true_iff. split; [apply N.eqb_refl | now apply IH].
Qed.

Lemma str_eqb_refl (a : str) : str_eqb a a = true.
Proof. now apply str_eqb_eq. Qed.

Lemma cell_eqb_eq (a b : cell) : cell_eqb a b = true <-> a = b.
Proof.
  destruct a, b; simpl; split; try congruence; try reflexivity.
  - intros H. apply str_eqb_eq in H. congruence.
  - intros H. injection H as ->. apply str_eqb_refl.
  - intros H. apply Z.eqb_eq in H. congruence.
  - intros H. injection H as ->. apply Z.eqb_refl.
Qed.

Lemma date_eqb_eq (a b : option Z) : date_eqb a b = true <-> a = b.
Proof.
  destruct a, b; simpl; split; try congruence; try reflexivity.
  - intros H. apply Z.eqb_eq in H. congruence.
  - intros H. injection H as ->. apply Z.eqb_refl.
Qed.

Lemma date_cell_eqb_eq (a b : date_cell) : date_cell_eqb a b = true <-> a = b.
Proof.
  destruct a, b; simpl; split; try congruence.
  - intros H. apply Z.eqb_eq in H. congruence.
  - intros H. injection H as ->. apply Z.eqb_refl.
  - intros H. apply cell_eqb_eq in H. congruence.
  - intros H. injection H as ->. now apply cell_eqb_eq.
Qed.

Lemma key_eqb_eq (a b : key date_cell) : key_eqb a b = true <-> a = b.
Proof.
  destruct a as [[[[d1 y1] s1] c1] v1], b as [[[[d2 y2] s2] c2] v2]. simpl.
  rewrite !andb_true_iff, date_cell_eqb_eq, cell_eqb_eq, !str_eqb_eq.
  split.
  - intros [[[[-> ->] ->] ->] ->]. reflexivity.
  - intros H. injection H as -> -> -> -> ->. auto.
Qed.

Lemma key_eqb_refl (a : key date_cell) : key_eqb a a = true.
Proof. now apply key_eqb_eq. Qed.

Lemma time_eqb_eq (a b : time) : time_eqb a b = true <-> a = b.
Proof.
  destruct a as [h1 m1], b as [h2 m2]. unfold time_eqb. simpl.
  rewrite andb_true_iff, !Nat.eqb_eq. split.
  - intros [-> ->]. reflexivity.
  - intros H. injection H as -> ->. auto.
Qed.

Lemma start_eqb_eq (a b : option time) : start_eqb a b = true <-> a = b.
Proof.
  destruct a, b; simpl; split; try congruence; try reflexivity.
  - intros H. apply time_eqb_eq in H. congruence.
  - intros H. injection H as ->. now apply time_eqb_eq.
Qed.

Lemma sort_key_eqb_eq (a b : option Z * option time) :
  sort_key_eqb a b = true <-> a = b.
Proof.
  destruct a as [d1 t1], b as [d2 t2]. unfold sort_key_eqb. simpl.
  rewrite andb_true_iff, date_eqb_eq, start_eqb_eq. split.
  - intros [-> ->]. reflexivity.
  - intros H. injection H as -> ->. auto.
Qed.

(** ** The order of the sort keys *)

Ltac order_cases :=
  repeat match goal with
    | a : time |- _ => destruct a
    | a : option _ |- _ => destruct a
    | a : (_ * _)%type |- _ => destruct a
    end;
  unfold sort_key_leb, na_last_leb, time_leb, date_eqb in *; simpl in *;
  repeat match goal with
    | H : context [Z.eqb ?a ?b] |- _ => destruct (Z.eqb_spec a b)
    | |- context [Z.eqb ?a ?b] => destruct (Z.eqb_spec a b)
    | H : context [Z.leb ?a ?b] |- _ => destruct (Z.leb_spec a b)
    | |- context [Z.leb ?a ?b] => destruct (Z.leb_spec a b)
    | H : context [Nat.ltb ?a ?b] |- _ => destruct (Nat.ltb_spec a b)
    | |- context [Nat.ltb ?a ?b] => destruct (Nat.ltb_spec a b)
    | H : context [Nat.eqb ?a ?b] |- _ => destruct (Nat.eqb_spec a b)
    | |- context [Nat.eqb ?a ?b] => destruct (Nat.eqb_spec a b)
    | H : context [Nat.leb ?a ?b] |- _ => destruct (Nat.leb_spec a b)
    | |- context [Nat.leb ?a ?b] => destruct (Nat.leb_spec a b)
    end;
  simpl in *; try reflexivity; try discriminate; try lia.

Lemma sort_key_leb_refl (a : option Z * option time) : sort_key_leb a a = true.
Proof. order_cases. Qed.

Lemma sort_key_leb_total (a b : option Z * option time) :
  sort_key_leb a b = false -> sort_key_leb b a = true.
Proof. intros H. order_cases. Qed.

Lemma sort_key_leb_trans (a b c : option Z * option time) :
  sort_key_leb a b = true -> sort_key_leb b c = true -> sort_key_leb a c = true.
Proof. intros H1 H2. order_cases. Qed.

Lemma sort_key_leb_antisym (a b : option Z * option time) :
  sort_key_leb a b = true -> sort_key_leb b a = true -> a = b.
Proof.
  intros H1 H2. order_cases; repeat f_equal; lia.
Qed.

(** ** The sort *)

Lemma insert_perm (x : timed) (l : list timed) : Permutation (x :: l) (insert x l).
Proof.
  induction l as [|y l IH]; simpl.
  - apply Permutation_refl.
  - destruct (sort_key_leb (sort_key x) (sort_key y)).
    + apply Permutation_refl.
    + eapply perm_trans; [apply perm_swap | apply perm_skip, IH].
Qed.

Lemma sort_values_perm (l : list timed) : Permutation l (sort_values l).
Proof.
  induction l as [|x l IH]; simpl.
  - apply perm_nil.
  - eapply perm_trans; [apply perm_skip, IH | apply insert_perm].
Qed.

Lemma insert_sorted (x : timed) (l : list timed) :
  StronglySorted before l -> StronglySorted before (insert x l).
Proof.
  induction l as [|y l IH]; simpl; intros Hs.
  - repeat constructor.
  - destruct (sort_key_leb (sort_key x) (sort_key y)) eqn:E.
    + constructor; [exact Hs|].
      inversion Hs as [|? ? _ Hall]; subst.
      constructor; [exact E|].
      eapply Forall_impl; [|exact Hall].
      intros z Hz. unfold before in *. eapply sort_key_leb_trans; eauto.
    + inversion Hs as [|? ? Hl Hall]; subst.
      constructor; [now apply IH|].
      apply Forall_forall. intros z Hz.
      apply (Permutation_in _ (Permutation_sym (insert_perm x l))) in Hz.
      destruct Hz as [<- | Hz].
      * now apply sort_key_leb_total.
      * rewrite Forall_forall in Hall. now apply Hall.
Qed.

Lemma sort_values_sorted (l : list timed) : StronglySorted before (sort_values l).
Proof.
  induction l as [|x l IH]; simpl.
  - constructor.
  - now apply insert_sorted.
Qed.

(** Rows of one key pass through an insertion in their order. *)
Lemma filter_insert (k : option Z * option time) (x : timed) (l : list timed) :
  filter (fun t => sort_key_eqb (sort_key t) k) (insert x l)
  = filter (fun t => sort_key_eqb (sort_key t) k) (x :: l).
Proof.
  induction l as [|y l IH]; simpl; [reflexivity|].
  destruct (sort_key_leb (sort_key x) (sort_key y)) eqn:E; simpl; [reflexivity|].
  rewrite IH. simpl.
  destruct (sort_key_eqb (sort_key x) k) eqn:Ex;
    destruct (sort_key_eqb (sort_key y) k) eqn:Ey; try reflexivity.
  apply sort_key_eqb_eq in Ex, Ey. rewrite Ex, Ey, sort_key_leb_refl in E.
  discriminate.
Qed.

Lemma sort_values_stable (k : option Z * option time) (l : list timed) :
  filter (fun t => sort_key_eqb (sort_key t) k) (sort_values l)
  = filter (fun t => sort_key_eqb (sort_key t) k) l.
Proof.
  induction l as [|x l IH]; simpl; [reflexivity|].
  rewrite filter_insert. simpl. now rewrite IH.
Qed.

(** A sorted frame is left as it is by the sort. *)
Lemma sort_values_of_sorted (l : list timed) :
  StronglySorted before l -> sort_values l = l.
Proof.
  induction 1 as [|x l Hs IH Hall]; simpl; [reflexivity|].
  rewrite IH. destruct l as [|y l]; simpl; [reflexivity|].
  inversion Hall as [|? ? Hxy _]; subst. unfold before in Hxy. now rewrite Hxy.
Qed.

Lemma sorted_nth (l : list timed) :
  StronglySorted before l ->
  forall i j a b, (i < j)%nat -> nth_error l i = Some a -> nth_error l j = Some b ->
                  before a b.
Proof.
  induction 1 as [|x l Hs IH Hall]; intros i j a b Hij Ha Hb.
  - destruct i; discriminate.
  - destruct j as [|j]; [lia|]. simpl in Hb.
    destruct i as [|i]; simpl in Ha.
    + injection Ha as <-. rewrite Forall_forall in Hall.
      apply Hall. eapply nth_error_In; eauto.
    + apply (IH i j a b); [lia | assumption | assumption].
Qed.

(** ** The merge and the deduplication *)

Arguments key_eqb : simpl never.
Arguments sort_key_eqb : simpl never.

Lemma find_app {A} (p : A -> bool) (l1 l2 : list A) :
  find p (l1 ++ l2) = match find p l1 with Some x => Some x | None => find p l2 end.
Proof.
  induction l1 as [|x l1 IH]; simpl; [reflexivity|].
  destruct (p x); [reflexivity | exact IH].
Qed.

Lemma find_filter_hd {A} (p : A -> bool) (l : list A) :
  find p l = hd_error (filter p l).
Proof.
  induction l as [|x l IH]; simpl; [reflexivity|].
  destruct (p x); [reflexivity | exact IH].
Qed.

Lemma find_none_all {A} (p : A -> bool) (l : list A) :
  (forall x, In x l -> p x = false) -> find p l = None.
Proof.
  induction l as [|x l IH]; simpl; intros H; [reflexivity|].
  rewrite (H x (or_introl eq_refl)). apply IH. intros y Hy. apply H. now right.
Qed.

Lemma merge_row_key (master_df : list master_row) (r : raw_match) (e : entry date_cell) :
  In e (merge_row master_df r) -> subset_key e = raw_key r.
Proof.
  unfold merge_row.
  destruct (filter _ master_df) as [|m ms].
  - intros [<- | []]. reflexivity.
  - intros H. apply in_map_iff in H as (m' & <- & _). reflexivity.
Qed.

(** The first row that the merge makes of a match carries the first
    matching master row, or nothing when no master row matches. *)
Lemma merge_row_head (master_df : list master_row) (r : raw_match) :
  exists rest,
    merge_row master_df r =
    match first_master (r_Subject r) master_df with
    | Some m => enrich r (master_Faculty m) (master_Venue m)
    | None => enrich r CNaN CNaN
    end :: rest.
Proof.
  unfold merge_row, first_master. rewrite find_filter_hd.
  destruct (filter _ master_df) as [|m ms]; simpl; eauto.
Qed.

Lemma merge_keys (result_df : list raw_match) (master_df : list master_row) (k : key date_cell) :
  In k (map subset_key (merge_rows result_df master_df)) <-> In k (map raw_key result_df).
Proof.
  unfold merge_rows. rewrite !in_map_iff. split.
  - intros (e & <- & He). apply in_flat_map in He as (r & Hr & He).
    exists r. split; [symmetry; eapply merge_row_key; eauto | exact Hr].
  - intros (r & <- & Hr).
    destruct (merge_row_head master_df r) as (rest & Hhead).
    eexists. split.
    + eapply merge_row_key. rewrite Hhead. left. reflexivity.
    + apply in_flat_map. exists r. split; [exact Hr|]. rewrite Hhead. now left.
Qed.

(** The first row of a key in the merged frame. *)
Lemma merge_first (result_df : list raw_match) (master_df : list master_row)
  (e : entry date_cell) :
  find (fun x => key_eqb (subset_key x) (subset_key e)) (merge_rows result_df master_df)
  = Some e ->
  match first_master (Subject e) master_df with
  | Some m => Faculty e = master_Faculty m /\ Venue e = master_Venue m
  | None => Faculty e = CNaN /\ Venue e = CNaN
  end.
Proof.
  unfold merge_rows. induction result_df as [|r rs IH]; [cbn; discriminate|].
  cbn [flat_map]. rewrite find_app.
  assert (Hk : forall f v, key_eqb (subset_key (enrich r f v)) (subset_key e)
                           = key_eqb (raw_key r) (subset_key e)) by reflexivity.
  destruct (merge_row_head master_df r) as (rest & Hhead).
  destruct (key_eqb (raw_key r) (subset_key e)) eqn:Ek.
  - rewrite Hhead.
    destruct (first_master (r_Subject r) master_df) as [m|] eqn:Ef;
      cbn [find]; rewrite Hk; intros H; injection H as <-;
      cbn [Subject enrich]; rewrite Ef; cbn; auto.
  - rewrite find_none_all; [exact IH|].
    intros x Hx. rewrite (merge_row_key _ _ _ Hx). exact Ek.
Qed.

Lemma existsb_key (k : key date_cell) (seen : list (key date_cell)) :
  existsb (key_eqb k) seen = true <-> In k seen.
Proof.
  rewrite existsb_exists. split.
  - intros (x & Hx & E). apply key_eqb_eq in E. now subst.
  - intros H. exists k. split; [exact H | apply key_eqb_refl].
Qed.

Lemma drop_duplicates_from_keys (df : list (entry date_cell)) (seen : list (key date_cell)) (k : key date_cell) :
  In k (map subset_key (drop_duplicates_from seen df))
  <-> In k (map subset_key df) /\ ~ In k seen.
Proof.
  revert seen. induction df as [|e df IH]; intros seen; simpl.
  - tauto.
  - destruct (existsb (key_eqb (subset_key e)) seen) eqn:E.
    + apply existsb_key in E. rewrite IH. split.
      * intros [H1 H2]. auto.
      * intros [[<- | H1] H2]; [contradiction | auto].
    + assert (Hn : ~ In (subset_key e) seen).
      { intros H. apply existsb_key in H. congruence. }
      simpl. rewrite IH. simpl. split.
      * intros [<- | [H1 H2]]; [auto | split; auto].
      * intros [[<- | H1] H2]; [auto|].
        destruct (key_eqb (subset_key e) k) eqn:Ek.
        -- apply key_eqb_eq in Ek. auto.
        -- right. split; [exact H1|]. intros [H | H]; [|contradiction].
           subst. rewrite key_eqb_refl in Ek. discriminate.
Qed.

Lemma drop_duplicates_from_nodup (df : list (entry date_cell)) (seen : list (key date_cell)) :
  NoDup (map subset_key (drop_duplicates_from seen df)).
Proof.
  revert seen. induction df as [|e df IH]; intros seen; simpl.
  - constructor.
  - destruct (existsb (key_eqb (subset_key e)) seen); [apply IH|].
    simpl. constructor; [|apply IH].
    rewrite drop_duplicates_from_keys. simpl. tauto.
Qed.

(** The row kept for a key is the first row of that key. *)
Lemma drop_duplicates_from_first (df : list (entry date_cell)) (seen : list (key date_cell)) (e : entry date_cell) :
  In e (drop_duplicates_from seen df) ->
  find (fun x => key_eqb (subset_key x) (subset_key e)) df = Some e.
Proof.
  revert seen. induction df as [|x df IH]; intros seen; simpl; [tauto|].
  destruct (existsb (key_eqb (subset_key x)) seen) eqn:E.
  - intros H. destruct (key_eqb (subset_key x) (subset_key e)) eqn:Ek.
    + apply key_eqb_eq in Ek. apply existsb_key in E.
      assert (Hin : In (subset_key e) (map subset_key (drop_duplicates_from seen df))).
      { apply in_map. exact H. }
      apply drop_duplicates_from_keys in Hin. rewrite Ek in E. tauto.
    + eapply IH; eauto.
  - intros [<- | H].
    + now rewrite key_eqb_refl.
    + destruct (key_eqb (subset_key x) (subset_key e)) eqn:Ek.
      * apply key_eqb_eq in Ek.
        assert (Hin : In (subset_key e)
                        (map subset_key (drop_duplicates_from (subset_key x :: seen) df))).
        { apply in_map. exact H. }
        apply drop_duplicates_from_keys in Hin. simpl in Hin. tauto.
      * eapply IH; eauto.
Qed.

(** A frame without repeated keys is kept whole. *)
Lemma drop_duplicates_from_fixed (df : list (entry date_cell)) (seen : list (key date_cell)) :
  NoDup (map subset_key df) ->
  (forall k, In k (map subset_key df) -> ~ In k seen) ->
  drop_duplicates_from seen df = df.
Proof.
  revert seen. induction df as [|e df IH]; intros seen Hnd Hseen; simpl; [reflexivity|].
  simpl in Hnd. inversion Hnd as [|? ? Hnotin Hnd']; subst.
  destruct (existsb (key_eqb (subset_key e)) seen) eqn:E.
  - apply existsb_key in E. exfalso. apply (Hseen (subset_key e)); simpl; auto.
  - f_equal. apply IH; [exact Hnd'|].
    intros k Hk [<- | H]; [contradiction|].
    apply (Hseen k); simpl; auto.
Qed.

Lemma drop_duplicates_idempotent (df : list (entry date_cell)) :
  drop_duplicates (drop_duplicates df) = drop_duplicates df.
Proof.
  unfold drop_duplicates. apply drop_duplicates_from_fixed.
  - apply drop_duplicates_from_nodup.
  - intros k _ [].
Qed.

(** The keys that the deduplication keeps are the keys of the matches, each
    once, in the order of their first match. *)
Lemma drop_duplicates_from_first_keys (df : list (entry date_cell)) (seen : list (key date_cell)) :
  map subset_key (drop_duplicates_from seen df)
  = first_keys_from seen (map subset_key df).
Proof.
  revert seen. induction df as [|e df IH]; intros seen; simpl; [reflexivity|].
  destruct (existsb (key_eqb (subset_key e)) seen); simpl; now rewrite IH.
Qed.

Lemma first_keys_from_seen (l rest seen : list (key date_cell)) :
  (forall k, In k l -> In k seen) ->
  first_keys_from seen (l ++ rest) = first_keys_from seen rest.
Proof.
  induction l as [|k l IH]; intros H; simpl; [reflexivity|].
  rewrite (proj2 (existsb_key k seen)) by (apply H; now left).
  apply IH. intros k' Hk'. apply H. now right.
Qed.

Lemma first_keys_from_repeat (k : key date_cell) (l rest seen : list (key date_cell)) :
  l <> [] -> (forall x, In x l -> x = k) ->
  first_keys_from seen (l ++ rest) = first_keys_from seen (k :: rest).
Proof.
  intros Hne Hall. destruct l as [|x l]; [contradiction|].
  assert (Hx : x = k) by (apply Hall; now left). subst x.
  assert (Hl : forall y, In y l -> y = k) by (intros y Hy; apply Hall; now right).
  change ((k :: l) ++ rest) with (k :: (l ++ rest)). cbn [first_keys_from].
  destruct (existsb (key_eqb k) seen) eqn:E.
  - apply first_keys_from_seen. intros y Hy.
    rewrite (Hl y Hy). now apply existsb_key.
  - f_equal. apply first_keys_from_seen. intros y Hy.
    rewrite (Hl y Hy). now left.
Qed.

Lemma merge_first_keys (result_df : list raw_match) (master_df : list master_row)
  (seen : list (key date_cell)) :
  first_keys_from seen (map subset_key (merge_rows result_df master_df))
  = first_keys_from seen (map raw_key result_df).
Proof.
  unfold merge_rows. revert seen.
  induction result_df as [|r rs IH]; intros seen; [reflexivity|].
  cbn [flat_map map]. rewrite map_app.
  rewrite (first_keys_from_repeat (raw_key r)).
  - cbn [first_keys_from]. destruct (existsb (key_eqb (raw_key r)) seen);
      now rewrite IH.
  - destruct (merge_row_head master_df r) as (rest & ->). discriminate.
  - intros k Hk. apply in_map_iff in Hk as (e & <- & He).
    eapply merge_row_key; eauto.
Qed.

(** ** The merge as a lookup *)

Lemma drop_duplicates_from_seen (l rest : list (entry date_cell))
  (seen : list (key date_cell)) :
  (forall e, In e l -> In (subset_key e) seen) ->
  drop_duplicates_from seen (l ++ rest) = drop_duplicates_from seen rest.
Proof.
  induction l as [|e l IH]; intros H; [reflexivity|].
  cbn [Datatypes.app drop_duplicates_from].
  rewrite (proj2 (existsb_key (subset_key e) seen)) by (apply H; now left).
  apply IH. intros e' He'. apply H. now right.
Qed.

Lemma drop_duplicates_from_merge (result_df : list raw_match)
  (master_df : list master_row) :
  forall seen,
    drop_duplicates_from seen (merge_rows result_df master_df)
    = drop_duplicates_from seen (map (looked_up master_df) result_df).
Proof.
  unfold merge_rows. induction result_df as [|r rs IH]; intros seen; [reflexivity|].
  cbn [flat_map map].
  destruct (merge_row_head master_df r) as (rest & Hhead).
  fold (looked_up master_df r) in Hhead.
  assert (Hrest : forall e, In e rest -> subset_key e = subset_key (looked_up master_df r)).
  { intros e He. rewrite (merge_row_key master_df r e).
    - symmetry. apply (merge_row_key master_df r). rewrite Hhead. now left.
    - rewrite Hhead. now right. }
  rewrite Hhead. cbn [Datatypes.app drop_duplicates_from].
  destruct (existsb (key_eqb (subset_key (looked_up master_df r))) seen) eqn:E.
  - rewrite drop_duplicates_from_seen; [apply IH|].
    intros e He. rewrite (Hrest e He). now apply existsb_key.
  - f_equal. rewrite drop_duplicates_from_seen; [apply IH|].
    intros e He. rewrite (Hrest e He). now left.
Qed.

Lemma looked_up_first_master (master_df master_df' : list master_row)
  (r : raw_match) :
  first_master (r_Subject r) master_df = first_master (r_Subject r) master_df' ->
  looked_up master_df r = looked_up master_df' r.
Proof. unfold looked_up. now intros ->. Qed.

(** ** The assembled schedule *)

Lemma nodup_key_count {A} (f : A -> key date_cell) (l : list A) (k : key date_cell) :
  NoDup (map f l) -> In k (map f l) ->
  length (filter (fun x => key_eqb (f x) k) l) = 1%nat.
Proof.
  induction l as [|x l IH]; simpl; intros Hnd Hin; [contradiction|].
  inversion Hnd as [|? ? Hnotin Hnd']; subst.
  destruct (key_eqb (f x) k) eqn:E.
  - apply key_eqb_eq in E. subst k. simpl. f_equal.
    rewrite (proj2 (length_zero_iff_nil _)); [reflexivity|].
    destruct (filter _ l) as [|y ys] eqn:Ef; [reflexivity|].
    exfalso. assert (Hy : In y (filter (fun x0 => key_eqb (f x0) (f x)) l))
      by (rewrite Ef; now left).
    apply filter_In in Hy as [Hy Ey]. apply key_eqb_eq in Ey.
    apply Hnotin. rewrite <- Ey. now apply in_map.
  - destruct Hin as [Hin | Hin]; [|now apply IH].
    subst k. rewrite key_eqb_refl in E. discriminate.
Qed.

(** Equality of deduplication keys is decidable. *)
Lemma key_dec (a b : key date_cell) : {a = b} + {a <> b}.
Proof.
  destruct (key_eqb a b) eqn:E.
  - left. now apply key_eqb_eq.
  - right. intros H. apply key_eqb_eq in H. congruence.
Defined.

Lemma nodup_length_le (l : list (key date_cell)) :
  (length (nodup key_dec l) <= length l)%nat.
Proof.
  induction l as [|k l IH]; [apply Nat.le_refl|].
  cbn [nodup]. destruct (in_dec key_dec k l); cbn [length]; lia.
Qed.

Lemma nodup_length_all (l : list (key date_cell)) :
  length (nodup key_dec l) = length l -> NoDup l.
Proof.
  induction l as [|k l IH]; [constructor|].
  cbn [nodup]. destruct (in_dec key_dec k l) as [Hin|Hnin]; cbn [length].
  - pose proof (nodup_length_le l). lia.
  - intros H. injection H as H. constructor; [exact Hnin | now apply IH].
Qed.

Lemma has_text_In (col : list cell) :
  has_text col = true <-> exists s, In (CStr s) col.
Proof.
  unfold has_text. rewrite existsb_exists. split.
  - intros ([s| |] & Hin & Ht); try discriminate. eauto.
  - intros (s & Hin). exists (CStr s). auto.
Qed.

Lemma has_text_same (a b : list cell) :
  (forall v, In v a <-> In v b) -> has_text a = has_text b.
Proof.
  intros H. destruct (has_text a) eqn:Ea, (has_text b) eqn:Eb; try reflexivity.
  - apply has_text_In in Ea as (s & Hs). apply H in Hs.
    rewrite (proj2 (has_text_In b)) in Eb; [discriminate | eauto].
  - apply has_text_In in Eb as (s & Hs). apply H in Hs.
    rewrite (proj2 (has_text_In a)) in Ea; [discriminate | eauto].
Qed.

Lemma slice3_idempotent (v : cell) : slice3 (slice3 v) = slice3 v.
Proof.
  destruct v as [s| |]; try reflexivity. cbn [slice3]. f_equal.
  rewrite firstn_firstn. now rewrite Nat.min_id.
Qed.

Lemma has_text_slice3 (col : list cell) :
  has_text (map slice3 col) = has_text col.
Proof.
  unfold has_text. induction col as [|v col IH]; [reflexivity|].
  cbn [map existsb]. rewrite IH. now destruct v.
Qed.

(** The column assignments of lines 105 and 111, row by row. *)
Lemma with_dates_rows (P : pandas_db) (df : list (entry date_cell)) :
  with_dates P df
  = map (fun e => set_Date e (read_date P (map Date df) (Date e))) df.
Proof.
  unfold with_dates, to_datetime.
  assert (H : forall col (l : list (entry date_cell)),
             map (fun p => set_Date (fst p) (snd p))
               (combine l (map (read_date P col) (map Date l)))
             = map (fun e => set_Date e (read_date P col (Date e))) l).
  { intros col l. induction l as [|e l IH]; [reflexivity|].
    cbn [map combine fst snd]. now rewrite IH. }
  apply H.
Qed.

Lemma cut_days_rows (df : list timed) :
  cut_days df
  = if has_text (map (fun t => Day (base t)) df)
    then Ok (map abbreviate df) else Raise AttributeError.
Proof.
  unfold cut_days, str_slice3.
  destruct (has_text (map (fun t => Day (base t)) df)); [|reflexivity].
  cbn [bind]. f_equal. unfold abbreviate.
  induction df as [|t df IH]; [reflexivity|].
  cbn [map combine fst snd]. now rewrite IH.
Qed.

Section Schedule.

Variable U : unicode_db.
Variable P : pandas_db.

Lemma sort_key_abbreviate (t : timed) : sort_key (abbreviate t) = sort_key t.
Proof. reflexivity. Qed.

Lemma abbreviate_sorted (l : list timed) :
  StronglySorted before l -> StronglySorted before (map abbreviate l).
Proof.
  induction 1 as [|x l Hs IH Hall]; simpl; constructor; [exact IH|].
  apply Forall_map. eapply Forall_impl; [|exact Hall].
  intros y Hy. exact Hy.
Qed.

Lemma with_sort_key_abbreviate (k : option Z * option time) (l : list timed) :
  with_sort_key k (map abbreviate l) = map abbreviate (with_sort_key k l).
Proof.
  unfold with_sort_key. induction l as [|x l IH]; simpl; [reflexivity|].
  rewrite sort_key_abbreviate.
  destruct (sort_key_eqb (sort_key x) k); simpl; now rewrite IH.
Qed.

Lemma abbreviate_idempotent (t : timed) : abbreviate (abbreviate t) = abbreviate t.
Proof.
  unfold abbreviate, set_Day. cbn [base Day Date Session Subject Div Faculty Venue
                                     Start_Time].
  now rewrite slice3_idempotent.
Qed.

Lemma frame_key_row (col : list date_cell) (e : entry date_cell) :
  frame_key (abbreviate (timed_row U P col e)) = shown_key P col (subset_key e).
Proof. reflexivity. Qed.

Lemma sorted_frame_perm (result_df : list raw_match) (master_df : list master_row) :
  Permutation (unsorted_frame U P result_df master_df)
              (sorted_frame U P result_df master_df).
Proof. apply sort_values_perm. Qed.

Lemma deduplicated_order (result_df : list raw_match) (master_df : list master_row) :
  map subset_key (deduplicated result_df master_df)
  = first_keys (map raw_key result_df).
Proof.
  unfold deduplicated, drop_duplicates, first_keys.
  rewrite drop_duplicates_from_first_keys. apply merge_first_keys.
Qed.

Lemma deduplicated_nodup (result_df : list raw_match) (master_df : list master_row) :
  NoDup (map subset_key (deduplicated result_df master_df)).
Proof. apply drop_duplicates_from_nodup. Qed.

Lemma deduplicated_has_key (result_df : list raw_match)
  (master_df : list master_row) (k : key date_cell) :
  In k (map subset_key (deduplicated result_df master_df))
  <-> In k (map raw_key result_df).
Proof.
  rewrite <- (merge_keys result_df master_df).
  unfold deduplicated, drop_duplicates. rewrite drop_duplicates_from_keys.
  simpl. tauto.
Qed.

(** Every row of the deduplicated frame is the first row of its key in the
    merged frame. *)
Lemma deduplicated_first (result_df : list raw_match) (master_df : list master_row)
  (e : entry date_cell) :
  In e (deduplicated result_df master_df) ->
  find (fun x => key_eqb (subset_key x) (subset_key e))
    (merge_rows result_df master_df) = Some e.
Proof. intros H. eapply drop_duplicates_from_first. exact H. Qed.

Lemma deduplicated_nonempty (result_df : list raw_match)
  (master_df : list master_row) :
  result_df <> [] -> deduplicated result_df master_df <> [].
Proof.
  intros Hne Hnil. destruct result_df as [|r rs]; [contradiction|].
  assert (Hk : In (raw_key r) (map subset_key (deduplicated (r :: rs) master_df))).
  { apply deduplicated_has_key. now left. }
  rewrite Hnil in Hk. exact Hk.
Qed.

(** The rows of the schedule are the rows of the deduplicated frame, each
    with its date read, its start time and its day cut. *)
Lemma schedule_perm (result_df : list raw_match) (master_df : list master_row) :
  Permutation
    (map (fun e => abbreviate (timed_row U P (date_column result_df master_df) e))
       (deduplicated result_df master_df))
    (schedule U P result_df master_df).
Proof.
  unfold schedule. rewrite <- map_map. apply Permutation_map.
  apply sorted_frame_perm.
Qed.

Lemma schedule_row (result_df : list raw_match) (master_df : list master_row)
  (t : timed) :
  In t (schedule U P result_df master_df)
  <-> exists e, In e (deduplicated result_df master_df)
                /\ t = abbreviate (timed_row U P (date_column result_df master_df) e).
Proof.
  split.
  - intros H.
    apply (Permutation_in _ (Permutation_sym (schedule_perm _ _))) in H.
    apply in_map_iff in H as (e & <- & He). eauto.
  - intros (e & He & ->). apply (Permutation_in _ (schedule_perm _ _)).
    apply in_map_iff. eauto.
Qed.

Lemma schedule_sorted (result_df : list raw_match) (master_df : list master_row) :
  StronglySorted before (schedule U P result_df master_df).
Proof. apply abbreviate_sorted, sort_values_sorted. Qed.

Lemma schedule_days (result_df : list raw_match) (master_df : list master_row) :
  has_text (map (fun t => Day (base t)) (sorted_frame U P result_df master_df))
  = has_text (map r_Day result_df).
Proof.
  apply has_text_same. intros v. rewrite !in_map_iff. split.
  - intros (t & <- & Ht).
    apply (Permutation_in _ (Permutation_sym (sorted_frame_perm _ _))) in Ht.
    unfold unsorted_frame in Ht. apply in_map_iff in Ht as (e & <- & He).
    assert (Hk : In (subset_key e) (map raw_key result_df)).
    { apply (deduplicated_has_key result_df master_df). now apply in_map. }
    apply in_map_iff in Hk as (r & Hr & Hin).
    exists r. split; [|exact Hin]. unfold raw_key, subset_key in Hr.
    now injection Hr.
  - intros (r & <- & Hr).
    assert (Hk : In (raw_key r) (map subset_key (deduplicated result_df master_df))).
    { apply deduplicated_has_key. now apply in_map. }
    apply in_map_iff in Hk as (e & He & Hin).
    exists (timed_row U P (date_column result_df master_df) e). split.
    + unfold raw_key, subset_key in He. now injection He.
    + apply (Permutation_in _ (sorted_frame_perm _ _)).
      unfold unsorted_frame. now apply in_map.
Qed.

Lemma schedule_length (result_df : list raw_match) (master_df : list master_row) :
  length (schedule U P result_df master_df)
  = length (nodup key_dec (map raw_key result_df)).
Proof.
  unfold schedule, sorted_frame. rewrite length_map.
  rewrite <- (Permutation_length (sort_values_perm _)).
  unfold unsorted_frame. rewrite length_map.
  rewrite <- (length_map subset_key). apply Permutation_length.
  apply NoDup_Permutation; [apply deduplicated_nodup | apply NoDup_nodup|].
  intros k. rewrite nodup_In. apply deduplicated_has_key.
Qed.

Lemma schedule_nonempty (result_df : list raw_match) (master_df : list master_row) :
  result_df <> [] -> schedule U P result_df master_df <> [].
Proof.
  intros Hne Hnil. apply (deduplicated_nonempty result_df master_df Hne).
  apply length_zero_iff_nil.
  rewrite <- (length_map (fun e => abbreviate
                                     (timed_row U P (date_column result_df master_df) e))).
  rewrite (Permutation_length (schedule_perm result_df master_df)).
  now rewrite Hnil.
Qed.

(** What [assemble] returns and when it raises. *)
Lemma assemble_eq (result_df : list raw_match) (master_df : list master_row) :
  assemble U P result_df master_df
  = match result_df with
    | [] => Raise KeyError
    | _ :: _ =>
        if unmergeable master_df then Raise ValueError
        else if has_text (map r_Day result_df)
             then Ok (schedule U P result_df master_df)
             else Raise AttributeError
    end.
Proof.
  unfold assemble, merge. destruct result_df as [|r rs]; [reflexivity|].
  fold (unmergeable master_df). destruct (unmergeable master_df); [reflexivity|].
  cbn [bind]. rewrite cut_days_rows.
  fold (deduplicated (r :: rs) master_df). rewrite with_dates_rows, map_map.
  fold (date_column (r :: rs) master_df).
  change (map (fun x => with_start_time U
                          (set_Date x (read_date P (date_column (r :: rs) master_df)
                                         (Date x))))
            (deduplicated (r :: rs) master_df))
    with (unsorted_frame U P (r :: rs) master_df).
  fold (sorted_frame U P (r :: rs) master_df).
  now rewrite schedule_days.
Qed.

Lemma assemble_ok (result_df : list raw_match) (master_df : list master_row)
  (final_df : list timed) :
  assemble U P result_df master_df = Ok final_df ->
  final_df = schedule U P result_df master_df
  /\ result_df <> []
  /\ unmergeable master_df = false
  /\ has_text (map r_Day result_df) = true.
Proof.
  rewrite assemble_eq. destruct result_df as [|r rs]; [discriminate|].
  destruct (unmergeable master_df); [discriminate|].
  destruct (has_text (map r_Day (r :: rs))); [|discriminate].
  intros H. injection H as <-. repeat split. discriminate.
Qed.

End Schedule.

Lemma time_leb_refl (a : time) : time_leb a a = true.
Proof.
  destruct a as [h m]. unfold time_leb. simpl.
  rewrite Nat.eqb_refl, Nat.leb_refl. apply orb_true_r.
Qed.

(** ** The rows of the schedule by their keys *)

Section Rows.

Variable U : unicode_db.
Variable P : pandas_db.

Lemma merge_first_lookup (result_df : list raw_match) (master_df : list master_row)
  (e : entry date_cell) :
  In e (deduplicated result_df master_df) ->
  Faculty e = match first_master (Subject e) master_df with
              | Some x => master_Faculty x
              | None => CNaN
              end
  /\ Venue e = match first_master (Subject e) master_df with
               | Some x => master_Venue x
               | None => CNaN
               end.
Proof.
  intros He. apply deduplicated_first, merge_first in He.
  destruct (first_master (Subject e) master_df); exact He.
Qed.

(** A row of the schedule is the row of its key. *)
Lemma schedule_keyed (result_df : list raw_match) (master_df : list master_row)
  (t : timed) :
  In t (schedule U P result_df master_df) ->
  t = keyed_row U master_df (frame_key t).
Proof.
  intros Ht. apply schedule_row in Ht as (e & He & ->).
  destruct (merge_first_lookup _ _ _ He) as [Hf Hv].
  unfold keyed_row, frame_key, subset_key, abbreviate, timed_row, with_start_time,
    set_Day, set_Date.
  cbn [base Date Day Session Subject Div Faculty Venue Start_Time].
  now rewrite <- Hf, <- Hv.
Qed.

Lemma read_date_as_cell (col : list date_cell) (d : option Z) :
  read_date P col (as_cell d) = d.
Proof. now destruct d. Qed.

Lemma as_cell_inj (a b : option Z) : as_cell a = as_cell b -> a = b.
Proof. destruct a, b; simpl; congruence. Qed.

Lemma key_as_read_inj (a b : key (option Z)) :
  key_as_read a = key_as_read b -> a = b.
Proof.
  destruct a as [[[[d1 y1] s1] c1] v1], b as [[[[d2 y2] s2] c2] v2].
  cbn [key_as_read]. intros H. injection H as Hd -> -> -> ->.
  now rewrite (as_cell_inj _ _ Hd).
Qed.

(** The row that a match with the key of a schedule row becomes. *)
Lemma timed_row_keyed (master_df : list master_row) (col : list date_cell)
  (r : raw_match) (k : key (option Z)) :
  raw_key r = key_as_read k ->
  timed_row U P col (looked_up master_df r) = keyed_row U master_df k.
Proof.
  destruct k as [[[[d y] s] c] v]. unfold raw_key. cbn [key_as_read].
  intros H. injection H as Hd Hy Hs Hc Hv.
  unfold timed_row, with_start_time, set_Date, looked_up, keyed_row.
  rewrite Hc. destruct (first_master c master_df);
    cbn [enrich base Date Day Session Subject Div Faculty Venue];
    now rewrite Hd, Hy, Hs, Hc, Hv, read_date_as_cell.
Qed.

Lemma keys_of_matches (results : list raw_match) (l : list timed) :
  map raw_key results = map (fun t => key_as_read (frame_key t)) l ->
  map r_Day results = map (fun t => Day (base t)) l.
Proof.
  revert l. induction results as [|r rs IH]; intros [|t l] H; try discriminate;
    [reflexivity|].
  rewrite !map_cons in *. injection H as Hd Hy Hs Hc Hv Hrest.
  f_equal; [exact Hy | apply IH; exact Hrest].
Qed.

Lemma rows_of_matches (master_df : list master_row) (col : list date_cell)
  (results : list raw_match) (l : list timed) :
  map raw_key results = map (fun t => key_as_read (frame_key t)) l ->
  (forall t, In t l -> t = keyed_row U master_df (frame_key t)) ->
  map (timed_row U P col) (map (looked_up master_df) results) = l.
Proof.
  revert l. induction results as [|r rs IH]; intros [|t l] H Hrows; try discriminate;
    [reflexivity|].
  rewrite !map_cons in *.
  assert (Hk : raw_key r = key_as_read (frame_key t))
    by exact (f_equal (hd (raw_key r)) H).
  assert (Hrest : map raw_key rs = map (fun t => key_as_read (frame_key t)) l)
    by exact (f_equal (@tl _) H).
  f_equal.
  - rewrite (timed_row_keyed master_df col r (frame_key t) Hk).
    symmetry. apply Hrows. now left.
  - apply IH; [exact Hrest|]. intros t' Ht'. apply Hrows. now right.
Qed.

Lemma looked_up_key (master_df : list master_row) (r : raw_match) :
  subset_key (looked_up master_df r) = raw_key r.
Proof. unfold looked_up. now destruct (first_master _ _). Qed.

(** The schedule made from matches that carry the keys of a schedule. *)
Lemma schedule_again (result_df results : list raw_match)
  (master_df : list master_row) :
  map raw_key results
  = map (fun t => key_as_read (frame_key t)) (schedule U P result_df master_df) ->
  NoDup (map frame_key (schedule U P result_df master_df)) ->
  schedule U P results master_df = schedule U P result_df master_df.
Proof.
  intros Hkeys Hnd.
  assert (Hdedup : deduplicated results master_df
                   = map (looked_up master_df) results).
  { unfold deduplicated, drop_duplicates. rewrite drop_duplicates_from_merge.
    apply drop_duplicates_from_fixed; [|intros k _ []].
    rewrite map_map.
    rewrite (map_ext _ raw_key) by (intros r; apply looked_up_key).
    rewrite Hkeys, <- map_map. apply NoDup_map_NoDup_ForallPairs; [|exact Hnd].
    intros a b _ _. apply key_as_read_inj. }
  unfold schedule at 1, sorted_frame, unsorted_frame. rewrite Hdedup.
  rewrite (rows_of_matches master_df _ results (schedule U P result_df master_df)
             Hkeys (schedule_keyed result_df master_df)).
  rewrite sort_values_of_sorted by apply schedule_sorted.
  unfold schedule. rewrite map_map. apply map_ext. intros t.
  apply abbreviate_idempotent.
Qed.

End Rows.


(** C5 (amended). After [drop_duplicates] no two rows share ([Date], [Day],
    [Session], [Subject], [Div]) as read, and the row kept for a key is the
    first of that key in the merged frame.  In the schedule, where the date
    has been read by [pd.to_datetime] and the day cut to three characters,
    no two rows share the key when no two keys of the matches fall together
    under the reading and the cut.  Assembling again from the rows of the
    schedule never gives more rows, and gives the schedule back exactly when
    no two of its rows share the key. *)
Theorem deduplicated_keys_unique (U : unicode_db) (P : pandas_db)
  (result_df : list raw_match) (master_df : list master_row)
  (final_df : list timed) :
  assemble U P result_df master_df = Ok final_df ->
  NoDup (map subset_key (deduplicated result_df master_df))
  /\ (forall e, In e (deduplicated result_df master_df) ->
                find (fun x => key_eqb (subset_key x) (subset_key e))
                  (merge_rows result_df master_df) = Some e)
  /\ ((forall a b, In a result_df -> In b result_df ->
                   shown_key P (date_column result_df master_df) (raw_key a)
                   = shown_key P (date_column result_df master_df) (raw_key b) ->
                   raw_key a = raw_key b) ->
      NoDup (map frame_key final_df))
  /\ (forall results,
         map raw_key results = map (fun t => key_as_read (frame_key t)) final_df ->
         exists again,
           assemble U P results master_df = Ok again
           /\ (length again <= length final_df)%nat
           /\ (again = final_df <-> NoDup (map frame_key final_df))).
Proof.
  intros Hok. apply assemble_ok in Hok as (-> & Hne & Hmerge & Hdays).
  split; [apply deduplicated_nodup|].
  split; [intros e He; now apply deduplicated_first|].
  split.
  - intros Hinj.
    eapply Permutation_NoDup;
      [apply Permutation_map, (schedule_perm U P result_df master_df)|].
    rewrite map_map.
    rewrite (map_ext _ (fun e => shown_key P (date_column result_df master_df)
                                   (subset_key e)))
      by (intros e; apply frame_key_row).
    rewrite <- map_map. apply NoDup_map_NoDup_ForallPairs;
      [|apply deduplicated_nodup].
    intros x y Hx Hy Heq.
    apply (deduplicated_has_key result_df master_df) in Hx, Hy.
    apply in_map_iff in Hx as (a & <- & Ha). apply in_map_iff in Hy as (b & <- & Hb).
    now apply Hinj.
  - intros results Hkeys.
    assert (Hres : results <> []).
    { intros ->. symmetry in Hkeys. apply map_eq_nil in Hkeys.
      now apply (schedule_nonempty U P result_df master_df). }
    assert (Hd : has_text (map r_Day results) = true).
    { rewrite (keys_of_matches _ _ Hkeys). unfold schedule. rewrite map_map.
      rewrite (map_ext _ (fun t => slice3 (Day (base t)))) by reflexivity.
      rewrite <- map_map with (g := slice3).
      rewrite has_text_slice3, schedule_days. exact Hdays. }
    exists (schedule U P results master_df). rewrite assemble_eq, Hmerge, Hd.
    destruct results as [|r rs]; [contradiction|].
    split; [reflexivity|].
    assert (Hall : length (map raw_key (r :: rs))
                   = length (schedule U P result_df master_df)).
    { rewrite Hkeys. apply length_map. }
    split; [|split].
    + rewrite schedule_length, <- Hall. apply nodup_length_le.
    + intros Heq.
      assert (Hnd : NoDup (map raw_key (r :: rs))).
      { apply nodup_length_all. rewrite <- schedule_length with (U := U) (P := P)
                                                             (master_df := master_df).
        now rewrite Heq. }
      rewrite Hkeys, <- map_map in Hnd. eapply NoDup_map_inv. exact Hnd.
    + intros Hnd. now apply schedule_again.
Qed.


Lemma unmergeable_iff (master_df : list master_row) :
  unmergeable master_df = false
  <-> master_df = [] \/ exists m s, In m master_df /\ Abbre m = CStr s.
Proof.
  unfold unmergeable, dtype_of. destruct master_df as [|m0 ms]; [cbn; tauto|].
  change (map Abbre (m0 :: ms)) with (Abbre m0 :: map Abbre ms).
  destruct (has_text (Abbre m0 :: map Abbre ms)) eqn:E.
  - split; [|reflexivity]. intros _. right.
    apply has_text_In in E as (s & Hs).
    change (In (CStr s) (map Abbre (m0 :: ms))) in Hs.
    apply in_map_iff in Hs as (m & Hm & Hin). eauto.
  - split.
    + destruct (existsb is_blank _); discriminate.
    + intros [H | (m & s & Hin & Hm)]; [discriminate|].
      rewrite (proj2 (has_text_In _)) in E; [discriminate|].
      exists s. rewrite <- Hm. now apply (in_map Abbre (m0 :: ms)).
Qed.

(** C7 (amended). A match whose subject equals no [Abbre.] of the master
    sheet has its row in the schedule, with its date read, its day cut to
    three letters, its session, subject and division, and with missing
    faculty and venue, when the master sheet is empty or holds text in some
    [Abbre.] and some match has text for its day.  When the master sheet has
    rows and none holds text in [Abbre.], the merge raises [ValueError];
    otherwise, when no match has text for its day, the cut of the day raises
    [AttributeError]. *)
Theorem unmatched_subject_kept (U : unicode_db) (P : pandas_db)
  (result_df : list raw_match) (master_df : list master_row) (r : raw_match) :
  In r result_df ->
  (forall m, In m master_df -> Abbre m <> CStr (r_Subject r)) ->
  (master_df = [] \/ (exists m s, In m master_df /\ Abbre m = CStr s) ->
   (exists a s, In a result_df /\ r_Day a = CStr s) ->
   exists final_df,
     assemble U P result_df master_df = Ok final_df
     /\ exists t, In t final_df
                  /\ base t
                     = {| Date := read_date P (date_column result_df master_df)
                                    (r_Date r);
                          Day := slice3 (r_Day r);
                          Session := r_Session r; Subject := r_Subject r;
                          Div := r_Div r; Faculty := CNaN; Venue := CNaN |})
  /\ (master_df <> [] ->
      (forall m, In m master_df -> is_text (Abbre m) = false) ->
      assemble U P result_df master_df = Raise ValueError)
  /\ (master_df = [] \/ (exists m s, In m master_df /\ Abbre m = CStr s) ->
      (forall a, In a result_df -> is_text (r_Day a) = false) ->
      assemble U P result_df master_df = Raise AttributeError).
Proof.
  intros Hr Hnone. rewrite assemble_eq.
  destruct result_df as [|r0 rs]; [contradiction|].
  split; [|split].
  - intros Hm (a & s & Ha & Hday). apply unmergeable_iff in Hm. rewrite Hm.
    rewrite (proj2 (has_text_In _))
      by (exists s; rewrite <- Hday; now apply (in_map r_Day)).
    eexists. split; [reflexivity|].
    assert (Hk : In (raw_key r) (map subset_key (deduplicated (r0 :: rs) master_df))).
    { apply deduplicated_has_key. now apply in_map. }
    apply in_map_iff in Hk as (e & Hkey & He).
    exists (abbreviate (timed_row U P (date_column (r0 :: rs) master_df) e)).
    split; [apply schedule_row; eauto|].
    destruct (merge_first_lookup _ _ _ He) as [Hf Hv].
    unfold subset_key, raw_key in Hkey. injection Hkey as Hd Hy Hs Hc Hdv.
    assert (Hnf : first_master (Subject e) master_df = None).
    { unfold first_master. apply find_none_all. intros m Hin.
      destruct (cell_eqb (CStr (Subject e)) (Abbre m)) eqn:E; [|reflexivity].
      apply cell_eqb_eq in E. exfalso. apply (Hnone m Hin). congruence. }
    rewrite Hnf in Hf, Hv.
    unfold abbreviate, timed_row, with_start_time, set_Day, set_Date.
    cbn [base Date Day Session Subject Div Faculty Venue].
    now rewrite Hd, Hy, Hs, Hc, Hdv, Hf, Hv.
  - intros Hne Hall.
    destruct (unmergeable master_df) eqn:E; [reflexivity|].
    apply unmergeable_iff in E as [E | (m & s & Hin & Hm)]; [contradiction|].
    specialize (Hall m Hin). rewrite Hm in Hall. discriminate.
  - intros Hm Hall. apply unmergeable_iff in Hm. rewrite Hm.
    destruct (has_text (map r_Day (r0 :: rs))) eqn:E; [|reflexivity].
    apply has_text_In in E as (s & Hs). apply in_map_iff in Hs as (a & Ha & Hin).
    specialize (Hall a Hin). rewrite Ha in Hall. discriminate.
Qed.

(** ** The schedule on the sample sheets *)


(** C5, as first stated, fails: the two rows of [two_day_names] have
    different keys when they are deduplicated and the same key once the day
    is cut to three letters, so the schedule holds two rows of one key. *)
Lemma day_cut_repeats_a_key :
  exists a b,
    app ascii_db no_dates roll_21BCM014
      [roster "CS101_A.xlsx" [CStr roll_21BCM014]] [] two_day_names
    = Ok (Schedule [py "CS101_A"] [a; b])
    /\ frame_key a = frame_key b
    /\ ~ NoDup (map frame_key [a; b]).
Proof.
  eexists. eexists. split; [vm_compute; reflexivity|].
  split; [reflexivity|].
  intros H. inversion H as [|? ? Hnotin _]. apply Hnotin. now left.
Qed.

(** The same happens to dates: the two rows of [undated_week] differ in the
    text of their date, which names no date, and both have the missing date
    once the column is read. *)
Lemma unread_dates_repeat_a_key :
  exists a b,
    app ascii_db no_dates roll_21BCM014
      [roster "CS101_A.xlsx" [CStr roll_21BCM014]] [] undated_week
    = Ok (Schedule [py "CS101_A"] [a; b])
    /\ frame_key a = frame_key b.
Proof.
  eexists. eexists. split; [vm_compute; reflexivity | reflexivity].
Qed.

(** On [two_days] the days stay distinct once cut ("Tue", "Mon"): the
    schedule holds one row for each of the two keys, and assembling again
    from these rows gives them back. *)
Lemma deduplicated_keys_unique_witness :
  length (schedule ascii_db no_dates two_days repeated_master) = 2%nat
  /\ NoDup (map frame_key (schedule ascii_db no_dates two_days repeated_master)).
Proof.
  split; [vm_compute; reflexivity|].
  apply (proj1 (proj2 (proj2
           (deduplicated_keys_unique ascii_db no_dates two_days repeated_master
              (schedule ascii_db no_dates two_days repeated_master) eq_refl)))).
  intros a b [<- | [<- | [<- | []]]] [<- | [<- | [<- | []]]] H;
    solve [reflexivity | vm_compute in H; discriminate H].
Defined.


(** MA102 is not in the master sheet: its row is there, without faculty and
    venue. *)
Lemma unmatched_subject_kept_witness :
  exists final_df,
    assemble ascii_db no_dates late_first repeated_master = Ok final_df
    /\ exists t, In t final_df
                 /\ base t = {| Date := Some 20241104%Z; Day := CStr (py "Mon");
                                Session := py "9:00AM-10:00AM";
                                Subject := py "MA102";
                                Div := []; Faculty := CNaN; Venue := CNaN |}.
Proof.
  apply (proj1 (unmatched_subject_kept ascii_db no_dates late_first repeated_master
                  (sample_match "Monday" "9:00AM-10:00AM" "MA102" "")
                  (or_intror (or_introl eq_refl))
                  ltac:(intros m [<- | [<- | []]]; discriminate))).
  - right. eexists. eexists. split; [left; reflexivity | reflexivity].
  - eexists. eexists. split; [left; reflexivity | reflexivity].
Defined.

(** C7, as first stated, fails: with a master sheet whose [Abbre.] holds
    numbers only, CS101 equals no abbreviation, and the merge raises. *)
Lemma numeric_master_raises :
  assemble ascii_db no_dates late_first numbered_master = Raise ValueError
  /\ app ascii_db no_dates roll_21BCM014
       [roster "CS101_A.xlsx" [CStr roll_21BCM014]] numbered_master two_day_names
     = Raise ValueError.
Proof. split; vm_compute; reflexivity. Qed.
(** ** The roster scan *)

Lemma get_student_courses_from (roll_no : str) (listing : list roster_file)
  (student_courses : list str) :
  fold_left
    (fun student_courses f =>
       let file := file_name f in
       if endswith (py ".xlsx") file then
         let df := file_sheet f in
         if lists_roll roll_no df
         then let base := replace (py ".xlsx") [] file in
              student_courses ++ [base]
         else student_courses
       else student_courses)
    listing student_courses
  = student_courses ++ flat_map (file_courses roll_no) listing.
Proof.
  revert student_courses.
  induction listing as [|f fs IH]; intros acc; simpl.
  - now rewrite app_nil_r.
  - rewrite IH. unfold file_courses.
    destruct (endswith (py ".xlsx") (file_name f)); [|reflexivity].
    destruct (lists_roll roll_no (file_sheet f)); [|reflexivity].
    now rewrite <- app_assoc.
Qed.

Lemma get_student_courses_flat_map (roll_no : str) (listing : list roster_file) :
  get_student_courses roll_no listing = flat_map (file_courses roll_no) listing.
Proof. unfold get_student_courses. now rewrite get_student_courses_from. Qed.

(** Entries that add nothing can be taken out of the listing. *)
Lemma flat_map_filter {A B} (g : A -> list B) (p : A -> bool) (l : list A) :
  (forall x, p x = false -> g x = []) ->
  flat_map g (filter p l) = flat_map g l.
Proof.
  intros H. induction l as [|x l IH]; simpl; [reflexivity|].
  destruct (p x) eqn:E; simpl; rewrite IH; [reflexivity|].
  now rewrite (H x E).
Qed.

Lemma file_courses_needs_column (roll_no : str) (f : roster_file) :
  has_column roll_column (file_sheet f) = false -> file_courses roll_no f = [].
Proof.
  intros H. unfold file_courses, lists_roll. rewrite H. simpl.
  now destruct (endswith _ _).
Qed.

Lemma file_courses_needs_xlsx (roll_no : str) (f : roster_file) :
  endswith (py ".xlsx") (file_name f) = false -> file_courses roll_no f = [].
Proof. intros H. unfold file_courses. now rewrite H. Qed.

(** X1. Files whose name does not end in ".xlsx" are never opened, whatever
    they hold. *)
Lemma get_student_courses_only_xlsx (roll_no : str) (listing : list roster_file) :
  get_student_courses roll_no listing
  = get_student_courses roll_no
      (filter (fun f => endswith (py ".xlsx") (file_name f)) listing).
Proof.
  rewrite !get_student_courses_flat_map. symmetry.
  apply flat_map_filter. intros f. apply file_courses_needs_xlsx.
Qed.

(** C8. A roster file without the column "Roll No." is passed over: the
    result is that of the directory without such files, such files alone
    give the empty result, and an empty result makes the page show its
    warning, not fail. *)
Theorem roster_without_roll_column_skipped (U : unicode_db) (P : pandas_db)
  (roll_no : str) (listing : list roster_file) :
  get_student_courses roll_no listing
  = get_student_courses roll_no
      (filter (fun f => has_column roll_column (file_sheet f)) listing)
  /\ get_student_courses roll_no
       (filter (fun f => negb (has_column roll_column (file_sheet f))) listing)
     = []
  /\ (forall master_df weekly_df,
         roll_no <> [] ->
         get_student_courses roll_no listing = [] ->
         app U P roll_no listing master_df weekly_df = Ok No_courses).
Proof.
  split; [|split].
  - rewrite !get_student_courses_flat_map. symmetry.
    apply flat_map_filter. intros f. apply file_courses_needs_column.
  - rewrite get_student_courses_flat_map.
    induction listing as [|f fs IH]; simpl; [reflexivity|].
    destruct (has_column roll_column (file_sheet f)) eqn:E; simpl; [exact IH|].
    now rewrite (file_courses_needs_column roll_no f E).
  - intros master_df weekly_df Hroll Hnone. unfold app.
    destruct roll_no as [|c roll]; [contradiction|].
    now rewrite Hnone.
Qed.

(** A roster sheet without the column is passed over even when it holds the
    roll number elsewhere; alone, it leaves the page with its warning. *)
Lemma roster_without_roll_column_skipped_witness :
  get_student_courses roll_21BCM014
    [{| file_name := py "EC201_B.xlsx";
        file_sheet := [(py "Name", [CStr roll_21BCM014])] |};
     roster "CS101_A.xlsx" [CStr roll_21BCM014]]
  = [py "CS101_A"]
  /\ app ascii_db no_dates roll_21BCM014
       [{| file_name := py "EC201_B.xlsx";
           file_sheet := [(py "Name", [CStr roll_21BCM014])] |}]
       [] two_day_names
     = Ok No_courses.
Proof.
  split.
  - rewrite (proj1 (roster_without_roll_column_skipped ascii_db no_dates _ _)).
    vm_compute. reflexivity.
  - apply (proj2 (proj2 (roster_without_roll_column_skipped ascii_db no_dates
                           _ _)));
      [discriminate | vm_compute; reflexivity].
Defined.

(** ** The course identifier *)

Lemma split_from_underscore_cons (c : N) (t cur : str) :
  split_from [95] 0 cur (c :: t)
  = if 95 =? c then rev cur :: split_from [95] 0 [] t
    else split_from [95] 0 (c :: cur) t.
Proof.
  change (split_from [95] 0 cur (c :: t))
    with (if (95 =? c) && true
          then rev cur :: split_from [95] 0 [] t
          else split_from [95] 0 (c :: cur) t).
  now rewrite andb_true_r.
Qed.

Lemma split_underscore_head (s cur : str) :
  hd [] (split_from [95] 0 cur s) = []
  <-> cur = [] /\ (s = [] \/ exists t, s = 95 :: t).
Proof.
  revert cur. induction s as [|c t IH]; intros cur.
  - simpl. split.
    + intros H. split; [|now left].
      apply (f_equal (@rev N)) in H. now rewrite rev_involutive in H.
    + intros [-> _]. reflexivity.
  - rewrite split_from_underscore_cons.
    destruct (N.eqb_spec 95 c) as [<- | Hc].
    + cbn [hd]. split.
      * intros H. split; [|right; eauto].
        apply (f_equal (@rev N)) in H. now rewrite rev_involutive in H.
      * intros [-> _]. reflexivity.
    + rewrite IH. split.
      * intros [H _]. discriminate.
      * intros [_ [H | (t' & H)]]; [discriminate|]. congruence.
Qed.

Lemma split_from_plain (s cur : str) :
  no_underscore s = true -> split_from [95] 0 cur s = [rev cur ++ s].
Proof.
  revert cur. induction s as [|c t IH]; intros cur H.
  - cbn [split_from]. now rewrite app_nil_r.
  - unfold no_underscore in H. cbn [forallb] in H.
    apply andb_true_iff in H as [Hc Ht]. apply negb_true_iff in Hc.
    rewrite split_from_underscore_cons, Hc, (IH (c :: cur) Ht).
    cbn [rev]. now rewrite <- app_assoc.
Qed.

Lemma split_from_first (s t cur : str) :
  no_underscore s = true ->
  split_from [95] 0 cur (s ++ 95 :: t) = (rev cur ++ s) :: split_from [95] 0 [] t.
Proof.
  revert cur. induction s as [|c s IH]; intros cur H.
  - change ([] ++ 95 :: t) with (95 :: t).
    rewrite (split_from_underscore_cons 95 t cur), N.eqb_refl.
    now rewrite app_nil_r.
  - unfold no_underscore in H. cbn [forallb] in H.
    apply andb_true_iff in H as [Hc Hs]. apply negb_true_iff in Hc.
    change ((c :: s) ++ 95 :: t) with (c :: (s ++ 95 :: t)).
    rewrite split_from_underscore_cons, Hc, (IH (c :: cur) Hs).
    cbn [rev]. now rewrite <- app_assoc.
Qed.

(** Every text is a run without underscore, followed by nothing or by an
    underscore and the rest. *)
Lemma first_underscore (s : str) :
  exists a rest,
    s = a ++ rest /\ no_underscore a = true
    /\ (rest = [] \/ exists t, rest = 95 :: t).
Proof.
  induction s as [|c s (a & rest & Hs & Ha & Hrest)].
  - exists [], []. repeat split. now left.
  - destruct (N.eqb_spec 95 c) as [<- | Hc].
    + exists [], (95 :: s). repeat split. right. eauto.
    + exists (c :: a), rest. split; [now rewrite Hs|]. split; [|exact Hrest].
      unfold no_underscore. cbn [forallb]. fold (no_underscore a). rewrite Ha.
      now rewrite (proj2 (N.eqb_neq 95 c) Hc).
Qed.

Lemma subject_code_prefix (a rest : str) :
  no_underscore a = true -> rest = [] \/ (exists t, rest = 95 :: t) ->
  subject_code (a ++ rest) = a.
Proof.
  intros Ha [-> | (t & ->)]; unfold subject_code, split; change (py "_") with [95].
  - now rewrite app_nil_r, (split_from_plain a [] Ha).
  - now rewrite (split_from_first a t [] Ha).
Qed.



(** C10. The base name is made by removing ".xlsx" wherever it stands in the
    file name, not only at its end: "CS101_A.xlsx.xlsx", whose stem is
    "CS101_A.xlsx", gives the identifier "CS101_A". *)
Theorem inner_extension_removed :
  get_student_courses roll_21BCM014
    [roster "CS101_A.xlsx.xlsx" [CStr roll_21BCM014]]
  = [py "CS101_A"]
  /\ get_student_courses roll_21BCM014
       [roster "CS101_A.xlsx" [CStr roll_21BCM014];
        roster "CS101_B.xls" [CStr roll_21BCM014]]
     = [py "CS101_A"].
Proof. split; vm_compute; reflexivity. Qed.

(** ** The cell matcher and the start time on the examples *)

(** C1. Without a division, the pattern is the subject code after a word
    boundary and not before an opening parenthesis: "CS101" matches,
    "CS101(A)" does not, and "CS1010" matches, since nothing is asked of the
    character after the code but that it is no parenthesis. *)
Theorem no_division_examples (U : unicode_db) :
  cell_matches U (py "CS101") [] (py "CS101") = Ok true
  /\ cell_matches U (py "CS101") [] (py "CS101(A)") = Ok false
  /\ cell_matches U (py "CS101") [] (py "CS1010") = Ok true.
Proof. repeat split; vm_compute; reflexivity. Qed.

(** C2. The helper finds the first number that is followed by AM or PM and
    parses it with formats that allow no blank before the day half:
    "10:00-11:00 AM" and "2 PM" give no time, as "Lunch Break" does;
    "2PM" gives 14:00 and "10:00AM-11:00AM" gives 10:00. *)
Theorem extract_start_time_examples (U : unicode_db) :
  extract_start_time U (py "10:00-11:00 AM") = None
  /\ extract_start_time U (py "2 PM") = None
  /\ extract_start_time U (py "Lunch Break") = None
  /\ extract_start_time U (py "2PM") = Some {| hour := 14; minute := 0 |}
  /\ extract_start_time U (py "10:00AM-11:00AM") = Some {| hour := 10; minute := 0 |}.
Proof. repeat split; vm_compute; reflexivity. Qed.

(** C3. With a division, "CS101(A)" matches (CS101, A) and not (CS101, B).
    The division code is read as pattern text: the division "." matches the
    cell "CS101(A)", and the division "A+" does not match the cell
    "CS101(A+)". *)
Theorem division_examples (U : unicode_db) :
  cell_matches U (py "CS101") (py "A") (py "CS101(A)") = Ok true
  /\ cell_matches U (py "CS101") (py "B") (py "CS101(A)") = Ok false
  /\ cell_matches U (py "CS101") (py "A") (py "CS101(" ++ [8217] ++ py "A) Room 5")
     = Ok true
  /\ cell_matches U (py "CS101") (py ".") (py "CS101(A)") = Ok true
  /\ cell_matches U (py "CS101") (py "A+") (py "CS101(A+)") = Ok false.
Proof. repeat split; vm_compute; reflexivity. Qed.

(** ** The patterns of the page, parsed and run *)

Local Arguments N.eqb : simpl never.

Lemma parse_escape_special (c : N) (rest : str) (st : pstate) :
  is_special c = true -> parse_escape c rest st = Ok (LITERAL c, rest).
Proof.
  unfold is_special. intros H. apply existsb_exists in H as (x & Hin & Hx).
  apply N.eqb_eq in Hx. subst x. vm_compute in Hin.
  repeat (destruct Hin as [<- | Hin]; [reflexivity|]). contradiction.
Qed.

Lemma parse_item_plain (f : nat) (c : N) (t : str) (st : pstate) :
  is_special c = false -> parse_item (S f) c t st = Ok (LITERAL c, t, st).
Proof.
  intros H. simpl.
  repeat match goal with
    | |- context [N.eqb c ?k] =>
        destruct (N.eqb_spec c k) as [-> | ?];
        [exfalso; vm_compute in H; discriminate|]
    end.
  reflexivity.
Qed.

Lemma parse_repeat_plain (c : N) (t : str) :
  is_special c = false -> parse_repeat (c :: t) = Ok None.
Proof.
  intros H. unfold parse_repeat.
  repeat match goal with
    | |- context [N.eqb c ?k] =>
        destruct (N.eqb_spec c k) as [-> | ?];
        [exfalso; vm_compute in H; discriminate|]
    end.
  reflexivity.
Qed.

Lemma re_escape_cons (c : N) (s : str) :
  re_escape (c :: s) = (if is_special c then [92; c] else [c]) ++ re_escape s.
Proof. reflexivity. Qed.

Lemma parse_repeat_escape (s rest : str) :
  parse_repeat rest = Ok None -> parse_repeat (re_escape s ++ rest) = Ok None.
Proof.
  intros H. destruct s as [|c s]; [exact H|].
  rewrite re_escape_cons. destruct (is_special c) eqn:E.
  - reflexivity.
  - now apply parse_repeat_plain.
Qed.

Lemma parse_repeated_none (a : regex) (rest : str) :
  parse_repeat rest = Ok None -> parse_repeated a rest = Ok (a, rest).
Proof. intros H. unfold parse_repeated. now rewrite H. Qed.

Lemma parse_items_literal (f : nat) (c : N) (t : str) (st : pstate)
  (r : regex) (rest' : str) (st' : pstate) :
  is_special c = false ->
  parse_repeat t = Ok None ->
  parse_items f t st = Ok (r, rest', st') ->
  parse_items (S f) (c :: t) st = Ok (SEQ (LITERAL c) r, rest', st').
Proof.
  intros Hc Hrep Htail. destruct f as [|f]; [discriminate|].
  change (parse_items (S (S f)) (c :: t) st)
    with (if (c =? chr "|") || (c =? chr ")") then Ok (EMPTY, c :: t, st)
          else
            '(a, rest, st1) <- parse_item (S f) c t st ;;
            '(q, rest1) <- parse_repeated a rest ;;
            '(b, rest2, st2) <- parse_items (S f) rest1 st1 ;;
            Ok (SEQ q b, rest2, st2)).
  destruct (N.eqb_spec c (chr "|")) as [-> | _];
    [exfalso; vm_compute in Hc; discriminate|].
  destruct (N.eqb_spec c (chr ")")) as [-> | _];
    [exfalso; vm_compute in Hc; discriminate|].
  cbn [orb]. rewrite (parse_item_plain f c t st Hc). cbn [bind].
  rewrite (parse_repeated_none _ _ Hrep). cbn [bind].
  rewrite Htail. reflexivity.
Qed.

Lemma parse_items_escaped (f : nat) (c : N) (t : str) (st : pstate)
  (r : regex) (rest' : str) (st' : pstate) :
  is_special c = true ->
  parse_repeat t = Ok None ->
  parse_items f t st = Ok (r, rest', st') ->
  parse_items (S f) (92 :: c :: t) st = Ok (SEQ (LITERAL c) r, rest', st').
Proof.
  intros Hc Hrep Htail. destruct f as [|f]; [discriminate|].
  change (parse_items (S (S f)) (92 :: c :: t) st)
    with ('(a, rest, st1) <- ('(a, rest') <- parse_escape c t st ;;
                               Ok (a, rest', st)) ;;
          '(q, rest1) <- parse_repeated a rest ;;
          '(b, rest2, st2) <- parse_items (S f) rest1 st1 ;;
          Ok (SEQ q b, rest2, st2)).
  rewrite (parse_escape_special c t st Hc). cbn [bind].
  rewrite (parse_repeated_none _ _ Hrep). cbn [bind].
  rewrite Htail. reflexivity.
Qed.

(** The escaped text of [s] parses to the literals of [s]. *)
Lemma parse_items_escape (s : str) (f : nat) (rest : str) (st : pstate)
  (r : regex) (rest' : str) (st' : pstate) :
  parse_repeat rest = Ok None ->
  parse_items f rest st = Ok (r, rest', st') ->
  parse_items (length s + f) (re_escape s ++ rest) st
  = Ok (literals s r, rest', st').
Proof.
  intros Hrep Htail. induction s as [|c s IH]; [exact Htail|].
  rewrite re_escape_cons. cbn [length Nat.add literals fold_right].
  destruct (is_special c) eqn:E; cbn [app].
  - apply parse_items_escaped; auto. now apply parse_repeat_escape.
  - apply parse_items_literal; auto. now apply parse_repeat_escape.
Qed.

Lemma parse_items_boundary (f : nat) (t : str) (st : pstate)
  (r : regex) (rest' : str) (st' : pstate) :
  parse_repeat t = Ok None ->
  parse_items f t st = Ok (r, rest', st') ->
  parse_items (S f) (92 :: 98 :: t) st = Ok (SEQ (AT AT_BOUNDARY) r, rest', st').
Proof.
  intros Hrep Htail. destruct f as [|f]; [discriminate|].
  change (parse_items (S (S f)) (92 :: 98 :: t) st)
    with ('(q, rest1) <- parse_repeated (AT AT_BOUNDARY) t ;;
          '(b, rest2, st2) <- parse_items (S f) rest1 st ;;
          Ok (SEQ q b, rest2, st2)).
  rewrite (parse_repeated_none _ _ Hrep). cbn [bind].
  rewrite Htail. reflexivity.
Qed.

Lemma parse_branch_whole (f : nat) (s : str) (st : pstate) (r : regex) (st' : pstate) :
  parse_items f s st = Ok (r, [], st') ->
  parse_branch (S f) s st = Ok (r, [], st').
Proof. intros H. cbn [parse_branch]. rewrite H. reflexivity. Qed.

Lemma re_escape_length (s : str) : (length s <= length (re_escape s))%nat.
Proof.
  induction s as [|c s IH]; [apply Nat.le_refl|].
  rewrite re_escape_cons, length_app. cbn [length].
  destruct (is_special c); cbn [length]; lia.
Qed.

(** The pattern of a course without a division, compiled. *)
Lemma compile_unqualified (subject : str) :
  re_compile (pattern subject [])
  = Ok {| re_code :=
            SEQ (AT AT_BOUNDARY)
              (literals subject (SEQ (ASSERT true (SEQ (LITERAL 40) EMPTY)) EMPTY));
          re_names := [] |}.
Proof.
  unfold re_compile, pattern.
  change (py "\b" ++ re_escape subject ++ py "(?!\()")
    with (92 :: 98 :: (re_escape subject ++ py "(?!\()")).
  set (pat := 92 :: 98 :: (re_escape subject ++ py "(?!\()")).
  assert (Hf : exists f, (3 * length pat + 4
                          = S (S (length subject + S (8 + f))))%nat).
  { exists (3 * length pat + 4 - 11 - length subject)%nat.
    unfold pat. cbn [length]. rewrite length_app.
    pose proof (re_escape_length subject).
    cbn [length py map list_ascii_of_string]. lia. }
  destruct Hf as [f ->]. unfold pat. clear pat.
  rewrite (parse_branch_whole _ _ _
             (SEQ (AT AT_BOUNDARY)
                (literals subject (SEQ (ASSERT true (SEQ (LITERAL 40) EMPTY)) EMPTY)))
             start_state); [reflexivity|].
  apply parse_items_boundary.
  - apply parse_repeat_escape. reflexivity.
  - apply parse_items_escape; reflexivity.
Qed.

Lemma startswith_cons_eq (c x : N) (p s : str) :
  startswith (c :: p) (x :: s) = (x =? c) && startswith p s.
Proof. cbn [startswith]. now rewrite (N.eqb_sym c x). Qed.

Lemma run_literals (U : unicode_db) (s : str) (r : regex) :
  forall prev inp g k,
    run U false (literals s r) prev inp g k
    = if startswith s inp
      then run U false r (prev_after s prev) (skipn (length s) inp) g k
      else None.
Proof.
  induction s as [|c s IH]; intros prev inp g k; [reflexivity|].
  cbn [literals fold_right run]. fold (literals s r).
  destruct inp as [|x inp]; [reflexivity|].
  rewrite startswith_cons_eq. unfold literal_eq.
  destruct (N.eqb_spec x c) as [-> | Hne]; [|reflexivity].
  rewrite IH. reflexivity.
Qed.

Lemma match_at_unqualified (U : unicode_db) (subject : str)
  (start : nat) (prev : option N) (s : str) :
  succeeds (match_at U false (unqualified_code subject) start prev s)
  = unqualified_here U subject prev s.
Proof.
  unfold match_at, unqualified_code, unqualified_here.
  cbn [re_code run].
  destruct (at_position U AT_BOUNDARY prev s); [|reflexivity].
  rewrite run_literals.
  destruct (startswith subject s); [|reflexivity].
  cbn [andb run].
  destruct (skipn (length subject) s) as [|x rest]; [reflexivity|].
  unfold literal_eq. cbn [startswith].
  rewrite (N.eqb_sym 40 x).
  destruct (x =? 40); reflexivity.
Qed.

Lemma search_from_unqualified (U : unicode_db) (subject : str) (s : str) :
  forall start prev,
    succeeds (search_from U false (unqualified_code subject) start prev s)
    = unqualified_hit U subject prev s.
Proof.
  induction s as [|c s IH]; intros start prev;
    cbn [search_from unqualified_hit];
    rewrite <- match_at_unqualified with (start := start);
    destruct (match_at U false (unqualified_code subject) start prev _);
    cbn [succeeds orb]; try reflexivity.
  apply IH.
Qed.

(** X5. Without a division, a cell matches exactly when the subject code stands
    somewhere in it after a word boundary and not before an opening
    parenthesis; nothing is asked of any other character that follows. *)
Theorem cell_matches_unqualified (U : unicode_db) (subject cell : str) :
  cell_matches U subject [] cell = Ok (unqualified_hit U subject None cell).
Proof.
  unfold cell_matches, re_search. rewrite compile_unqualified. cbn [bind].
  f_equal. rewrite <- (search_from_unqualified U subject cell 0 None).
  fold (unqualified_code subject).
  now destruct (search_from U false (unqualified_code subject) 0 None cell).
Qed.

Lemma parse_items_apostrophes (f : nat) (t : str) (st : pstate)
  (r : regex) (rest' : str) (st' : pstate) :
  parse_items f (92 :: t) st = Ok (r, rest', st') ->
  parse_items (S f) (91 :: 39 :: 8217 :: 93 :: 63 :: 92 :: t) st
  = Ok (SEQ apostrophes r, rest', st').
Proof.
  intros Htail. destruct f as [|f]; [discriminate|].
  change (parse_items (S (S f)) (91 :: 39 :: 8217 :: 93 :: 63 :: 92 :: t) st)
    with ('(b, rest2, st2) <- parse_items (S f) (92 :: t) st ;;
          Ok (SEQ apostrophes b, rest2, st2)).
  rewrite Htail. reflexivity.
Qed.

Lemma parse_items_blanks (f : nat) (c : N) (t : str) (st : pstate)
  (r : regex) (rest' : str) (st' : pstate) :
  is_special c = false ->
  parse_items f (c :: t) st = Ok (r, rest', st') ->
  parse_items (S f) (92 :: 115 :: 42 :: c :: t) st = Ok (SEQ blanks r, rest', st').
Proof.
  intros Hc Htail. destruct f as [|f]; [discriminate|].
  change (parse_items (S (S f)) (92 :: 115 :: 42 :: c :: t) st)
    with ('(q, rest1) <-
             (let '(q, rest2) :=
                if c =? chr "?"
                then (MIN_REPEAT 0 None (IN false [SCategory false CATEGORY_SPACE]), t)
                else (blanks, c :: t) in
              match rest2 with
              | x :: _ =>
                  if x =? chr "+"
                  then match q with
                       | MAX_REPEAT _ _ _ => Raise NotModelled
                       | _ => Raise ReError
                       end
                  else
                    r2 <- parse_repeat rest2 ;;
                    match r2 with
                    | None => Ok (q, rest2)
                    | Some _ => Raise ReError
                    end
              | [] => Ok (q, rest2)
              end) ;;
          '(b, rest2, st2) <- parse_items (S f) rest1 st ;;
          Ok (SEQ q b, rest2, st2)).
  destruct (N.eqb_spec c (chr "?")) as [-> | _];
    [exfalso; vm_compute in Hc; discriminate|].
  destruct (N.eqb_spec c (chr "+")) as [-> | _];
    [exfalso; vm_compute in Hc; discriminate|].
  rewrite (parse_repeat_plain c t Hc). cbn [bind].
  rewrite Htail. reflexivity.
Qed.

Lemma re_escape_plain (s : str) : plain s = true -> re_escape s = s.
Proof.
  induction s as [|c s IH]; [reflexivity|].
  unfold plain. cbn [forallb]. intros H. apply andb_true_iff in H as [Hc Hs].
  rewrite re_escape_cons. apply negb_true_iff in Hc. rewrite Hc.
  change ([c] ++ re_escape s) with (c :: re_escape s). f_equal. now apply IH.
Qed.

Lemma parse_items_plain (s : str) (f : nat) (rest : str) (st : pstate)
  (r : regex) (rest' : str) (st' : pstate) :
  plain s = true ->
  parse_repeat rest = Ok None ->
  parse_items f rest st = Ok (r, rest', st') ->
  parse_items (length s + f) (s ++ rest) st = Ok (literals s r, rest', st').
Proof.
  intros Hs Hrep Htail.
  pose proof (parse_items_escape s f rest st r rest' st' Hrep Htail) as H.
  now rewrite (re_escape_plain s Hs) in H.
Qed.

(** The pattern of a course with a plain division code, compiled. *)
Lemma compile_qualified (subject : str) (c : N) (d : str) :
  plain (c :: d) = true ->
  re_compile (pattern subject (c :: d)) = Ok (qualified_code subject (c :: d)).
Proof.
  intros Hplain. unfold re_compile, pattern.
  change (py "\b" ++ re_escape subject ++ py "\(['" ++ [8217] ++ py "]?\s*"
            ++ (c :: d) ++ py "\)")
    with (92 :: 98 ::
            (re_escape subject ++
               92 :: 40 :: 91 :: 39 :: 8217 :: 93 :: 63 :: 92 :: 115 :: 42 ::
               (c :: d) ++ [92; 41])).
  set (pat := 92 :: 98 :: _).
  assert (Hf : exists f, (3 * length pat + 4
                          = S (S (length subject
                                  + S (S (S (length (c :: d) + S (S f)))))))%nat).
  { exists (3 * length pat + 4 - 8 - length subject - length d)%nat.
    unfold pat. cbn [length app]. rewrite !length_app. cbn [length].
    rewrite !length_app. cbn [length].
    pose proof (re_escape_length subject). lia. }
  destruct Hf as [f ->]. unfold pat. clear pat. unfold qualified_code.
  rewrite (parse_branch_whole _ _ _
             (SEQ (AT AT_BOUNDARY)
                (literals subject
                   (SEQ (LITERAL 40)
                      (SEQ apostrophes
                         (SEQ blanks (literals (c :: d) (SEQ (LITERAL 41) EMPTY)))))))
             start_state); [reflexivity|].
  assert (Hc : is_special c = false).
  { unfold plain in Hplain. cbn [forallb] in Hplain.
    apply andb_true_iff in Hplain as [Hc _]. now apply negb_true_iff in Hc. }
  apply parse_items_boundary.
  - apply parse_repeat_escape. reflexivity.
  - apply parse_items_escape; [reflexivity|].
    apply parse_items_escaped; [reflexivity | reflexivity |].
    apply parse_items_apostrophes.
    apply (parse_items_blanks _ c (d ++ [92; 41])); [exact Hc|].
    change (c :: d ++ [92; 41]) with ((c :: d) ++ [92; 41]).
    apply parse_items_plain; [exact Hplain | reflexivity |].
    apply parse_items_escaped; reflexivity.
Qed.

Lemma literals_app (a b : str) (r : regex) :
  literals (a ++ b) r = literals a (literals b r).
Proof. unfold literals. apply fold_right_app. Qed.

Lemma run_closing (U : unicode_db) (div : str) (prev : option N) (s : str)
  (g : captures) :
  succeeds (run U false (literals div (SEQ (LITERAL 41) EMPTY)) prev s g final)
  = startswith (div ++ [41]) s.
Proof.
  change (SEQ (LITERAL 41) EMPTY) with (literals [41] EMPTY).
  rewrite <- literals_app, run_literals.
  now destruct (startswith (div ++ [41]) s).
Qed.

Lemma succeeds_orelse {A} (x y : option A) :
  succeeds (match x with Some r => Some r | None => y end)
  = succeeds x || succeeds y.
Proof. now destruct x. Qed.

Lemma run_blanks (U : unicode_db) (div : str) (g : captures) (s : str) :
  forall n prev,
    (length s < n)%nat ->
    succeeds
      (repeat_loop (run U false (IN false [SCategory false CATEGORY_SPACE]))
         (fun p s' g' =>
            run U false (literals div (SEQ (LITERAL 41) EMPTY)) p s' g' final)
         n 0 None prev s g)
    = division_tail U div s.
Proof.
  induction s as [|x t IH]; intros n prev Hn; (destruct n as [|n]; [inversion Hn|]).
  - cbn [repeat_loop run division_tail]. rewrite run_closing.
    now rewrite orb_false_r.
  - cbn [repeat_loop division_tail]. rewrite succeeds_orelse, run_closing.
    rewrite orb_comm. f_equal.
    cbn [run existsb in_item in_category xorb orb].
    rewrite orb_false_r.
    destruct (isspace U x); [|reflexivity].
    cbn [andb length option_map].
    assert (Hlt : (length t <? S (length t))%nat = true)
      by (apply Nat.ltb_lt; lia).
    rewrite Hlt. cbn [orb Nat.pred].
    apply IH. cbn [length] in Hn. lia.
Qed.

Lemma run_apostrophes (U : unicode_db) (k : cont) (prev : option N) (s : str)
  (g : captures) :
  succeeds (run U false apostrophes prev s g k)
  = match s with
    | y :: t' => ((y =? 39) || (y =? 8217)) && succeeds (k (Some y) t' g)
    | [] => false
    end
    || succeeds (k prev s g).
Proof.
  unfold apostrophes. cbn [run].
  rewrite Nat.add_0_r, Nat.add_1_r. cbn [repeat_loop].
  rewrite succeeds_orelse. f_equal.
  destruct s as [|y t']; [reflexivity|].
  cbn [run existsb in_item]. unfold literal_eq. rewrite orb_false_r.
  cbn [xorb].
  destruct ((y =? 39) || (y =? 8217)); [|reflexivity].
  cbn [andb length option_map Nat.pred].
  assert (Hlt : (length t' <? S (length t'))%nat = true)
    by (apply Nat.ltb_lt; lia).
  rewrite Hlt. cbn [orb].
  destruct (length t' + 0)%nat; reflexivity.
Qed.

Lemma match_at_qualified (U : unicode_db) (subject div : str)
  (start : nat) (prev : option N) (s : str) :
  succeeds (match_at U false (qualified_code subject div) start prev s)
  = qualified_here U subject div prev s.
Proof.
  unfold match_at, qualified_code, qualified_here.
  cbn [re_code].
  assert (Hs : forall x : option (str * captures),
             succeeds
               match x with
               | Some (s', g) =>
                   Some {| m_start := start;
                           m_end := (start + (length s - length s'))%nat;
                           m_text := firstn (length s - length s') s;
                           m_groups := g; m_names := [] |}
               | None => None
               end = succeeds x).
  { intros [[? ?]|]; reflexivity. }
  rewrite Hs. clear Hs. fold final.
  cbn [run].
  destruct (at_position U AT_BOUNDARY prev s); [|reflexivity].
  rewrite run_literals.
  destruct (startswith subject s); [|reflexivity].
  cbn [andb].
  destruct (skipn (length subject) s) as [|x t]; [reflexivity|].
  cbn [run]. unfold literal_eq.
  destruct (x =? 40); [|reflexivity].
  cbn [andb].
  rewrite run_apostrophes.
  assert (Hb : forall p s',
             succeeds
               (run U false blanks p s' []
                  (fun p' s'' g' =>
                     run U false (literals div (SEQ (LITERAL 41) EMPTY)) p' s'' g' final))
             = division_tail U div s').
  { intros p s'. unfold blanks. cbn [run].
    apply run_blanks. lia. }
  rewrite Hb. destruct t as [|y t']; [reflexivity|]. now rewrite Hb.
Qed.

Lemma search_from_qualified (U : unicode_db) (subject div : str) (s : str) :
  forall start prev,
    succeeds (search_from U false (qualified_code subject div) start prev s)
    = qualified_hit U subject div prev s.
Proof.
  induction s as [|c s IH]; intros start prev;
    cbn [search_from qualified_hit];
    rewrite <- match_at_qualified with (start := start);
    destruct (match_at U false (qualified_code subject div) start prev _);
    cbn [succeeds orb]; try reflexivity.
  apply IH.
Qed.

(** X6. With a division code that holds no character special to [re], a cell
    matches exactly when it holds the subject code after a word boundary,
    an opening parenthesis, at most one apostrophe, blanks, the division
    code and a closing parenthesis. *)
Theorem cell_matches_qualified (U : unicode_db) (subject div cell : str) :
  div <> [] -> plain div = true ->
  cell_matches U subject div cell = Ok (qualified_hit U subject div None cell).
Proof.
  intros Hne Hplain. destruct div as [|c d]; [contradiction|].
  unfold cell_matches, re_search. rewrite (compile_qualified _ _ _ Hplain).
  cbn [bind]. f_equal.
  rewrite <- (search_from_qualified U subject (c :: d) cell 0 None).
  now destruct (search_from U false (qualified_code subject (c :: d)) 0 None cell).
Qed.

(** ** The base name of a roster file *)

Lemma xlsx_no_straddle (s : str) :
  s <> [] ->
  startswith (py ".xlsx") (s ++ py ".xlsx") = startswith (py ".xlsx") s.
Proof.
  intros Hne. change (py ".xlsx") with [46; 120; 108; 115; 120].
  destruct s as [|a [|b [|c [|d [|e r]]]]]; [contradiction| | | | |];
    simpl;
    repeat match goal with
      | |- context [N.eqb ?x ?y] =>
          lazymatch x with
          | N.pos _ => lazymatch y with
                       | N.pos _ => fail
                       | _ => destruct (N.eqb x y)
                       end
          end
      end;
    reflexivity.
Qed.

(** When ".xlsx" stands nowhere in the stem, removing it from the file name
    leaves the stem. *)
Lemma replace_xlsx_suffix (stem : str) :
  contains (py ".xlsx") stem = false ->
  replace (py ".xlsx") [] (stem ++ py ".xlsx") = stem.
Proof.
  unfold replace. change (py ".xlsx") with [46; 120; 108; 115; 120].
  induction stem as [|a t IH]; intros H; [reflexivity|].
  cbn [contains] in H. apply orb_false_iff in H as [Hhead Htail].
  change ((a :: t) ++ [46; 120; 108; 115; 120])
    with (a :: (t ++ [46; 120; 108; 115; 120])).
  cbn [replace_from].
  change (a :: (t ++ [46; 120; 108; 115; 120]))
    with ((a :: t) ++ [46; 120; 108; 115; 120]).
  change [46; 120; 108; 115; 120] with (py ".xlsx") at 1.
  change [46; 120; 108; 115; 120] with (py ".xlsx") at 1.
  rewrite xlsx_no_straddle by discriminate.
  change (py ".xlsx") with [46; 120; 108; 115; 120].
  rewrite Hhead. f_equal. now apply IH.
Qed.

(** ** The fixed patterns compile

    The pattern of [extract_start_time] and the patterns that [strptime]
    makes of its two formats lie in the fragment that the parser covers, so
    no [NotModelled] is ever caught by the helper's [except] clauses. *)

Lemma start_time_pattern_compiles :
  exists c, re_compile start_time_pattern = Ok c.
Proof. eexists. vm_compute. reflexivity. Qed.

Lemma strptime_formats_compile (U : unicode_db) :
  exists p1 c1 p2 c2,
    time_re_pattern U false (py "%I:%M%p") = Ok p1 /\ re_compile p1 = Ok c1
    /\ time_re_pattern U false (py "%I%p") = Ok p2 /\ re_compile p2 = Ok c2.
Proof. do 4 eexists. repeat split; vm_compute; reflexivity. Qed.

(** * Further properties of the code *)

(** ** Session labels *)

Lemma replace_newline_map (s : str) :
  replace [10] (py " ") s = map (fun c => if 10 =? c then 32 else c) s.
Proof.
  unfold replace. induction s as [|c t IH]; [reflexivity|].
  change (replace_from [10] (py " ") 0 (c :: t))
    with (if (10 =? c) && true
          then 32 :: replace_from [10] (py " ") 0 t
          else c :: replace_from [10] (py " ") 0 t).
  rewrite andb_true_r, IH. cbn [map]. now destruct (10 =? c).
Qed.

Lemma replace_newline_none (s : str) : ~ In 10 (replace [10] (py " ") s).
Proof.
  rewrite replace_newline_map. intros H. apply in_map_iff in H as (c & Hc & _).
  destruct (N.eqb_spec 10 c); [discriminate | congruence].
Qed.

Lemma replace_newline_fixed (s : str) :
  ~ In 10 s -> replace [10] (py " ") s = s.
Proof.
  intros H. rewrite replace_newline_map. rewrite <- (map_id s) at 2.
  apply map_ext_in. intros c Hc.
  destruct (N.eqb_spec 10 c); [subst; contradiction | reflexivity].
Qed.

Section Strip.
Variable U : unicode_db.

Lemma lstrip_suffix (s : str) : exists ws, s = ws ++ lstrip U s.
Proof.
  induction s as [|c t [ws IH]]; [exists []; reflexivity|]. cbn [lstrip].
  destruct (isspace U c).
  - exists (c :: ws). change ((c :: ws) ++ lstrip U t) with (c :: (ws ++ lstrip U t)).
    f_equal. exact IH.
  - exists []. reflexivity.
Qed.

Lemma lstrip_head (s : str) (c : N) (t : str) :
  lstrip U s = c :: t -> isspace U c = false.
Proof.
  induction s as [|x s IH]; [discriminate|]. cbn [lstrip].
  destruct (isspace U x) eqn:E; [exact IH|].
  intros H. injection H as <- _. exact E.
Qed.

Lemma lstrip_fixed (s : str) :
  match s with c :: _ => isspace U c = false | [] => True end -> lstrip U s = s.
Proof. destruct s as [|c t]; [reflexivity|]. cbn [lstrip]. now intros ->. Qed.

Lemma lstrip_In (s : str) (c : N) : In c (lstrip U s) -> In c s.
Proof.
  destruct (lstrip_suffix s) as [ws H]. intros Hc. rewrite H.
  apply in_or_app. now right.
Qed.

Lemma strip_In (s : str) (c : N) : In c (strip U s) -> In c s.
Proof.
  unfold strip. intros H. apply in_rev in H. apply lstrip_In in H.
  apply in_rev in H. now apply lstrip_In in H.
Qed.

(** The stripped text begins and ends with no blank. *)
Lemma strip_ends (s : str) :
  match strip U s with c :: _ => isspace U c = false | [] => True end
  /\ match rev (strip U s) with c :: _ => isspace U c = false | [] => True end.
Proof.
  unfold strip. rewrite rev_involutive.
  set (a := lstrip U s). set (b := lstrip U (rev a)).
  assert (Hb : match b with c :: _ => isspace U c = false | [] => True end).
  { destruct b as [|c t] eqn:E; [exact I|]. eapply lstrip_head. exact E. }
  split; [|exact Hb].
  destruct (rev b) as [|c t] eqn:Er; [exact I|].
  (* c is the last character of b, a suffix of rev a: the first of a *)
  destruct (lstrip_suffix (rev a)) as [ws Hws]. fold b in Hws.
  assert (Ha : a = rev b ++ rev ws).
  { rewrite <- (rev_involutive a), Hws, rev_app_distr. reflexivity. }
  rewrite Er in Ha. cbn [app] in Ha.
  unfold a in Ha. eapply lstrip_head. exact Ha.
Qed.

Lemma strip_idempotent (s : str) : strip U (strip U s) = strip U s.
Proof.
  destruct (strip_ends s) as [Hh Hl].
  unfold strip at 1. rewrite (lstrip_fixed (strip U s) Hh).
  rewrite (lstrip_fixed (rev (strip U s)) Hl). apply rev_involutive.
Qed.

Lemma clean_label_idempotent (s : str) :
  clean_label U (clean_label U s) = clean_label U s.
Proof.
  unfold clean_label at 1.
  rewrite replace_newline_fixed.
  - unfold clean_label. apply strip_idempotent.
  - intros H. unfold clean_label in H. apply strip_In in H.
    now apply replace_newline_none in H.
Qed.

End Strip.

Lemma compile_start_time : re_compile start_time_pattern = Ok start_time_code.
Proof. vm_compute. reflexivity. Qed.

Section Start_time.
Variable U : unicode_db.

(** X12. Cleaning a session label a second time changes nothing, so the start
    time read from the label stored in a match (line 84) is the start time
    of the column header it came from. *)
Theorem extract_start_time_of_clean_label (session_col : str) :
  extract_start_time U (clean_label U session_col)
  = extract_start_time U session_col.
Proof.
  unfold extract_start_time. cbv zeta.
  change (strip U (replace [10] (py " ") (clean_label U session_col)))
    with (clean_label U (clean_label U session_col)).
  rewrite clean_label_idempotent. reflexivity.
Qed.

Lemma match_at_start_time_no_digit (start : nat) (prev : option N) (s : str) :
  match s with c :: _ => isdecimal U c = false | [] => True end ->
  match_at U true start_time_code start prev s = None.
Proof.
  intros H. unfold match_at, start_time_code. cbn [re_code run].
  rewrite Nat.add_1_r. cbn [repeat_loop].
  destruct s as [|c t]; [reflexivity|].
  cbn [run existsb in_item in_category xorb]. rewrite H. reflexivity.
Qed.

Lemma search_from_start_time_no_digit (s : str) :
  forall start prev,
    no_digit U s = true -> search_from U true start_time_code start prev s = None.
Proof.
  induction s as [|c t IH]; intros start prev H; cbn [search_from].
  - now rewrite match_at_start_time_no_digit.
  - unfold no_digit in H. cbn [forallb] in H. apply andb_true_iff in H as [Hc Ht].
    apply negb_true_iff in Hc.
    rewrite match_at_start_time_no_digit by exact Hc. now apply IH.
Qed.

Lemma no_digit_In (s : str) :
  no_digit U s = true <-> forall c, In c s -> isdecimal U c = false.
Proof.
  unfold no_digit. rewrite forallb_forall. split; intros H c Hc.
  - apply negb_true_iff. now apply H.
  - apply negb_true_iff. now apply H.
Qed.

Lemma no_digit_clean (s : str) :
  no_digit U s = true -> no_digit U (clean_label U s) = true.
Proof.
  rewrite !no_digit_In. intros H c Hc. unfold clean_label in Hc.
  apply strip_In in Hc. rewrite replace_newline_map in Hc.
  apply in_map_iff in Hc as (x & Hx & Hin).
  destruct (10 =? x); [subst c; reflexivity | subst c; now apply H].
Qed.

(** X13. A session label without a decimal digit has no start time: the
    helper returns [None], whatever else the label holds. *)
Theorem extract_start_time_needs_digit (session : str) :
  no_digit U session = true -> extract_start_time U session = None.
Proof.
  intros H. unfold extract_start_time. cbv zeta.
  change (strip U (replace [10] (py " ") session)) with (clean_label U session).
  unfold re_search. rewrite compile_start_time. cbn [bind].
  rewrite search_from_start_time_no_digit; [reflexivity|].
  now apply no_digit_clean.
Qed.

End Start_time.

(** ** Course identifiers *)

Lemma contains_underscore_plain (s : str) :
  no_underscore s = true -> contains [95] s = false.
Proof.
  induction s as [|c t IH]; intros H; [reflexivity|].
  unfold no_underscore in H. cbn [forallb] in H.
  apply andb_true_iff in H as [Hc Ht]. apply negb_true_iff in Hc.
  cbn [contains startswith]. rewrite Hc. cbn [andb orb]. now apply IH.
Qed.

Lemma contains_underscore_app (s t : str) : contains [95] (s ++ 95 :: t) = true.
Proof.
  induction s as [|c s IH].
  - reflexivity.
  - change ((c :: s) ++ 95 :: t) with (c :: (s ++ 95 :: t)).
    cbn [contains]. rewrite IH. apply orb_true_r.
Qed.

(** X4. The course identifier is taken apart at its underscores: with no
    underscore the whole identifier is the subject code and the division is
    empty; otherwise the subject code is the text before the first underscore
    and the division the text between the first and the second, anything
    after a second underscore being dropped. *)
Theorem course_identifier_decoded (s d rest : str) :
  no_underscore s = true -> no_underscore d = true ->
  (subject_code s = s /\ div_code s = [])
  /\ (subject_code (s ++ py "_" ++ d) = s /\ div_code (s ++ py "_" ++ d) = d)
  /\ (subject_code (s ++ py "_" ++ d ++ py "_" ++ rest) = s
      /\ div_code (s ++ py "_" ++ d ++ py "_" ++ rest) = d).
Proof.
  intros Hs Hd. unfold subject_code, div_code, split.
  change (py "_") with [95]. cbn [Datatypes.app].
  rewrite (contains_underscore_plain s Hs), !contains_underscore_app.
  rewrite (split_from_plain s [] Hs), !(split_from_first s _ [] Hs).
  rewrite (split_from_plain d [] Hd), (split_from_first d rest [] Hd).
  repeat split; reflexivity.
Qed.

(** ** The scan of the week *)

Section Scan.
Variable U : unicode_db.

Lemma scan_courses_hits (row : weekly_row) (session_col cell : str)
  (enrolled : list str) :
  forall acc res,
    scan_courses U row session_col cell enrolled acc = Ok res ->
    res = acc ++ map (hit_of U)
                   (filter (is_hit U)
                      (map (fun course => (row, session_col, cell, course)) enrolled)).
Proof.
  induction enrolled as [|course rest IH]; intros acc res H.
  - cbn in H. injection H as <-. cbn. now rewrite app_nil_r.
  - cbn [scan_courses] in H. cbn [map filter is_hit].
    destruct (cell_matches U (subject_code course) (div_code course) cell)
      as [[|]|e]; cbn [bind] in H; [| |discriminate].
    + apply IH in H. rewrite H, <- app_assoc. reflexivity.
    + now apply IH in H.
Qed.

Lemma scan_sessions_hits (row : weekly_row) (enrolled : list str)
  (cols : list (str * bool * cell)) :
  forall acc res,
    scan_sessions U row cols enrolled acc = Ok res ->
    res = acc ++ map (hit_of U)
                   (filter (is_hit U)
                      (flat_map (fun p => map (fun course =>
                                                 (row, fst (fst p),
                                                  py_str (snd (fst p)) (snd p),
                                                  course))
                                            enrolled) cols)).
Proof.
  induction cols as [|[[col as_float] v] rest IH]; intros acc res H.
  - cbn in H. injection H as <-. cbn. now rewrite app_nil_r.
  - cbn [scan_sessions] in H.
    destruct (scan_courses U row col (py_str as_float v) enrolled acc)
      as [mid|e] eqn:E; cbn [bind] in H; [|discriminate].
    apply scan_courses_hits in E. apply IH in H.
    cbn [flat_map fst snd]. rewrite filter_app, map_app, H, E, <- app_assoc.
    reflexivity.
Qed.

Lemma scan_rows_hits (cols : list (str * bool)) (enrolled : list str)
  (rows : list weekly_row) :
  forall acc res,
    scan_rows U cols rows enrolled acc = Ok res ->
    res = acc ++ map (hit_of U)
                   (filter (is_hit U) (flat_map (row_candidates cols enrolled) rows)).
Proof.
  induction rows as [|row rest IH]; intros acc res H.
  - cbn in H. injection H as <-. cbn. now rewrite app_nil_r.
  - cbn [scan_rows] in H.
    destruct (scan_sessions U row (combine cols (row_cells row)) enrolled acc)
      as [mid|e] eqn:E; cbn [bind] in H; [|discriminate].
    apply scan_sessions_hits in E. apply IH in H.
    cbn [flat_map]. unfold row_candidates at 1.
    rewrite filter_app, map_app, H, E, <- app_assoc. reflexivity.
Qed.

(** X8. When the scan of the week ends without an exception, its result is
    the list of the cells that match, taken in the order of the three loops
    (rows, session columns, enrolled courses), each as the dictionary of
    lines 81 to 88; a cell that names several enrolled courses gives one
    entry for each. *)
Theorem find_matches_hits (enrolled : list str) (weekly_df : weekly)
  (results : list raw_match) :
  find_matches U enrolled weekly_df = Ok results ->
  results = map (hit_of U) (filter (is_hit U) (candidates enrolled weekly_df)).
Proof. intros H. apply scan_rows_hits in H. exact H. Qed.

Lemma cell_matches_raises (course cell : str) :
  raises (cell_matches U (subject_code course) (div_code course) cell)
  = negb (compiles course).
Proof.
  unfold cell_matches, re_search, compiles.
  now destruct (re_compile (pattern (subject_code course) (div_code course))).
Qed.

Lemma scan_courses_raises (row : weekly_row) (session_col cell : str)
  (enrolled : list str) :
  forall acc,
    raises (scan_courses U row session_col cell enrolled acc)
    = existsb (fun course => negb (compiles course)) enrolled.
Proof.
  induction enrolled as [|course rest IH]; intros acc; [reflexivity|].
  cbn [scan_courses existsb]. rewrite <- (cell_matches_raises course cell).
  destruct (cell_matches U (subject_code course) (div_code course) cell);
    cbn [bind raises orb]; [apply IH | reflexivity].
Qed.

Lemma scan_sessions_raises (row : weekly_row) (enrolled : list str)
  (cols : list (str * bool * cell)) :
  forall acc,
    raises (scan_sessions U row cols enrolled acc)
    = match cols with [] => false | _ :: _ => true end
      && existsb (fun course => negb (compiles course)) enrolled.
Proof.
  induction cols as [|[[col as_float] v] rest IH]; intros acc; [reflexivity|].
  cbn [scan_sessions andb].
  pose proof (scan_courses_raises row col (py_str as_float v) enrolled acc) as Hc.
  destruct (scan_courses U row col (py_str as_float v) enrolled acc) as [mid|e];
    cbn [bind raises] in *.
  - rewrite IH, <- Hc. apply andb_false_r.
  - exact Hc.
Qed.

Lemma scan_rows_raises (cols : list (str * bool)) (enrolled : list str)
  (rows : list weekly_row) :
  forall acc,
    raises (scan_rows U cols rows enrolled acc)
    = existsb (fun row => match combine cols (row_cells row) with
                          | [] => false
                          | _ :: _ => true
                          end) rows
      && existsb (fun course => negb (compiles course)) enrolled.
Proof.
  induction rows as [|row rest IH]; intros acc; [reflexivity|].
  cbn [scan_rows existsb].
  pose proof (scan_sessions_raises row enrolled (combine cols (row_cells row)) acc)
    as Hs.
  destruct (scan_sessions U row (combine cols (row_cells row)) enrolled acc)
    as [mid|e]; cbn [bind raises] in *.
  - rewrite IH.
    destruct (combine cols (row_cells row)); cbn [andb orb] in *; [reflexivity|].
    rewrite <- Hs. apply andb_false_r.
  - destruct (combine cols (row_cells row)); cbn [andb orb] in *;
      [discriminate | exact Hs].
Qed.

Lemma existsb_pointwise {A} (f g : A -> bool) (l : list A) :
  (forall x, f x = g x) -> existsb f l = existsb g l.
Proof.
  intros H. induction l as [|x l IH]; [reflexivity|].
  cbn [existsb]. now rewrite H, IH.
Qed.

(** The session columns, each with its flag, begin a row's cells exactly
    when the session columns do. *)
Lemma float_cols_length (weekly_df : weekly) :
  length (float_cols weekly_df) = length (session_cols weekly_df).
Proof. unfold float_cols. now rewrite length_map, length_seq. Qed.

Lemma combine_flags_empty {A B C} (a : list A) (b : list B) (c : list C) :
  length b = length a ->
  match combine (combine a b) c with [] => false | _ :: _ => true end
  = match combine a c with [] => false | _ :: _ => true end.
Proof.
  destruct a, b; try discriminate; [reflexivity|]. intros _. now destruct c.
Qed.

Lemma combine_flags_fst {A B} (a : list A) (b : list B) :
  length b = length a -> map fst (combine a b) = a.
Proof.
  revert b. induction a as [|x a IH]; intros [|y b] H; try discriminate;
    [reflexivity|].
  cbn [combine map fst]. f_equal. apply IH. now injection H.
Qed.

Lemma find_matches_raises (enrolled : list str) (weekly_df : weekly) :
  raises (find_matches U enrolled weekly_df)
  = has_cell weekly_df && existsb (fun course => negb (compiles course)) enrolled.
Proof.
  unfold find_matches, has_cell. rewrite scan_rows_raises. f_equal.
  apply existsb_pointwise. intros row.
  apply combine_flags_empty, float_cols_length.
Qed.


Lemma plain_division_compiles (course : str) :
  plain (div_code course) = true -> compiles course = true.
Proof.
  intros H. unfold compiles. destruct (div_code course) as [|c d].
  - now rewrite compile_unqualified.
  - now rewrite (compile_qualified _ _ _ H).
Qed.

(** X10. When no division code of the enrolled courses holds a character
    special to [re], the scan of the week does not raise and returns the
    matching cells in loop order. *)
Theorem find_matches_plain_divisions (enrolled : list str) (weekly_df : weekly) :
  (forall course, In course enrolled -> plain (div_code course) = true) ->
  find_matches U enrolled weekly_df
  = Ok (map (hit_of U) (filter (is_hit U) (candidates enrolled weekly_df))).
Proof.
  intros H.
  assert (Hr : raises (find_matches U enrolled weekly_df) = false).
  { rewrite find_matches_raises.
    replace (existsb (fun course => negb (compiles course)) enrolled) with false;
      [apply andb_false_r|].
    symmetry. apply not_true_iff_false. intros E.
    apply existsb_exists in E as (course & Hin & Hc).
    rewrite (plain_division_compiles course (H course Hin)) in Hc. discriminate. }
  destruct (find_matches U enrolled weekly_df) as [res|e] eqn:E; [|discriminate].
  f_equal. apply scan_rows_hits in E. exact E.
Qed.

Lemma candidates_In (enrolled : list str) (weekly_df : weekly) (c : candidate) :
  In c (candidates enrolled weekly_df) ->
  let '(row, session_col, cell, course) := c in
  In row (weekly_rows weekly_df)
  /\ In session_col (session_cols weekly_df)
  /\ (exists as_float v, In v (row_cells row) /\ cell = py_str as_float v)
  /\ In course enrolled.
Proof.
  unfold candidates, row_candidates. intros H.
  apply in_flat_map in H as (row & Hrow & H).
  apply in_flat_map in H as ([[col as_float] v] & Hp & H).
  apply in_map_iff in H as (course & <- & Hcourse).
  cbn [fst snd]. split; [exact Hrow|]. split; [|split; [|exact Hcourse]].
  - apply in_combine_l, in_combine_l in Hp. exact Hp.
  - exists as_float, v. split; [|reflexivity]. eapply in_combine_r. exact Hp.
Qed.

(** X11. The session of every match is the cleaned header of a session
    column of the week: it holds no newline and neither starts nor ends with
    a blank. *)
Theorem find_matches_sessions_clean (enrolled : list str) (weekly_df : weekly)
  (results : list raw_match) (r : raw_match) :
  find_matches U enrolled weekly_df = Ok results -> In r results ->
  (exists session_col, In session_col (session_cols weekly_df)
                       /\ r_Session r = clean_label U session_col)
  /\ ~ In 10 (r_Session r)
  /\ match r_Session r with c :: _ => isspace U c = false | [] => True end
  /\ match rev (r_Session r) with c :: _ => isspace U c = false | [] => True end.
Proof.
  intros H Hr. apply scan_rows_hits in H. cbn [Datatypes.app] in H. subst results.
  apply in_map_iff in Hr as ([[[row col] cell] course] & <- & Hc).
  apply filter_In in Hc as [Hc _]. apply candidates_In in Hc.
  destruct Hc as (_ & Hcol & _). cbn [hit_of r_Session].
  split; [|split; [|apply strip_ends]].
  - exists col. split; [exact Hcol | reflexivity].
  - intros Hn. unfold clean_label in Hn. apply strip_In in Hn.
    now apply replace_newline_none in Hn.
Qed.

End Scan.

(** ** The schedule *)

(** X16. The merge followed by [drop_duplicates] is a lookup: each match is
    joined with the first master row of its subject, or with missing faculty
    and venue.  Master sheets that agree on the first row of every matched
    subject give the same table, later rows of a subject being never used;
    and they give the same outcome when the merge is refused for both or for
    neither. *)
Theorem later_master_rows_unused (U : unicode_db) (P : pandas_db)
  (result_df : list raw_match) (master_df master_df' : list master_row) :
  (forall merged, merge result_df master_df = Ok merged ->
                  drop_duplicates merged
                  = drop_duplicates (map (looked_up master_df) result_df))
  /\ ((forall r, In r result_df ->
                 first_master (r_Subject r) master_df
                 = first_master (r_Subject r) master_df') ->
      schedule U P result_df master_df = schedule U P result_df master_df'
      /\ (forall final_df,
             assemble U P result_df master_df = Ok final_df ->
             unmergeable master_df' = false ->
             assemble U P result_df master_df' = Ok final_df)
      /\ (unmergeable master_df = unmergeable master_df' ->
          assemble U P result_df master_df = assemble U P result_df master_df')).
Proof.
  split.
  - intros merged H.
    assert (E : merged = merge_rows result_df master_df).
    { unfold merge in H. destruct result_df; [discriminate|].
      destruct (is_numeric _); [discriminate | congruence]. }
    subst merged. apply drop_duplicates_from_merge.
  - intros H.
    assert (Hs : schedule U P result_df master_df
                 = schedule U P result_df master_df').
    { unfold schedule, sorted_frame, unsorted_frame, date_column,
        deduplicated, drop_duplicates.
      rewrite !drop_duplicates_from_merge.
      now rewrite (map_ext_in _ _ _
                     (fun r Hr => looked_up_first_master _ _ r (H r Hr))). }
    split; [exact Hs|]. split.
    + intros final_df Hok Hm. apply assemble_ok in Hok as (-> & Hne & _ & Hd).
      rewrite assemble_eq, Hm, Hd. destruct result_df; [contradiction|].
      now rewrite Hs.
    + intros Hm. rewrite !assemble_eq, Hm, Hs. reflexivity.
Qed.

Lemma drop_duplicates_from_In (seen : list (key date_cell))
  (l : list (entry date_cell)) (e : entry date_cell) :
  In e (drop_duplicates_from seen l) -> In e l.
Proof.
  revert seen. induction l as [|x l IH]; intros seen; [tauto|].
  cbn [drop_duplicates_from].
  destruct (existsb (key_eqb (subset_key x)) seen).
  - intros H. right. eapply IH; eauto.
  - intros [<- | H]; [now left | right; eapply IH; eauto].
Qed.

(** X15. Every row of the schedule is a match joined with its master row,
    with its date read, its start time and its day cut to three characters;
    every match is represented by a row with its key; the schedule has no
    more rows than there are matches, and at least one row. *)
Theorem schedule_rows_are_matches (U : unicode_db) (P : pandas_db)
  (result_df : list raw_match) (master_df : list master_row)
  (final_df : list timed) :
  assemble U P result_df master_df = Ok final_df ->
  (forall t, In t final_df ->
             exists r, In r result_df
                       /\ t = abbreviate
                                (timed_row U P (date_column result_df master_df)
                                   (looked_up master_df r)))
  /\ (forall r, In r result_df ->
                exists t, In t final_df
                          /\ frame_key t
                             = shown_key P (date_column result_df master_df)
                                 (raw_key r))
  /\ (length final_df <= length result_df)%nat
  /\ final_df <> [].
Proof.
  intros Hok. apply assemble_ok in Hok as (-> & Hne & _).
  split; [|split; [|split]].
  - intros t Ht. apply schedule_row in Ht as (e & He & ->).
    unfold deduplicated, drop_duplicates in He.
    rewrite drop_duplicates_from_merge in He.
    apply drop_duplicates_from_In, in_map_iff in He as (r & <- & Hr). eauto.
  - intros r Hr.
    assert (Hk : In (raw_key r) (map subset_key (deduplicated result_df master_df))).
    { apply deduplicated_has_key. now apply in_map. }
    apply in_map_iff in Hk as (e & <- & He).
    exists (abbreviate (timed_row U P (date_column result_df master_df) e)).
    split; [apply schedule_row; eauto | apply frame_key_row].
  - rewrite schedule_length, <- (length_map raw_key). apply nodup_length_le.
  - now apply schedule_nonempty.
Qed.

(** ** The page *)

Lemma cell_matches_error (U : unicode_db) (course cell : str) :
  error_of (cell_matches U (subject_code course) (div_code course) cell)
  = error_of (re_compile (pattern (subject_code course) (div_code course))).
Proof.
  unfold cell_matches, re_search.
  now destruct (re_compile (pattern (subject_code course) (div_code course))).
Qed.

Lemma scan_courses_error (U : unicode_db) (row : weekly_row)
  (session_col cell : str) (enrolled : list str) :
  forall acc,
    error_of (scan_courses U row session_col cell enrolled acc)
    = compile_error enrolled.
Proof.
  induction enrolled as [|course rest IH]; intros acc; [reflexivity|].
  cbn [scan_courses compile_error].
  pose proof (cell_matches_error U course cell) as Hc.
  destruct (cell_matches U (subject_code course) (div_code course) cell);
    destruct (re_compile (pattern (subject_code course) (div_code course)));
    cbn [bind error_of] in *; try discriminate; [apply IH | exact Hc].
Qed.

Lemma scan_sessions_error (U : unicode_db) (row : weekly_row)
  (enrolled : list str) (cols : list (str * bool * cell)) :
  forall acc,
    error_of (scan_sessions U row cols enrolled acc)
    = match cols with [] => None | _ :: _ => compile_error enrolled end.
Proof.
  induction cols as [|[[col as_float] v] rest IH]; intros acc; [reflexivity|].
  cbn [scan_sessions].
  pose proof (scan_courses_error U row col (py_str as_float v) enrolled acc) as Hc.
  destruct (scan_courses U row col (py_str as_float v) enrolled acc) as [mid|e];
    cbn [bind error_of] in *; [|exact Hc].
  rewrite IH, <- Hc. now destruct rest.
Qed.

Lemma scan_rows_error (U : unicode_db) (cols : list (str * bool))
  (enrolled : list str) (rows : list weekly_row) :
  forall acc,
    error_of (scan_rows U cols rows enrolled acc)
    = if existsb (fun row => match combine cols (row_cells row) with
                             | [] => false
                             | _ :: _ => true
                             end) rows
      then compile_error enrolled else None.
Proof.
  induction rows as [|row rest IH]; intros acc; [reflexivity|].
  cbn [scan_rows existsb].
  pose proof (scan_sessions_error U row enrolled (combine cols (row_cells row)) acc)
    as Hs.
  destruct (scan_sessions U row (combine cols (row_cells row)) enrolled acc)
    as [mid|e]; cbn [bind error_of] in *.
  - rewrite IH.
    destruct (combine cols (row_cells row)); cbn [orb]; [reflexivity|].
    rewrite <- Hs. now destruct (existsb _ rest).
  - destruct (combine cols (row_cells row)); cbn [orb]; [discriminate | exact Hs].
Qed.

Lemma find_matches_error (U : unicode_db) (enrolled : list str)
  (weekly_df : weekly) :
  error_of (find_matches U enrolled weekly_df)
  = if has_cell weekly_df then compile_error enrolled else None.
Proof.
  unfold find_matches, has_cell. rewrite scan_rows_error.
  match goal with
  | |- (if existsb ?f ?l then _ else _) = (if existsb ?g _ then _ else _) =>
      rewrite (existsb_pointwise f g l); [reflexivity|]
  end.
  intros row. apply combine_flags_empty, float_cols_length.
Qed.

Lemma find_matches_no_courses (U : unicode_db) (weekly_df : weekly) :
  find_matches U [] weekly_df = Ok [].
Proof.
  unfold find_matches.
  generalize (combine (session_cols weekly_df) (float_cols weekly_df)) as cols.
  generalize (@nil raw_match) as acc. intros acc cols. revert acc.
  induction (weekly_rows weekly_df) as [|row rows IH]; intros acc; [reflexivity|].
  cbn [scan_rows].
  assert (Hs : forall l acc', scan_sessions U row l [] acc' = Ok acc').
  { induction l as [|[[? ?] ?] l IHl]; intros acc'; [reflexivity|].
    cbn [scan_sessions scan_courses bind]. apply IHl. }
  rewrite Hs. cbn [bind]. apply IH.
Qed.

Lemma compile_error_In (enrolled : list str) (e : exn) :
  compile_error enrolled = Some e ->
  exists course,
    In course enrolled
    /\ re_compile (pattern (subject_code course) (div_code course)) = Raise e.
Proof.
  induction enrolled as [|course rest IH]; [discriminate|].
  cbn [compile_error].
  destruct (re_compile (pattern (subject_code course) (div_code course))) eqn:E.
  - intros H. destruct (IH H) as (c & Hc & Hr). exists c. split; [now right | exact Hr].
  - intros H. injection H as <-. exists course. split; [now left | exact E].
Qed.

Lemma app_outcomes (U : unicode_db) (P : pandas_db) (roll_no : str)
  (listing : list roster_file) (master_df : list master_row)
  (weekly_df : weekly) :
  (forall e,
      app U P roll_no listing master_df weekly_df = Raise e
      <-> roll_no <> []
          /\ ((has_cell weekly_df = true
               /\ compile_error (get_student_courses roll_no listing) = Some e)
              \/ exists results,
                   find_matches U (get_student_courses roll_no listing) weekly_df
                   = Ok results
                   /\ results <> []
                   /\ (e = ValueError /\ unmergeable master_df = true
                       \/ e = AttributeError
                          /\ unmergeable master_df = false
                          /\ has_text (map r_Day results) = false)))
  /\ (forall enrolled final_df,
         app U P roll_no listing master_df weekly_df
         = Ok (Schedule enrolled final_df) ->
         roll_no <> []
         /\ enrolled = get_student_courses roll_no listing
         /\ enrolled <> []
         /\ final_df <> []
         /\ exists results,
             find_matches U enrolled weekly_df = Ok results
             /\ assemble U P results master_df = Ok final_df).
Proof.
  unfold app. destruct roll_no as [|c roll].
  { split; [|discriminate]. intros e. split; [discriminate|].
    intros [H _]. now contradiction H. }
  cbv zeta.
  pose proof (find_matches_error U (get_student_courses (c :: roll) listing)
                weekly_df) as Herr.
  destruct (get_student_courses (c :: roll) listing) as [|course courses] eqn:Ee.
  { split; [|discriminate]. intros e. split; [discriminate|].
    intros [_ [[_ H] | (results & H & Hne & _)]]; [discriminate|].
    rewrite find_matches_no_courses in H. injection H as <-. contradiction. }
  destruct (find_matches U (course :: courses) weekly_df) as [results|e0] eqn:Ef;
    cbn [bind error_of] in *.
  - destruct results as [|r rs].
    { split; [|discriminate]. intros e. split; [discriminate|].
      intros [_ [[Hc H] | (results & H & Hne & _)]].
      - rewrite Hc in Herr. congruence.
      - injection H as <-. contradiction. }
    rewrite assemble_eq.
    destruct (unmergeable master_df) eqn:Em; cbn [bind].
    { split; [|discriminate]. intros e. split.
      - intros H. injection H as <-. split; [discriminate|]. right.
        exists (r :: rs). split; [reflexivity|]. split; [discriminate|]. now left.
      - intros [_ [[Hc H] | (results & H & Hne & [[-> _] | [_ [Hm _]]])]].
        + rewrite Hc in Herr. congruence.
        + reflexivity.
        + discriminate. }
    destruct (has_text (map r_Day (r :: rs))) eqn:Ed; cbn [bind].
    + split.
      * intros e. split; [discriminate|].
        intros [_ [[Hc H] | (results & H & Hne & [[_ Hm] | [_ [_ Hd]]])]].
        -- rewrite Hc in Herr. congruence.
        -- discriminate.
        -- injection H as <-. congruence.
      * intros enrolled final_df H. injection H as <- <-.
        repeat split; try discriminate.
        -- now apply schedule_nonempty.
        -- exists (r :: rs). split; [exact Ef|].
           now rewrite assemble_eq, Em, Ed.
    + split; [|discriminate]. intros e. split.
      * intros H. injection H as <-. split; [discriminate|]. right.
        exists (r :: rs). split; [reflexivity|]. split; [discriminate|].
        right. auto.
      * intros [_ [[Hc H] | (results & H & Hne & [[_ Hm] | [-> _]])]].
        -- rewrite Hc in Herr. congruence.
        -- discriminate.
        -- reflexivity.
  - split; [|discriminate]. intros e. split.
    + intros H. injection H as <-. split; [discriminate|]. left.
      destruct (has_cell weekly_df); [split; [reflexivity|]; now symmetry |
                                      discriminate].
    + intros [_ [[Hc H] | (results & H & _)]]; [|discriminate].
      rewrite Hc in Herr. congruence.
Qed.

(** ** Cells that name a course *)

Lemma startswith_app (p t : str) : startswith p (p ++ t) = true.
Proof.
  induction p as [|c p IH]; [reflexivity|].
  cbn [Datatypes.app startswith]. now rewrite N.eqb_refl, IH.
Qed.

Lemma skipn_length_app (p t : str) : skipn (length p) (p ++ t) = t.
Proof. induction p as [|c p IH]; [reflexivity | exact IH]. Qed.

Lemma division_tail_unfold (U : unicode_db) (div s : str) :
  division_tail U div s
  = startswith (div ++ [41]) s
    || match s with
       | x :: t => isspace U x && division_tail U div t
       | [] => false
       end.
Proof. destruct s; reflexivity. Qed.

Lemma division_tail_blanks (U : unicode_db) (div ws rest : str) :
  forallb (isspace U) ws = true ->
  division_tail U div (ws ++ div ++ 41 :: rest) = true.
Proof.
  induction ws as [|x ws IH]; intros H.
  - cbn [Datatypes.app]. rewrite division_tail_unfold.
    replace (div ++ 41 :: rest) with ((div ++ [41]) ++ rest)
      by (now rewrite <- app_assoc).
    now rewrite startswith_app.
  - cbn [forallb] in H. apply andb_true_iff in H as [Hx Hws].
    cbn [Datatypes.app division_tail]. rewrite Hx, (IH Hws). apply orb_true_r.
Qed.

Lemma qualified_hit_later (U : unicode_db) (subject div : str) (pre x : str) :
  forall prev,
    qualified_here U subject div (prev_after pre prev) x = true ->
    qualified_hit U subject div prev (pre ++ x) = true.
Proof.
  induction pre as [|c pre IH]; intros prev H.
  - cbn [Datatypes.app]. cbn [prev_after fold_left] in H.
    destruct x; cbn [qualified_hit]; now rewrite H.
  - cbn [Datatypes.app qualified_hit]. rewrite (IH (Some c) H). apply orb_true_r.
Qed.

(** X7. A cell in which the subject code starts at a word boundary and is
    followed by an opening parenthesis, at most one apostrophe (straight or
    typographic), any blanks, the division code and a closing parenthesis
    matches the course, whatever stands before and after, when the division
    code holds no character special to [re]. *)
Theorem listed_course_is_found (U : unicode_db)
  (subject div pre apostrophe ws rest : str) :
  match subject with c :: _ => isword U c = true | [] => False end ->
  word_at U (prev_after pre None) = false ->
  div <> [] -> plain div = true ->
  apostrophe = [] \/ apostrophe = [39] \/ apostrophe = [8217] ->
  forallb (isspace U) ws = true ->
  cell_matches U subject div
    (pre ++ subject ++ py "(" ++ apostrophe ++ ws ++ div ++ py ")" ++ rest)
  = Ok true.
Proof.
  intros Hs Hpre Hne Hplain Hap Hws. destruct div as [|c d]; [contradiction|].
  unfold cell_matches, re_search. rewrite (compile_qualified _ _ _ Hplain).
  cbn [bind]. f_equal.
  transitivity
    (succeeds (search_from U false (qualified_code subject (c :: d)) 0 None
                 (pre ++ subject ++ py "(" ++ apostrophe ++ ws ++ (c :: d)
                    ++ py ")" ++ rest)));
    [now destruct (search_from U false (qualified_code subject (c :: d)) 0 None _)|].
  rewrite search_from_qualified. apply qualified_hit_later.
  unfold qualified_here. rewrite startswith_app, skipn_length_app.
  change (py "(" ++ apostrophe ++ ws ++ (c :: d) ++ py ")" ++ rest)
    with (40 :: (apostrophe ++ ws ++ (c :: d) ++ 41 :: rest)).
  rewrite andb_true_r.
  assert (Hb : at_position U AT_BOUNDARY (prev_after pre None)
                 (subject ++ 40 :: apostrophe ++ ws ++ (c :: d) ++ 41 :: rest)
               = true).
  { cbn [at_position]. rewrite Hpre. destruct subject as [|x subject]; [contradiction|].
    cbn [Datatypes.app hd_error word_at]. now rewrite Hs. }
  rewrite Hb. cbn [andb]. rewrite N.eqb_refl. cbn [andb].
  pose proof (division_tail_blanks U (c :: d) ws rest Hws) as Ht.
  destruct Hap as [-> | [-> | ->]]; cbn [Datatypes.app] in Ht |- *; rewrite Ht.
  - apply orb_true_r.
  - reflexivity.
  - reflexivity.
Qed.

(** ** Clock labels *)

Lemma clock_labels_checked (U : unicode_db) :
  forallb (hour_checked U) (seq 1 12) = true.
Proof. vm_compute. reflexivity. Qed.

Lemma forallb_In {A} (f : A -> bool) (l : list A) (x : A) :
  forallb f l = true -> In x l -> f x = true.
Proof. intros H. now apply forallb_forall. Qed.

Lemma extract_start_time_cleaned (U : unicode_db) (session label : str) :
  clean_label U session = label ->
  extract_start_time U session = extract_start_time U label.
Proof.
  intros H. unfold extract_start_time. cbv zeta.
  change (strip U (replace [10] (py " ") session)) with (clean_label U session).
  change (strip U (replace [10] (py " ") label)) with (clean_label U label).
  subst label. now rewrite clean_label_idempotent.
Qed.

(** X14. A session label that, once cleaned, is a 12-hour clock time written
    without a blank before AM or PM gives that time of day: the hour alone
    gives the full hour, hour and two-digit minute joined by a colon or a dot
    give hour and minute, 12 AM being 0 and 12 PM being 12.  The same label
    with a blank before AM or PM gives no start time. *)
Theorem clock_label_start_time (U : unicode_db)
  (h m : nat) (hh sep half : str) (afternoon : bool) (session : str) :
  (1 <= h <= 12)%nat -> (m < 60)%nat ->
  In hh (hour_texts h) -> In sep [py ":"; py "."] ->
  In (half, afternoon) day_halves ->
  (clean_label U session = hh ++ half ->
   extract_start_time U session = Some (clock h 0 afternoon))
  /\ (clean_label U session = hh ++ sep ++ two_digits m ++ half ->
      extract_start_time U session = Some (clock h m afternoon))
  /\ (clean_label U session = hh ++ sep ++ two_digits m ++ py " " ++ half ->
      extract_start_time U session = None).
Proof.
  intros Hh Hm Hhh Hsep Hhalf.
  assert (Hin : In h (seq 1 12)) by (apply in_seq; lia).
  assert (Hinm : In m (seq 0 60)) by (apply in_seq; lia).
  pose proof (forallb_In (hour_checked U) (seq 1 12) h
                (clock_labels_checked U) Hin) as H1.
  pose proof (forallb_In (hour_text_checked U h) (hour_texts h) hh H1 Hhh) as H2.
  pose proof (forallb_In (half_checked U h hh) day_halves (half, afternoon)
                H2 Hhalf) as H3.
  apply andb_true_iff in H3 as [H0 H3].
  pose proof (forallb_In (minute_checked U h hh (half, afternoon)) (seq 0 60) m
                H3 Hinm) as H4.
  pose proof (forallb_In (label_checked U h hh (half, afternoon) m)
                [py ":"; py "."] sep H4 Hsep) as H5.
  apply andb_true_iff in H5 as [H5 H6].
  apply start_eqb_eq in H0, H5, H6. cbn [fst snd] in H0, H5, H6.
  repeat split; intros E; rewrite (extract_start_time_cleaned U _ _ E); assumption.
Qed.

(** ** The roster scan, file by file *)

Lemma endswith_app (p s : str) : endswith p (s ++ p) = true.
Proof. unfold endswith. rewrite rev_app_distr. apply startswith_app. Qed.

Lemma get_student_courses_app (roll_no : str) (l1 l2 : list roster_file) :
  get_student_courses roll_no (l1 ++ l2)
  = get_student_courses roll_no l1 ++ get_student_courses roll_no l2.
Proof. rewrite !get_student_courses_flat_map. apply flat_map_app. Qed.

(** X2. A roster file named by a stem without ".xlsx" in it, followed by
    ".xlsx", whose sheet lists the roll number, contributes exactly its stem,
    between the courses of the files listed before it and those of the files
    listed after it. *)
Theorem roster_file_contributes_stem (roll_no stem : str) (sheet : frame)
  (before after : list roster_file) :
  contains (py ".xlsx") stem = false ->
  lists_roll roll_no sheet = true ->
  get_student_courses roll_no
    (before ++ {| file_name := stem ++ py ".xlsx"; file_sheet := sheet |} :: after)
  = get_student_courses roll_no before
      ++ stem :: get_student_courses roll_no after.
Proof.
  intros Hstem Hroll. rewrite get_student_courses_app. f_equal.
  rewrite !get_student_courses_flat_map. cbn [flat_map]. unfold file_courses at 1.
  cbn [file_name file_sheet].
  now rewrite endswith_app, Hroll, (replace_xlsx_suffix stem Hstem).
Qed.

(** The file "CS101_A.xlsx" between a text file and a roster of another
    student. *)
Lemma roster_file_contributes_stem_witness :
  get_student_courses roll_21BCM014
    ([roster "MA102.txt" [CStr roll_21BCM014]]
       ++ {| file_name := py "CS101_A" ++ py ".xlsx";
             file_sheet := [(roll_column, [CInt 7; CStr roll_21BCM014])] |}
       :: [roster "EC201_B.xlsx" [CStr (py "21BCM015")]])
  = get_student_courses roll_21BCM014 [roster "MA102.txt" [CStr roll_21BCM014]]
      ++ py "CS101_A"
      :: get_student_courses roll_21BCM014
           [roster "EC201_B.xlsx" [CStr (py "21BCM015")]].
Proof.
  apply (roster_file_contributes_stem roll_21BCM014 (py "CS101_A")
           [(roll_column, [CInt 7; CStr roll_21BCM014])]);
    vm_compute; reflexivity.
Defined.

(** X3. The roster scan returns one base name for each listed file whose name
    ends in ".xlsx" and whose sheet lists the roll number, in the order of
    the listing and without removing repetitions; the scan of two listings
    put end to end is the two results put end to end, and there are never
    more courses than files. *)
Theorem roster_scan_in_listing_order (roll_no : str)
  (listing more : list roster_file) :
  get_student_courses roll_no listing
  = map (fun f => replace (py ".xlsx") [] (file_name f))
      (filter (fun f => endswith (py ".xlsx") (file_name f)
                        && lists_roll roll_no (file_sheet f))
         listing)
  /\ get_student_courses roll_no (listing ++ more)
     = get_student_courses roll_no listing ++ get_student_courses roll_no more
  /\ (length (get_student_courses roll_no listing) <= length listing)%nat.
Proof.
  assert (H : get_student_courses roll_no listing
              = map (fun f => replace (py ".xlsx") [] (file_name f))
                  (filter (fun f => endswith (py ".xlsx") (file_name f)
                                    && lists_roll roll_no (file_sheet f))
                     listing)).
  { rewrite get_student_courses_flat_map.
    induction listing as [|f fs IH]; [reflexivity|].
    cbn [flat_map filter]. rewrite IH. unfold file_courses.
    destruct (endswith (py ".xlsx") (file_name f)); [|reflexivity].
    destruct (lists_roll roll_no (file_sheet f)); reflexivity. }
  split; [exact H|]. split; [apply get_student_courses_app|].
  rewrite H, length_map. apply filter_length_le.
Qed.

(** X18. The lookup of the page: the roster scan, the scan of the week and
    the assembly of the schedule (the cards and the export that follow are
    not part of it).  Take a roll number all of whose courses have patterns
    in the embedded part of [re].  The lookup raises [e] exactly when a
    roll number was typed and either the week has a session cell and [e] is
    the first exception met in compiling the patterns of the courses, or the
    week has matches and the master sheet cannot be merged ([ValueError]),
    or it can and no match has text for its day ([AttributeError]).  When
    the page shows a schedule, the roll number is not empty, the courses
    are those of the roster scan and there is at least one, and the
    schedule is the non-empty table assembled from the matches.  The lookup
    never leaves the embedded part of [re]. *)
Theorem page_outcomes (U : unicode_db) (P : pandas_db) (roll_no : str)
  (listing : list roster_file) (master_df : list master_row)
  (weekly_df : weekly) :
  (forall course, In course (get_student_courses roll_no listing) ->
                  modelled course = true) ->
  (forall e,
      app U P roll_no listing master_df weekly_df = Raise e
      <-> roll_no <> []
          /\ ((has_cell weekly_df = true
               /\ compile_error (get_student_courses roll_no listing) = Some e)
              \/ exists results,
                   find_matches U (get_student_courses roll_no listing) weekly_df
                   = Ok results
                   /\ results <> []
                   /\ (e = ValueError /\ unmergeable master_df = true
                       \/ e = AttributeError
                          /\ unmergeable master_df = false
                          /\ has_text (map r_Day results) = false)))
  /\ (forall enrolled final_df,
         app U P roll_no listing master_df weekly_df
         = Ok (Schedule enrolled final_df) ->
         roll_no <> []
         /\ enrolled = get_student_courses roll_no listing
         /\ enrolled <> []
         /\ final_df <> []
         /\ exists results,
             find_matches U enrolled weekly_df = Ok results
             /\ assemble U P results master_df = Ok final_df)
  /\ app U P roll_no listing master_df weekly_df <> Raise NotModelled.
Proof.
  intros Hmod.
  destruct (app_outcomes U P roll_no listing master_df weekly_df) as [Hraise Hshow].
  split; [exact Hraise|]. split; [exact Hshow|].
  intros H. apply Hraise in H as [_ [[_ Hc] | (results & _ & _ & [[He _] | [He _]])]];
    try discriminate.
  apply compile_error_In in Hc as (course & Hin & Hr).
  specialize (Hmod course Hin). unfold modelled in Hmod. rewrite Hr in Hmod.
  discriminate.
Qed.

(** ** Rows without a start time *)

Lemma schedule_start_time (U : unicode_db) (P : pandas_db)
  (result_df : list raw_match) (master_df : list master_row) (t : timed) :
  In t (schedule U P result_df master_df) ->
  Start_Time t = extract_start_time U (Session (base t)).
Proof. intros H. now rewrite (schedule_keyed U P _ _ _ H) at 1. Qed.

(** X17. The start time of every row of the schedule is the one read from its
    session label.  A row whose label gives no start time stands after every
    row of the same date whose label gives one, and a row without a date
    stands after every dated row. *)
Theorem untimed_rows_last (U : unicode_db) (P : pandas_db)
  (result_df : list raw_match) (master_df : list master_row)
  (final_df : list timed) (i j : nat) (a b : timed) :
  assemble U P result_df master_df = Ok final_df ->
  nth_error final_df i = Some a ->
  nth_error final_df j = Some b ->
  Start_Time a = extract_start_time U (Session (base a))
  /\ (Date (base a) = Date (base b) ->
      extract_start_time U (Session (base a)) = None ->
      extract_start_time U (Session (base b)) <> None ->
      (j < i)%nat)
  /\ (Date (base a) = None -> Date (base b) <> None -> (j < i)%nat).
Proof.
  intros Hok Ha Hb. apply assemble_ok in Hok as (-> & _).
  pose proof (schedule_start_time U P result_df master_df a (nth_error_In _ _ Ha))
    as Hta.
  pose proof (schedule_start_time U P result_df master_df b (nth_error_In _ _ Hb))
    as Htb.
  assert (Hlast : ~ before a b -> (j < i)%nat).
  { intros Hnot. destruct (Nat.lt_trichotomy i j) as [Hij | [Hij | Hij]];
      [| |exact Hij]; exfalso; apply Hnot.
    - exact (sorted_nth _ (schedule_sorted U P result_df master_df) i j a b Hij Ha Hb).
    - subst j. rewrite Ha in Hb. injection Hb as <-.
      unfold before. apply sort_key_leb_refl. }
  split; [exact Hta|]. split.
  - intros Hd Hna Hnb. apply Hlast. unfold before, sort_key, sort_key_leb.
    cbn [fst snd]. rewrite Hd, (proj2 (date_eqb_eq _ _) eq_refl), Hta, Htb, Hna.
    destruct (extract_start_time U (Session (base b))); [discriminate | contradiction].
  - intros Hna Hnb. apply Hlast. unfold before, sort_key, sort_key_leb.
    cbn [fst snd]. rewrite Hna.
    destruct (Date (base b)); [discriminate | contradiction].
Qed.

(** On [lunch_first] the lunch break, matched first, is the last row. *)
Lemma untimed_rows_last_witness :
  map (fun t => (Session (base t), Start_Time t))
    (schedule ascii_db no_dates lunch_first [])
  = [(py "9:00AM-10:00AM", Some {| hour := 9; minute := 0 |});
     (py "Lunch Break", None)]
  /\ (0 < 1)%nat.
Proof.
  split; [vm_compute; reflexivity|].
  apply (proj1 (proj2 (untimed_rows_last ascii_db no_dates lunch_first []
           (schedule ascii_db no_dates lunch_first []) 1 0
           (keyed_row ascii_db []
              (Some 20241104%Z, CStr (py "Mon"), py "Lunch Break", py "CS101", py "A"))
           (keyed_row ascii_db []
              (Some 20241104%Z, CStr (py "Mon"), py "9:00AM-10:00AM", py "MA102", []))
           eq_refl eq_refl eq_refl)));
    vm_compute; [reflexivity | reflexivity | discriminate].
Defined.

(** ** The properties on the sample sheets *)

(** The cell "Lab CS101(A) Room 5" for the course CS101_A. *)
Lemma cell_matches_qualified_witness :
  cell_matches ascii_db (py "CS101") (py "A") (py "Lab CS101(A) Room 5")
  = Ok (qualified_hit ascii_db (py "CS101") (py "A") None (py "Lab CS101(A) Room 5"))
  /\ qualified_hit ascii_db (py "CS101") (py "A") None (py "Lab CS101(A) Room 5")
     = true.
Proof.
  split; [|vm_compute; reflexivity].
  apply (cell_matches_qualified ascii_db (py "CS101") (py "A")
           (py "Lab CS101(A) Room 5")); [discriminate | reflexivity].
Defined.

(** The identifiers "MA102", "MA102_B" and "MA102_B_2024". *)
Lemma course_identifier_decoded_witness :
  (subject_code (py "MA102") = py "MA102" /\ div_code (py "MA102") = [])
  /\ (subject_code (py "MA102" ++ py "_" ++ py "B") = py "MA102"
      /\ div_code (py "MA102" ++ py "_" ++ py "B") = py "B")
  /\ (subject_code (py "MA102" ++ py "_" ++ py "B" ++ py "_" ++ py "2024")
      = py "MA102"
      /\ div_code (py "MA102" ++ py "_" ++ py "B" ++ py "_" ++ py "2024")
         = py "B").
Proof.
  apply (course_identifier_decoded (py "MA102") (py "B") (py "2024"));
    reflexivity.
Defined.

(** The two cells of [two_day_names] for a student of MA102 and CS101_A. *)
Lemma find_matches_hits_witness :
  [{| r_Date := monday; r_Day := CStr (py "Monday");
      r_Session := py "9:00AM-10:00AM"; r_Subject := py "CS101";
      r_Div := py "A"; r_Cell_Info := py "CS101(A) Room 5" |};
   {| r_Date := monday; r_Day := CStr (py "Mon");
      r_Session := py "9:00AM-10:00AM"; r_Subject := py "CS101";
      r_Div := py "A"; r_Cell_Info := py "CS101(A) Room 5" |}]
  = map (hit_of ascii_db)
      (filter (is_hit ascii_db)
         (candidates [py "MA102"; py "CS101_A"] two_day_names)).
Proof.
  apply (find_matches_hits ascii_db [py "MA102"; py "CS101_A"] two_day_names).
  vm_compute. reflexivity.
Defined.

(** The same week: neither division code holds a special character. *)
Lemma find_matches_plain_divisions_witness :
  find_matches ascii_db [py "MA102"; py "CS101_A"] two_day_names
  = Ok (map (hit_of ascii_db)
          (filter (is_hit ascii_db)
             (candidates [py "MA102"; py "CS101_A"] two_day_names))).
Proof.
  apply (find_matches_plain_divisions ascii_db [py "MA102"; py "CS101_A"]
           two_day_names).
  intros course [<- | [<- | []]]; reflexivity.
Defined.

(** The header of [wrapped_week], written over two lines, as it is stored. *)
Lemma find_matches_sessions_clean_witness :
  (exists session_col,
      In session_col (session_cols wrapped_week)
      /\ py "9:00AM- 10:00AM" = clean_label ascii_db session_col)
  /\ ~ In 10 (py "9:00AM- 10:00AM").
Proof.
  pose proof (find_matches_sessions_clean ascii_db [py "CS101_A"] wrapped_week
                [{| r_Date := monday; r_Day := CStr (py "Monday");
                    r_Session := py "9:00AM- 10:00AM"; r_Subject := py "CS101";
                    r_Div := py "A"; r_Cell_Info := py "CS101(A) Room 5" |}]
                {| r_Date := monday; r_Day := CStr (py "Monday");
                   r_Session := py "9:00AM- 10:00AM"; r_Subject := py "CS101";
                   r_Div := py "A"; r_Cell_Info := py "CS101(A) Room 5" |}
                eq_refl (or_introl eq_refl)) as [H1 [H2 _]].
  split; [exact H1 | exact H2].
Defined.

(** The two matches of [late_first] with the master sheet that lists CS101
    twice. *)
Lemma schedule_rows_are_matches_witness :
  (length (schedule ascii_db no_dates late_first repeated_master)
   <= length late_first)%nat
  /\ schedule ascii_db no_dates late_first repeated_master <> [].
Proof.
  apply (proj2 (proj2 (schedule_rows_are_matches ascii_db no_dates late_first
                         repeated_master
                         (schedule ascii_db no_dates late_first repeated_master)
                         ltac:(vm_compute; reflexivity)))).
Defined.

(** A roster named "MA102_(.xlsx": the division code opens a group that is
    never closed, and the lookup raises [re.error] at the first cell. *)
Lemma page_outcomes_witness :
  app ascii_db no_dates roll_21BCM014
    [roster "MA102_(.xlsx" [CStr roll_21BCM014]] [] two_day_names
  = Raise ReError.
Proof.
  assert (Hmod : forall course,
             In course (get_student_courses roll_21BCM014
                          [roster "MA102_(.xlsx" [CStr roll_21BCM014]]) ->
             modelled course = true).
  { intros course Hin. vm_compute in Hin. destruct Hin as [<- | []].
    vm_compute. reflexivity. }
  apply (proj2 (proj1 (page_outcomes ascii_db no_dates roll_21BCM014
                         [roster "MA102_(.xlsx" [CStr roll_21BCM014]] []
                         two_day_names Hmod) ReError)).
  split; [discriminate|]. left. split; vm_compute; reflexivity.
Defined.

(** "Lunch Break" has no digit. *)
Lemma extract_start_time_needs_digit_witness :
  extract_start_time ascii_db (py "Lunch Break") = None.
Proof.
  apply (extract_start_time_needs_digit ascii_db (py "Lunch Break")). reflexivity.
Defined.

(** A cell with a typographic apostrophe and a blank before the division. *)
Lemma listed_course_is_found_witness :
  cell_matches ascii_db (py "CS101") (py "A")
    (py "Lab: " ++ py "CS101" ++ py "(" ++ [8217] ++ py " " ++ py "A" ++ py ")"
       ++ py " Room 5")
  = Ok true.
Proof.
  apply (listed_course_is_found ascii_db (py "CS101") (py "A") (py "Lab: ")
           [8217] (py " ") (py " Room 5")).
  - reflexivity.
  - reflexivity.
  - discriminate.
  - reflexivity.
  - right. right. reflexivity.
  - reflexivity.
Defined.

(** Five past noon, written with a dot, in lower case, with a blank before
    and a newline after. *)
Lemma clock_label_start_time_witness :
  extract_start_time ascii_db (py " 12.05pm" ++ [10])
  = Some {| hour := 12; minute := 5 |}.
Proof.
  apply (proj1 (proj2 (clock_label_start_time ascii_db 12 5 (py "12") (py ".")
                         (py "pm") true (py " 12.05pm" ++ [10])
                         ltac:(lia)
                         ltac:(lia) (or_introl eq_refl)
                         (or_intror (or_introl eq_refl))
                         (or_intror (or_intror (or_intror (or_introl eq_refl))))))).
  vm_compute. reflexivity.
Defined.
